(* ===== verification/_CoqProject ===== *)
-Q . S2P
Prelude.v
Schema.v
Storage.v
Session.v
Auth.v
Routes.v
SignIn.v
SavedSpec.v
Server.v
TravelData.v
Home.v
ComparisonTable.v
Client.v
Card.v
Compare.v
Profile.v
Navigation.v
Landing.v
