(* ===== verification/Prelude.v ===== *)
(** * TravelCompanion: a verification development of the server and client logic

    The repository is a travel-planning web application (TypeScript).  Its
    server (src/server) is an Express application backed by PostgreSQL
    through drizzle-orm.  Its client (src/client) is a React single-page
    application.  This development models the program as executable Rocq
    functions, one file per component.  It proves the properties that make
    the session-authenticated, ownership-scoped CRUD layer correct, and the
    places where the client and the server, or the code and the
    specification, disagree.

    ** Parts of the program and how they interact

    A request carries a session cookie and a JSON body.  Express runs the
    session middleware (express-session, configured by [setupSession] in
    src/server/auth.ts), then the route's guard [isAuthenticated], then the
    handler.  Handlers validate the body with a zod schema of
    src/shared/schema.ts.  They then call the storage object of
    src/server/storage.ts, which runs SQL against the tables of
    src/shared/schema.ts.  The client pages (home.tsx, profile.tsx,
    signin.tsx) build the bodies they send from the mock catalogue of
    travel-data.ts and from their forms.  They read back the JSON the
    routes answer.  The option cards (travel-option-card.tsx) raise the
    page's save and remove events.  The landing page sends nothing.

    ** Files, in dependency order

    - [Prelude] (this file): the result monad [result] with the notation
      [x <- c ;; k] (scope [tc_scope]); JSON values as the body parser
      produces them ([Json]); the object spread [{...body, k: v}]
      ([spread_with]); JavaScript truthiness of numbers; the [tc] hint
      databases; the string fallback [x || d] ([str_or]); [run_events],
      a run of a page's events with the effects they yield, and its
      invariant lemma [run_events_inv]; generic lemmas on lists, strings
      and [rtc].
    - [Schema]: the rows of the tables [users], [saved_options] and
      [search_history] (Modules [Users], [SavedOptions], [SearchHistory]),
      with the JSON [res.json] sends for them; the declared but unused
      [sessions] table ([Sessions]).  The zod schemas of
      schema.ts are parsers from JSON to a record or to zod's issue list.
    - [Storage]: the database state ([DB]: three tables and their serial
      sequences), the [IStorage] interface as a type class, and Module
      [DatabaseStorage].  Each method of storage.ts carries the checks
      PostgreSQL performs, in order: sequence, not null, primary key,
      unique indexes, foreign key.  [db_wf] is the invariant of the
      tables; [db_step] is the step relation of the writes.
    - [Session]: express-session's MemoryStore ([gmap] from session id to
      session), the middleware's entry [session_begin] and exit
      [session_end] for the options [setupSession] passes ([resave: false],
      [saveUninitialized: false], [maxAge] of 24 hours; the store's
      [touch] of an unmodified session), and the guard [isAuthenticated].
    - [Auth]: the handlers of [setupAuthRoutes]; a handler maps a body,
      the request environment, the session and the storage to the new
      session, the new storage and the response.
    - [Routes]: the handlers of [registerRoutes], the [Route] type with
      [dispatch], and Express's routing of a method and a URL: the path
      before ['?'] ([url_path]), its segments ([split_path]), the
      registrations of auth.ts ([auth_route_of]) before those of routes.ts
      ([app_route_of]), a [:optionId] parameter decoded by
      [decodeURIComponent] ([percent_decode]), and the outcome [Routing]
      (a route, the final 404, or 400 for a parameter that does not
      decode).
    - [SignIn]: the sign-in page (signin.tsx): its form, the resolver,
      and [onSubmit]'s request and its two outcomes.
    - [SavedSpec]: the specification's ownership-scoped store of saved
      options as a [gset] of (owner, optionId) pairs.  [alpha] abstracts a
      database to it; [abs_call_step] is its step relation labelled by the
      storage call ([DbCall]) and its outcome, [exec_call] runs a call on
      the database.
    - [Server]: one request is [session_begin], [dispatch], [session_end].
      [serve] takes a request by method and URL: it routes it, and a path
      no route serves runs the session middleware alone
      ([middleware_only]).  [server_step] is one request; [reachable] is
      [rtc server_step] from the empty server.
    - [TravelData]: the [TravelOption] interface, the mock catalogue, and
      the JSON snapshot the client saves as [optionData].
    - [Home]: the search form (travel-search.tsx) as a state machine, the
      home page's state, events and API calls, the mutations' toasts and
      refetches, the tabs, and the branch each tab renders (home.tsx).
      Also [handleToggleSave] of travel-option-card.tsx.
    - [ComparisonTable]: headers and row cells of comparison-table.tsx.
    - [Client]: the client against the server: the rows the page reads
      come from the routes, and the requests it sends reach them.
    - [Card]: [renderCardContent] of travel-option-card.tsx, per type.
      Also the search tab's grids of cards.
    - [Compare]: the rendered comparison table, the trips tab's cards and
      the React keys of their rows, with [Proper] instances over
      permutations of the server's rows.
    - [Profile]: profile.tsx as a state machine ([profile_step]: the
      query's answer, form edits, badge clicks, submit, the mutation's
      result), its view, and the PATCH body.
    - [Navigation]: the menu items, the active-item test, the desktop bar
      and the mobile sheet as lists of links, the user menu's label, the
      sheet's open state and the sign-out link of navigation.tsx, which
      the theorem follows through [serve].
    - [Landing]: the landing page's inputs, its alert-only search and its
      links (landing.tsx).

    ** What the theorems show

    - Invariant (Server): every reachable state keeps [db_wf] (unique ids,
      usernames and e-mails, ids within their sequence, foreign keys), and
      every stored session names an existing user.  Consequences: an active
      session always passes the guard, and [GET /api/auth/user] never
      answers 404.
    - Access control (Routes, Storage): guarded routes answer 401 without
      side effects; inserts take the owner from the session; reads and
      deletes are scoped to the caller.
    - Functional behaviour of each storage operation: removal is idempotent
      and framed; history is capped at 10, newest first; a newer search is
      the first one read back; sign-up's checks hold in the order of the
      indexes; sign-in checks the password.
    - Refinement (SavedSpec): each saved-options method implements its
      abstract operation.  Every sequence of storage calls is simulated
      call for call, with the same outcomes, by the one run of the
      abstract store on those labels.  No route changes another user's
      pairs.
    - Sessions (Session): ending a request touches only its own session
      id; a destroyed session is gone, a modified one is active for
      [maxAge], a new unmodified one is never stored, a loaded unmodified
      one is kept active [maxAge] more, and none outlives [maxAge] after
      its last request.
    - Client against server: the page's [isSaved] refines the server's
      [isSavedOption].  A saved card shows up in the trips tab.
      A click on a card's button flips the saved state the card shows
      after the refetch.  Two clicks before the refetch store the option
      twice, and the trips and compare tabs then draw two rows with one
      React key.  The sign-in page sends nothing exactly for a form with
      an empty field, never gets a 400, and goes to ["/"] exactly when the
      password is accepted.  The home page's requests reach the routes
      they mean for every id of the catalogue.
    - Findings, stated as theorems: the profile PATCH answer exposes the
      password hash; the search form's requests are always refused; saving
      the profile erases the interests; the sign-out link reaches no
      route and leaves the user signed in; an option id with ['?'] makes
      the remove button delete another option; a taken e-mail gives 500; blank names pass; duplicate saves;
      the compare tab can be blank; on a fresh load the profile form keeps
      blank names, so an untouched save is never sent; a double click saves
      twice and duplicates the rows' keys.

    ** Bounds and concrete runs

    Ids are PostgreSQL [serial] (int4) values.  A sequence fails once it
    would pass 2147483647 ([serial_max]), and the model keeps that
    failure.  Timestamps are milliseconds ([Z]) supplied by the request
    environment.  No definition needs fuel: all recursion is structural.
    The code has no loop whose termination is in doubt.  Its one unbounded
    process is the server serving requests, modelled by [reachable]; a
    sequence of storage calls is a finite list ([exec_calls]).  Pages are
    runs of their events ([run_events]) over finite lists.  zod's [.min]
    compares [String.prototype.length], which counts UTF-16 code units;
    strings are UTF-8 bytes here, and [utf16_length] counts the units
    their characters take (one per character below U+10000, two above).
    The witnesses run the theorems on a one-user database ([demo_db]),
    with a bcrypt whose hash is the password ([plain_bcrypt], which
    satisfies the [BcryptLaws]) and an e-mail check on ['@'].

    ** Not modelled

    - Rendering: JSX markup and CSS.  The views keep the text, the
      highlights, the links and the events; the toasts are kept as
      values.
    - bcrypt's internals: a hashing interface with two laws stands for it.
    - zod's e-mail regular expression: an interface function stands for it.
    - [apiRequest] and the query client (src/client/src/lib/queryClient.ts)
      lie outside src/.  Only [apiRequest]'s throw on an answer that is not
      2xx is modelled ([res_ok]).
    - The card's copy of [renderStars]: its body is the table's, which is
      modelled once.
    - react-query's cache: only the refetch that an invalidation starts is
      modelled.
    - The routes of the client: App.tsx is outside src/, so which page
      serves which path is not modelled.
    - Case-insensitive path matching in Express, and
      [decodeURIComponent]'s refusal of escapes that are not UTF-8 (the
      model decodes any [%XX]; no theorem depends on it).
    - The host application (the server's entry and its final handler are
      not under src/): [serve] gives a path no route serves the code 404,
      and no theorem depends on that code.
    - Network and process I/O, and concurrent requests: each request is one
      atomic step.  The ordering the model does keep is the one of the
      client: a page's events in sequence, and requests sent before a
      refetch sees their effect.
    - What is left of the sources is markup: JSX layout, CSS classes, icons
      and static text (most of landing.tsx and the form markup of
      signin.tsx and profile.tsx); the type aliases of schema.ts; the
      import lines.  Nothing in it computes, so there is nothing more to
      model faithfully. *)

From stdpp Require Export base list strings gmap sorting pretty.
From Stdlib Require Export ZArith Lia.
From Stdlib Require QArith_base.

(** ** The result monad of fallible code *)

Inductive result (E A : Type) : Type :=
| Ok (a : A)
| Err (e : E).
Arguments Ok {E A} a.
Arguments Err {E A} e.

Definition rbind {E A B} (c : result E A) (k : A -> result E B) : result E B :=
  match c with
  | Ok a => k a
  | Err e => Err e
  end.

Definition rmap {E A B} (f : A -> B) (c : result E A) : result E B :=
  match c with
  | Ok a => Ok (f a)
  | Err e => Err e
  end.

Declare Scope tc_scope.
Delimit Scope tc_scope with tc.
Notation "x <- c ;; k" := (rbind c (fun x => k))
  (at level 60, c at next level, right associativity) : tc_scope.
Open Scope tc_scope.

Definition is_ok {E A} (r : result E A) : bool :=
  match r with Ok _ => true | Err _ => false end.

(** ** JSON values

    [express.json()] turns a request body into a JSON value.  A number is
    [JNum] when it is an integer and [JFloat] (an exact rational) when it
    has a fractional part, as the ratings of the travel options do.  An object is its list of fields; [JSON.parse] keeps one
    binding per key, so the fields of a parsed body have distinct keys. *)

#[local] Set Warnings "-register-all".
Inductive Json : Type :=
| JNull
| JBool (b : bool)
| JNum (n : Z)
| JFloat (q : QArith_base.Q)
| JStr (s : string)
| JArr (xs : list Json)
| JObj (fields : list (string * Json)).

Fixpoint obj_get (k : string) (fs : list (string * Json)) : option Json :=
  match fs with
  | [] => None
  | (k', v) :: fs' => if String.eqb k k' then Some v else obj_get k fs'
  end.

(** [o[k] = v] on an object: the binding is replaced in place, or added
    last when the key is new (JavaScript keeps insertion order). *)
Fixpoint obj_set (k : string) (v : Json) (fs : list (string * Json))
  : list (string * Json) :=
  match fs with
  | [] => [(k, v)]
  | (k', v') :: fs' =>
      if String.eqb k k' then (k, v) :: fs' else (k', v') :: obj_set k v fs'
  end.

(** The own enumerable keys of a JSON value as [{...x}] copies them:
    an object gives its fields, an array its indices, the other values
    (the body parser never yields them at top level) nothing. *)
Definition spread_fields (x : Json) : list (string * Json) :=
  match x with
  | JObj fs => fs
  | JArr xs => imap (fun i v => (pretty (i : nat), v)) xs
  | _ => []
  end.

(** [{...x, k: v}]. *)
Definition spread_with (x : Json) (k : string) (v : Json) : Json :=
  JObj (obj_set k v (spread_fields x)).

Lemma spread_with_obj fs k v : spread_with (JObj fs) k v = JObj (obj_set k v fs).
Proof. reflexivity. Qed.

(** [if (n)] on a JavaScript number: [0] is falsy. *)
Definition js_truthy_num (n : Z) : bool := negb (Z.eqb n 0).

(** A page as a state machine: a run of its events from a state, with
    the effects (requests, alerts) each event yields, in order. *)
Fixpoint run_events {S E F} (step : S -> E -> S * list F) (s : S) (es : list E) : S * list F :=
  match es with
  | [] => (s, [])
  | e :: es' =>
      let '(s1, out1) := step s e in
      let '(s2, out2) := run_events step s1 es' in
      (s2, (out1 ++ out2)%list)
  end.

(** [x || d] on an optional string: [undefined] and [""] are falsy. *)
Definition str_or (o : option string) (d : string) : string :=
  match o with Some s => if String.eqb s "" then d else s | None => d end.

(** ** The development's tactics and hint database *)

Create HintDb tc discriminated.
Create Rewrite HintDb tc_rw.

Ltac invc H := inversion H; subst; clear H.

(** Split the [match] of a result or option in a hypothesis of the form
    [match c with ... end = v], remembering the equation. *)
Ltac destruct_match_in H :=
  match type of H with
  | context [match ?c with _ => _ end] =>
      let E := fresh "E" in destruct c eqn:E
  end.

(** ** Generic lemmas *)

(** A property kept by every step holds of every state a run reaches. *)
Lemma str_or_nonempty o d : d <> "" -> str_or o d <> "".
Proof. destruct o as [s|]; simpl; [|done]. destruct (String.eqb_spec s ""); done. Qed.

(** An invariant of the states, kept by every allowed event, holds
    after a run of allowed events; so does a property every effect of an
    allowed event in an invariant state has. *)
Lemma run_events_inv {S E F} (step : S -> E -> S * list F) (P : S -> Prop) (ok : E -> Prop)
    (Q : F -> Prop) s es :
  (forall s e, P s -> ok e -> P (step s e).1 /\ Forall Q (step s e).2) ->
  P s -> Forall ok es ->
  P (run_events step s es).1 /\ Forall Q (run_events step s es).2.
Proof.
  intros Hstep Hs Hes. revert s Hs. induction Hes as [|e es He Hes IH]; intros s Hs; [done|].
  simpl. destruct (Hstep s e Hs He) as [H1 H2].
  destruct (step s e) as [s1 out1]. destruct (IH s1 H1) as [H3 H4].
  destruct (run_events step s1 es). simpl in *. split; [done|]. by apply Forall_app.
Qed.

Lemma rtc_preserved {A} (R : relation A) (P : A -> Prop) :
  (forall x y, P x -> R x y -> P y) -> forall x y, P x -> rtc R x y -> P y.
Proof. intros Hs x y Hx Hr. induction Hr; eauto. Qed.

Lemma string_app_nil_r (a : string) : String.append a "" = a.
Proof.
  induction a as [|x a IH]; [done|].
  change (String x (String.append a "") = String x a). by rewrite IH.
Qed.

Lemma string_app_assoc (a b c : string) :
  String.append (String.append a b) c = String.append a (String.append b c).
Proof.
  induction a as [|x a IH]; [done|].
  change (String x (String.append (String.append a b) c) = String x (String.append a (String.append b c))).
  by rewrite IH.
Qed.

Lemma rbind_Ok {E A B} (c : result E A) (k : A -> result E B) v :
  rbind c k = Ok v <-> exists a, c = Ok a /\ k a = Ok v.
Proof.
  destruct c as [a|e]; simpl; split.
  - eauto.
  - intros (a' & Ha & Hk). by invc Ha.
  - discriminate.
  - intros (a' & Ha & _). discriminate.
Qed.

Lemma obj_get_set_eq k v fs : obj_get k (obj_set k v fs) = Some v.
Proof.
  induction fs as [|[k' v'] fs IH]; simpl.
  - by rewrite String.eqb_refl.
  - destruct (String.eqb k k') eqn:E; simpl; [by rewrite String.eqb_refl|].
    by rewrite E.
Qed.

Lemma obj_get_set_ne k k' v fs :
  k <> k' -> obj_get k' (obj_set k v fs) = obj_get k' fs.
Proof.
  intros Hne. induction fs as [|[k0 v0] fs IH]; simpl.
  - destruct (String.eqb_spec k' k); congruence.
  - destruct (String.eqb_spec k k0) as [->|]; simpl.
    + destruct (String.eqb_spec k' k0); congruence.
    + destruct (String.eqb k' k0); [done|]. exact IH.
Qed.

Lemma spread_with_get x k v k' :
  (match spread_with x k v with JObj fs => obj_get k' fs | _ => None end) =
  if String.eqb k' k then Some v else obj_get k' (spread_fields x).
Proof.
  unfold spread_with. destruct (String.eqb_spec k' k) as [->|Hne].
  - apply obj_get_set_eq.
  - apply obj_get_set_ne. congruence.
Qed.

Lemma length_filter_le {A} (P : A -> Prop) `{!forall x, Decision (P x)} (l : list A) :
  length (filter P l) <= length l.
Proof.
  induction l as [|x l IH]; simpl; [lia|].
  rewrite filter_cons. case_decide; simpl; lia.
Qed.

Lemma Forall_filter_self {A} (P : A -> Prop) `{!forall x, Decision (P x)} (l : list A) :
  Forall P (filter P l).
Proof. apply Forall_forall. intros x Hx. by apply list_elem_of_filter in Hx as [? _]. Qed.

#[export] Hint Resolve Forall_filter_self length_filter_le : tc.
#[export] Hint Rewrite obj_get_set_eq : tc_rw.

Lemma elem_of_take_weaken {A} (n : nat) (l : list A) x : x ∈ take n l -> x ∈ l.
Proof. intros Hx. rewrite <- (take_drop n l). apply elem_of_app. by left. Qed.

Lemma elem_of_take_drop {A} (n : nat) (l : list A) x :
  x ∈ l -> x ∉ take n l -> x ∈ drop n l.
Proof.
  intros Hx Hn. rewrite <- (take_drop n l) in Hx.
  apply elem_of_app in Hx as [Hx|Hx]; [contradiction|done].
Qed.

Lemma filter_none {A} (P : A -> Prop) `{!forall x, Decision (P x)} (l : list A) :
  (forall x, x ∈ l -> ~ P x) -> filter P l = [].
Proof.
  induction l as [|x l IH]; intros Hn; [done|]. rewrite filter_cons.
  case_decide as Hx; [exfalso; eapply Hn; [apply list_elem_of_here|done]|].
  apply IH. intros y Hy. apply Hn. by apply list_elem_of_further.
Qed.

(** A filter by a predicate that implies the first filter's predicate
    sees through it. *)
Lemma filter_filter_absorb {A} (P Q : A -> Prop) `{!forall x, Decision (P x)}
    `{!forall x, Decision (Q x)} (l : list A) :
  (forall x, P x -> Q x) -> filter P (filter Q l) = filter P l.
Proof.
  intros HPQ. induction l as [|x l IH]; [done|].
  rewrite (filter_cons Q). case_decide as HQ.
  - rewrite !filter_cons. case_decide; [by rewrite IH|exact IH].
  - rewrite (filter_cons P). case_decide as HP; [exfalso; auto|exact IH].
Qed.

Lemma Exists_filter_absorb {A} (P Q : A -> Prop) `{!forall x, Decision (Q x)} (l : list A) :
  (forall x, P x -> Q x) -> Exists P (filter Q l) <-> Exists P l.
Proof.
  intros HPQ. rewrite !Exists_exists. split; intros (x & Hx & Px); exists x.
  - apply list_elem_of_filter in Hx as [_ Hx]. auto.
  - rewrite list_elem_of_filter. auto.
Qed.
