(* ===== verification/Schema.v ===== *)
(** * Schema: tables, row serialization and the zod schemas

    Models src/shared/schema.ts.  One Module per table holds its row
    record, with the field names of the drizzle table, and the JSON object
    [res.json] sends for a row.  The zod schemas are parsers from the JSON
    body to a record or to the list of zod issues, in the order zod
    reports them (the order of the schema's keys). *)

From S2P Require Import Prelude.
Open Scope string_scope.
Open Scope Z_scope.

(** ** Dates as [JSON.stringify] writes them

    [Date.prototype.toJSON] gives [toISOString()]: [YYYY-MM-DDTHH:mm:ss.sssZ],
    with a signed six-digit year outside 0..9999, and [null] for a time
    value beyond 8.64e15 ms (an invalid date). *)

Definition pad_num (w : nat) (n : Z) : string :=
  let s := pretty (Z.to_N n) in
  String.append (String.concat "" (repeat "0" (w - String.length s))) s.

(** The proleptic Gregorian date of a day count since 1970-01-01. *)
Definition civil_from_days (z0 : Z) : Z * Z * Z :=
  let z := z0 + 719468 in
  let era := z / 146097 in
  let doe := z - era * 146097 in
  let yoe := (doe - doe / 1460 + doe / 36524 - doe / 146096) / 365 in
  let doy := doe - (365 * yoe + yoe / 4 - yoe / 100) in
  let mp := (5 * doy + 2) / 153 in
  let d := doy - (153 * mp + 2) / 5 + 1 in
  let m := if mp <? 10 then mp + 3 else mp - 9 in
  let y := yoe + era * 400 + (if m <=? 2 then 1 else 0) in
  (y, m, d).

Definition toISOString (ms : Z) : string :=
  let days := ms / 86400000 in
  let t := ms mod 86400000 in
  let '(y, mo, d) := civil_from_days days in
  let year :=
    if (0 <=? y) && (y <=? 9999) then pad_num 4 y
    else (if y <? 0 then "-" else "+") ++ pad_num 6 (Z.abs y) in
  year ++ "-" ++ pad_num 2 mo ++ "-" ++ pad_num 2 d ++ "T" ++
  pad_num 2 (t / 3600000) ++ ":" ++ pad_num 2 ((t / 60000) mod 60) ++ ":" ++
  pad_num 2 ((t / 1000) mod 60) ++ "." ++ pad_num 3 (t mod 1000) ++ "Z".

Definition date_json (ms : Z) : Json :=
  if Z.abs ms <=? 8640000000000000 then JStr (toISOString ms) else JNull.

Definition opt_json {A} (f : A -> Json) (o : option A) : Json :=
  match o with Some a => f a | None => JNull end.

(** ** Tables (src/shared/schema.ts) *)

(** [users]: [createdAt] and [updatedAt] are nullable columns with
    [defaultNow()]; every insert of the program leaves them to the default
    and every update sets [updatedAt], so they always hold a time. *)
Module Users.
Record t := mk {
  id : Z;
  username : string;
  email : string;
  passwordHash : string;
  firstName : option string;
  lastName : option string;
  phone : option string;
  budgetRange : option string;
  travelStyle : option string;
  interests : option Json;
  createdAt : Z;
  updatedAt : Z
}.

(** The row as [res.json(user)] sends it, keys in column order. *)
Definition to_json (u : t) : Json :=
  JObj [("id", JNum (id u)); ("username", JStr (username u));
        ("email", JStr (email u)); ("passwordHash", JStr (passwordHash u));
        ("firstName", opt_json JStr (firstName u));
        ("lastName", opt_json JStr (lastName u));
        ("phone", opt_json JStr (phone u));
        ("budgetRange", opt_json JStr (budgetRange u));
        ("travelStyle", opt_json JStr (travelStyle u));
        ("interests", opt_json (fun j => j) (interests u));
        ("createdAt", date_json (createdAt u));
        ("updatedAt", date_json (updatedAt u))].
End Users.

(** [const { passwordHash, ...userWithoutPassword } = user]. *)
Definition omit_key (k : string) (x : Json) : Json :=
  match x with
  | JObj fs => JObj (filter (fun kv => kv.1 <> k) fs)
  | _ => x
  end.

Module SavedOptions.
Record t := mk {
  id : Z;
  userId : Z;
  optionId : string;
  optionType : string;
  optionData : Json;
  createdAt : Z
}.

Definition to_json (r : t) : Json :=
  JObj [("id", JNum (id r)); ("userId", JNum (userId r));
        ("optionId", JStr (optionId r)); ("optionType", JStr (optionType r));
        ("optionData", optionData r); ("createdAt", date_json (createdAt r))].
End SavedOptions.

(** [search_history]: [userId], [checkin], [checkout] and [travelers]
    are nullable. *)
Module SearchHistory.
Record t := mk {
  id : Z;
  userId : option Z;
  destination : string;
  checkin : option Z;
  checkout : option Z;
  travelers : option Z;
  createdAt : Z
}.

Definition to_json (r : t) : Json :=
  JObj [("id", JNum (id r)); ("userId", opt_json JNum (userId r));
        ("destination", JStr (destination r));
        ("checkin", opt_json date_json (checkin r));
        ("checkout", opt_json date_json (checkout r));
        ("travelers", opt_json JNum (travelers r));
        ("createdAt", date_json (createdAt r))].
End SearchHistory.

(** [sessions]: the table connect-pg-simple would use, keyed by [sid],
    with the session as JSON and its expiry (indexed).  No code of the
    repository reads or writes it: [setupSession] passes no [store], so
    sessions stay in express-session's MemoryStore (Session.v). *)
Module Sessions.
Record t := mk {
  sid : string;
  sess : Json;
  expire : Z
}.
End Sessions.

(** The primary key of [sessions]. *)
Definition sessions_wf (rows : list Sessions.t) : Prop := NoDup (map Sessions.sid rows).

(** ** zod

    An issue has a code, the path of the offending key and a message.
    Parsing an object checks every key of the shape and gathers all issues;
    keys outside the shape are dropped. *)

Inductive IssueCode :=
| InvalidType (expected received : string)
| TooSmall (minimum : Z)
| InvalidString (validation : string)
| InvalidUnion.

Record ZodIssue := mkIssue {
  issue_code : IssueCode;
  issue_path : list string;
  issue_message : string
}.

Definition Parsed (A : Type) := result (list ZodIssue) A.

Definition json_type_name (v : Json) : string :=
  match v with
  | JNull => "null" | JBool _ => "boolean" | JNum _ | JFloat _ => "number"
  | JStr _ => "string" | JArr _ => "array" | JObj _ => "object"
  end.

Definition required_issue (key expected : string) : ZodIssue :=
  mkIssue (InvalidType expected "undefined") [key] "Required".

Definition type_issue (path : list string) (expected : string) (v : Json) : ZodIssue :=
  mkIssue (InvalidType expected (json_type_name v)) path
    ("Expected " ++ expected ++ ", received " ++ json_type_name v).

(** Both parts are checked; their issues are concatenated. *)
Definition zpair {A B} (ra : Parsed A) (rb : Parsed B) : Parsed (A * B) :=
  match ra, rb with
  | Ok a, Ok b => Ok (a, b)
  | Err e, Ok _ => Err e
  | Ok _, Err e => Err e
  | Err e1, Err e2 => Err (e1 ++ e2)%list
  end.

(** [z.object(shape)]: a body that is not an object fails at the root. *)
Definition z_object {A} (body : Json) (k : list (string * Json) -> Parsed A) : Parsed A :=
  match body with
  | JObj fs => k fs
  | v => Err [type_issue [] "object" v]
  end.

(** [z.string()] followed by its refinements [checks]. *)
Definition z_string (key : string) (checks : string -> list ZodIssue)
    (fs : list (string * Json)) : Parsed string :=
  match obj_get key fs with
  | None => Err [required_issue key "string"]
  | Some (JStr s) => match checks s with [] => Ok s | iss => Err iss end
  | Some v => Err [type_issue [key] "string" v]
  end.

(** [.min(n, msg)] on a string. *)
(** zod's [.min(n)] compares [s.length], the number of UTF-16 code units.
    A string of the model is the UTF-8 bytes of the decoded body:
    [utf16_count s pending] walks them with the number of continuation
    bytes the current character still expects.  A one-, two- or
    three-byte character is one unit, a four-byte one (outside the BMP, a
    surrogate pair in JavaScript) two; a byte that fits no sequence counts
    one unit, as the [U+FFFD] a decoder puts in its place. *)
Fixpoint utf16_count (s : string) (pending : nat) : nat :=
  match s with
  | EmptyString => 0
  | String c s' =>
      let n := Ascii.nat_of_ascii c in
      if (128 <=? n)%nat && (n <? 192)%nat && (0 <? pending)%nat then utf16_count s' (pending - 1)
      else if (n <? 192)%nat then 1 + utf16_count s' 0
      else if (n <? 224)%nat then 1 + utf16_count s' 1
      else if (n <? 240)%nat then 1 + utf16_count s' 2
      else 2 + utf16_count s' 3
  end.

Definition utf16_length (s : string) : nat := utf16_count s 0.

Definition min_check (key : string) (n : nat) (msg : string) (s : string) : list ZodIssue :=
  if (utf16_length s <? n)%nat then [mkIssue (TooSmall (Z.of_nat n)) [key] msg] else [].

(** zod's e-mail refinement is a regular expression of the library; it is
    an interface function here. *)
Class EmailCheck := is_email : string -> bool.

Definition email_check `{EmailCheck} (key msg : string) (s : string) : list ZodIssue :=
  if is_email s then [] else [mkIssue (InvalidString "email") [key] msg].

Definition no_check (s : string) : list ZodIssue := [].

(** drizzle-zod's schema of an [integer] column is [z.number().int()]; a
    number with a fractional part fails the [int] check. *)
Definition int_issue (path : list string) : ZodIssue :=
  mkIssue (InvalidType "integer" "float") path "Expected integer, received float".

Definition as_int (path : list string) (v : Json) : Parsed Z :=
  match v with
  | JNum n => Ok n
  | JFloat _ => Err [int_issue path]
  | _ => Err [type_issue path "number" v]
  end.

(** A not-null integer column. *)
Definition z_number (key : string) (fs : list (string * Json)) : Parsed Z :=
  match obj_get key fs with
  | None => Err [required_issue key "number"]
  | Some v => as_int [key] v
  end.

(** A nullable column of the insert schema: [.nullable().optional()];
    [None] is an absent key, [Some None] an explicit [null]. *)
Definition z_nullish {A} (key : string) (conv : list string -> Json -> Parsed A)
    (fs : list (string * Json)) : Parsed (option (option A)) :=
  match obj_get key fs with
  | None => Ok None
  | Some JNull => Ok (Some None)
  | Some v => rmap (fun a => Some (Some a)) (conv [key] v)
  end.

Definition as_string (path : list string) (v : Json) : Parsed string :=
  match v with JStr s => Ok s | _ => Err [type_issue path "string" v] end.
(** [z.date()]: a JSON body holds no [Date] object, so every value fails. *)
Definition as_date (path : list string) (v : Json) : Parsed Z :=
  Err [type_issue path "date" v].
Definition as_json (path : list string) (v : Json) : Parsed Json := Ok v.

(** drizzle-zod's schema of a [jsonb] column: any JSON value, [null]
    included; an absent key fails the union. *)
Definition z_json (key : string) (fs : list (string * Json)) : Parsed Json :=
  match obj_get key fs with
  | None => Err [mkIssue InvalidUnion [key] "Invalid input"]
  | Some v => Ok v
  end.

(** ** The schemas of src/shared/schema.ts *)

Record SignUpData := mkSignUp {
  su_username : string; su_email : string; su_password : string;
  su_firstName : string; su_lastName : string
}.

Definition signUpSchema `{EmailCheck} (body : Json) : Parsed SignUpData :=
  z_object body (fun fs =>
    rmap (fun '(u, (e, (p, (f, l)))) => mkSignUp u e p f l)
      (zpair (z_string "username" (min_check "username" 3 "Username must be at least 3 characters") fs)
      (zpair (z_string "email" (email_check "email" "Invalid email address") fs)
      (zpair (z_string "password" (min_check "password" 6 "Password must be at least 6 characters") fs)
      (zpair (z_string "firstName" (min_check "firstName" 1 "First name is required") fs)
             (z_string "lastName" (min_check "lastName" 1 "Last name is required") fs)))))).

Record SignInData := mkSignIn { si_username : string; si_password : string }.

Definition signInSchema (body : Json) : Parsed SignInData :=
  z_object body (fun fs =>
    rmap (fun '(u, p) => mkSignIn u p)
      (zpair (z_string "username" (min_check "username" 1 "Username is required") fs)
             (z_string "password" (min_check "password" 1 "Password is required") fs))).

(** [InsertSavedOption] without [id] and [createdAt]. *)
Record InsertSavedOption := mkInsertSaved {
  ins_userId : Z; ins_optionId : string; ins_optionType : string; ins_optionData : Json
}.

Definition insertSavedOptionSchema (body : Json) : Parsed InsertSavedOption :=
  z_object body (fun fs =>
    rmap (fun '(u, (o, (t, d))) => mkInsertSaved u o t d)
      (zpair (z_number "userId" fs)
      (zpair (z_string "optionId" no_check fs)
      (zpair (z_string "optionType" no_check fs)
             (z_json "optionData" fs))))).

Record InsertSearchHistory := mkInsertHistory {
  ih_userId : option (option Z); ih_destination : string;
  ih_checkin : option (option Z); ih_checkout : option (option Z);
  ih_travelers : option (option Z)
}.

Definition insertSearchHistorySchema (body : Json) : Parsed InsertSearchHistory :=
  z_object body (fun fs =>
    rmap (fun '(u, (d, (ci, (co, t)))) => mkInsertHistory u d ci co t)
      (zpair (z_nullish "userId" as_int fs)
      (zpair (z_string "destination" no_check fs)
      (zpair (z_nullish "checkin" as_date fs)
      (zpair (z_nullish "checkout" as_date fs)
             (z_nullish "travelers" as_int fs)))))).

(** The picked columns of [users], with [firstName] and [lastName]
    replaced by required non-empty strings. *)
Record ProfileUpdate := mkProfile {
  pu_firstName : string; pu_lastName : string;
  pu_phone : option (option string); pu_budgetRange : option (option string);
  pu_travelStyle : option (option string); pu_interests : option (option Json)
}.

Definition updateUserProfileSchema (body : Json) : Parsed ProfileUpdate :=
  z_object body (fun fs =>
    rmap (fun '(f, (l, (p, (b, (t, i))))) => mkProfile f l p b t i)
      (zpair (z_string "firstName" (min_check "firstName" 1 "First name is required") fs)
      (zpair (z_string "lastName" (min_check "lastName" 1 "Last name is required") fs)
      (zpair (z_nullish "phone" as_string fs)
      (zpair (z_nullish "budgetRange" as_string fs)
      (zpair (z_nullish "travelStyle" as_string fs)
             (z_nullish "interests" as_json fs))))))).

(** The [errors] array of a [ZodError] as [res.json] sends it. *)
Definition issue_json (i : ZodIssue) : Json :=
  let path := ("path", JArr (map JStr (issue_path i))) in
  let msg := ("message", JStr (issue_message i)) in
  match issue_code i with
  | InvalidType e r => JObj [("code", JStr "invalid_type"); ("expected", JStr e);
                             ("received", JStr r); path; msg]
  | TooSmall n => JObj [("code", JStr "too_small"); ("minimum", JNum n);
                        ("type", JStr "string"); ("inclusive", JBool true);
                        ("exact", JBool false); msg; path]
  | InvalidString v => JObj [("validation", JStr v); ("code", JStr "invalid_string"); msg; path]
  | InvalidUnion => JObj [("code", JStr "invalid_union"); path; msg]
  end.

(** ** Lemmas on the parsers *)

Lemma zpair_Ok {A B} (ra : Parsed A) (rb : Parsed B) a b :
  zpair ra rb = Ok (a, b) <-> ra = Ok a /\ rb = Ok b.
Proof.
  destruct ra, rb; simpl; split; try discriminate; naive_solver.
Qed.

Lemma zpair_Err_l {A B} (ra : Parsed A) (rb : Parsed B) e :
  ra = Err e -> exists e', zpair ra rb = Err (e ++ e')%list.
Proof. intros ->. destruct rb; simpl; eexists; [by rewrite app_nil_r|done]. Qed.

Lemma zpair_Err_r {A B} (ra : Parsed A) (rb : Parsed B) e :
  rb = Err e -> exists e', zpair ra rb = Err (e' ++ e)%list.
Proof. intros ->. destruct ra; simpl; eexists; [by rewrite app_nil_l|done]. Qed.

Lemma rmap_Err {E A B} (f : A -> B) (r : result E A) e :
  r = Err e -> rmap f r = Err e.
Proof. by intros ->. Qed.

Lemma rmap_Ok_inv {E A B} (f : A -> B) (r : result E A) b :
  rmap f r = Ok b -> exists a, r = Ok a /\ b = f a.
Proof. destruct r; simpl; [intros [= <-]; eauto|discriminate]. Qed.

(** The session's id, put last in [{...body, userId}], is the [userId] the
    insert schemas return. *)
Lemma insertSavedOptionSchema_userId b uid v :
  insertSavedOptionSchema (spread_with b "userId" (JNum uid)) = Ok v -> ins_userId v = uid.
Proof.
  unfold insertSavedOptionSchema, spread_with, z_object. intros Hv.
  apply rmap_Ok_inv in Hv as ([u [o [t d]]] & Hp & ->).
  apply zpair_Ok in Hp as [Hu _]. unfold z_number in Hu.
  rewrite obj_get_set_eq in Hu. by invc Hu.
Qed.

Lemma insertSearchHistorySchema_userId b uid v :
  insertSearchHistorySchema (spread_with b "userId" (JNum uid)) = Ok v ->
  ih_userId v = Some (Some uid).
Proof.
  unfold insertSearchHistorySchema, spread_with, z_object. intros Hv.
  apply rmap_Ok_inv in Hv as ([u [d [ci [co t]]]] & Hp & ->).
  apply zpair_Ok in Hp as [Hu _]. unfold z_nullish in Hu.
  rewrite obj_get_set_eq in Hu. by invc Hu.
Qed.

(** A parse result that carries a given issue; the combinators keep it. *)
Definition has_issue {A} (r : Parsed A) (i : ZodIssue) : Prop :=
  exists e, r = Err e /\ i ∈ e.

Lemma has_issue_pair_l {A B} (ra : Parsed A) (rb : Parsed B) i :
  has_issue ra i -> has_issue (zpair ra rb) i.
Proof.
  intros (e & -> & Hi). destruct rb; simpl; eexists; split; [done|done|done|].
  apply elem_of_app. by left.
Qed.

Lemma has_issue_pair_r {A B} (ra : Parsed A) (rb : Parsed B) i :
  has_issue rb i -> has_issue (zpair ra rb) i.
Proof.
  intros (e & -> & Hi). destruct ra; simpl; eexists; split; [done|done|done|].
  apply elem_of_app. by right.
Qed.

Lemma has_issue_rmap {A B} (f : A -> B) (r : Parsed A) i :
  has_issue r i -> has_issue (rmap f r) i.
Proof. intros (e & -> & Hi). by exists e. Qed.

Lemma has_issue_one {A} (r : Parsed A) i : r = Err [i] -> has_issue r i.
Proof. intros ->. exists [i]. split; [done|]. apply list_elem_of_here. Qed.

#[export] Hint Resolve has_issue_pair_l has_issue_pair_r has_issue_rmap : tc.

Lemma has_issue_not_ok {A} (r : Parsed A) i : has_issue r i -> is_ok r = false.
Proof. by intros (e & -> & _). Qed.

Lemma utf16_length_pos s : s <> "" -> (1 <= utf16_length s)%nat.
Proof.
  destruct s as [|c s]; [done|]. intros _. unfold utf16_length. simpl.
  rewrite andb_false_r. repeat case_match; lia.
Qed.

(** [min(1)] is the test for the empty string. *)
Lemma min_check_1 k m s : s <> "" -> min_check k 1 m s = [].
Proof.
  intros Hs. unfold min_check. pose proof (utf16_length_pos s Hs).
  by destruct (Nat.ltb_spec (utf16_length s) 1); [lia|].
Qed.

Lemma min_check_1_empty k m : min_check k 1 m "" = [mkIssue (TooSmall 1) [k] m].
Proof. done. Qed.

(** A [checkin] that is present and not [null] fails [z.date()]: a JSON
    body cannot carry a [Date]. *)
Lemma insertSearchHistorySchema_checkin_rejected fs v :
  obj_get "checkin" fs = Some v -> v <> JNull ->
  has_issue (insertSearchHistorySchema (JObj fs)) (type_issue ["checkin"] "date" v).
Proof.
  intros Hc Hn. unfold insertSearchHistorySchema, z_object.
  apply has_issue_rmap, has_issue_pair_r, has_issue_pair_r, has_issue_pair_l, has_issue_one.
  unfold z_nullish. rewrite Hc. destruct v; [congruence|..]; reflexivity.
Qed.

(** A [travelers] that is a string fails [z.number()]. *)
Lemma insertSearchHistorySchema_travelers_rejected fs s :
  obj_get "travelers" fs = Some (JStr s) ->
  has_issue (insertSearchHistorySchema (JObj fs)) (type_issue ["travelers"] "number" (JStr s)).
Proof.
  intros Hc. unfold insertSearchHistorySchema, z_object.
  apply has_issue_rmap. do 4 apply has_issue_pair_r.
  apply has_issue_one. unfold z_nullish. by rewrite Hc.
Qed.

(** C21: [updateUserProfileSchema] checks [min(1)] on the raw string: any
    non-empty name passes, blanks included. *)
Lemma updateUserProfileSchema_names f l :
  f <> "" -> l <> "" ->
  updateUserProfileSchema (JObj [("firstName", JStr f); ("lastName", JStr l)]) =
  Ok (mkProfile f l None None None None).
Proof.
  intros Hf Hl. unfold updateUserProfileSchema, z_object. cbn -[min_check].
  by rewrite !min_check_1 by done.
Qed.

(** Both names are required: the update is not partial. *)
Lemma updateUserProfileSchema_requires_firstName fs :
  obj_get "firstName" fs = None ->
  has_issue (updateUserProfileSchema (JObj fs)) (required_issue "firstName" "string").
Proof.
  intros Hf. unfold updateUserProfileSchema, z_object.
  apply has_issue_rmap, has_issue_pair_l, has_issue_one. unfold z_string. by rewrite Hf.
Qed.

Lemma updateUserProfileSchema_empty_firstName fs :
  obj_get "firstName" fs = Some (JStr "") ->
  has_issue (updateUserProfileSchema (JObj fs))
    (mkIssue (TooSmall 1) ["firstName"] "First name is required").
Proof.
  intros Hf. unfold updateUserProfileSchema, z_object.
  apply has_issue_rmap, has_issue_pair_l, has_issue_one. unfold z_string. by rewrite Hf.
Qed.

(** ** An e-mail check for concrete runs

    A stand-in for zod's regular expression: an address holds an ['@']. *)
Definition has_at_sign : EmailCheck :=
  fun s => existsb (fun c => Ascii.eqb c (Ascii.ascii_of_nat 64)) (String.list_ascii_of_string s).

(** C21 at a first name of one blank: it is accepted. *)
Lemma updateUserProfileSchema_names_witness :
  updateUserProfileSchema (JObj [("firstName", JStr " "); ("lastName", JStr "Doe")]) =
  Ok (mkProfile " " "Doe" None None None None).
Proof. apply updateUserProfileSchema_names; discriminate. Defined.

(** At a body that only sets the last name. *)
Lemma updateUserProfileSchema_requires_firstName_witness :
  has_issue (updateUserProfileSchema (JObj [("lastName", JStr "Doe")])) (required_issue "firstName" "string").
Proof. apply updateUserProfileSchema_requires_firstName. reflexivity. Defined.
