(* ===== verification/Storage.v ===== *)
(** * Storage: the database and [DatabaseStorage]

    Models src/server/storage.ts over the tables of src/shared/schema.ts.
    The database state holds the three tables, each a list of rows in
    insertion order, and the last value of each [serial] sequence.  An
    operation that changes the database returns the new database with its
    outcome; a failed insert still advances its sequence, as [nextval]
    does in PostgreSQL.  [IStorage] is the interface of the source as a
    type class; [DatabaseStorage] implements it. *)

From S2P Require Import Prelude Schema.
Open Scope string_scope.
Open Scope Z_scope.

(** ** Errors of PostgreSQL the program can meet *)

Inductive DbError :=
| UniqueViolation (constraint : string)
| NotNullViolation (column : string)
| ForeignKeyViolation (constraint : string)
| SequenceExhausted (sequence : string).

(** ** bcrypt, as an interface with its two laws

    [bcrypt_hash password salt] is [bcrypt.hash(password, 10)] once the
    library has drawn [salt]; [bcrypt_compare] is [bcrypt.compare]. *)
Class Bcrypt := {
  bcrypt_hash : string -> string -> string;
  bcrypt_compare : string -> string -> bool
}.

Class BcryptLaws `{Bcrypt} := {
  bcrypt_compare_hash pw salt : bcrypt_compare pw (bcrypt_hash pw salt) = true;
  bcrypt_compare_sound pw pw' salt :
    bcrypt_compare pw' (bcrypt_hash pw salt) = true -> pw' = pw
}.

(** ** The database state *)

Record DB := mkDB {
  users : list Users.t;
  savedOptions : list SavedOptions.t;
  searchHistory : list SearchHistory.t;
  users_id_seq : Z;
  saved_options_id_seq : Z;
  search_history_id_seq : Z
}.

Definition empty_db : DB := mkDB [] [] [] 0 0 0.

Definition set_users (db : DB) (us : list Users.t) (seq : Z) : DB :=
  mkDB us (savedOptions db) (searchHistory db) seq
       (saved_options_id_seq db) (search_history_id_seq db).
Definition set_saved (db : DB) (rs : list SavedOptions.t) (seq : Z) : DB :=
  mkDB (users db) rs (searchHistory db) (users_id_seq db) seq (search_history_id_seq db).
Definition set_history (db : DB) (hs : list SearchHistory.t) (seq : Z) : DB :=
  mkDB (users db) (savedOptions db) hs (users_id_seq db) (saved_options_id_seq db) seq.

(** [serial] is an [integer] column fed by a sequence whose maximum is
    2^31 - 1. *)
Definition serial_max : Z := 2147483647.

Definition nextval (name : string) (last : Z) : result DbError Z :=
  if last <? serial_max then Ok (last + 1) else Err (SequenceExhausted name).

Definition user_exists (db : DB) (uid : Z) : bool :=
  existsb (fun u => Users.id u =? uid) (users db).

(** ** [interface IStorage] *)

Class IStorage (S : Type) := {
  getUserById : Z -> S -> option Users.t;
  getUserByUsername : string -> S -> option Users.t;
  createUser : SignUpData -> string -> Z -> S -> S * result DbError Users.t;
  updateUserProfile : Z -> ProfileUpdate -> Z -> S -> S * option Users.t;
  getSavedOptions : Z -> S -> list SavedOptions.t;
  saveOption : InsertSavedOption -> Z -> S -> S * result DbError SavedOptions.t;
  removeSavedOption : Z -> string -> S -> S;
  isSavedOption : Z -> string -> S -> bool;
  getSearchHistory : Z -> S -> list SearchHistory.t;
  saveSearchHistory : InsertSearchHistory -> Z -> S -> S * result DbError SearchHistory.t
}.

(** [orderBy(desc(createdAt))]: newest first.  PostgreSQL leaves the order
    of equal keys open; the model keeps insertion order among them. *)
Definition created_after_saved (a b : SavedOptions.t) : Prop :=
  SavedOptions.createdAt b <= SavedOptions.createdAt a.
Definition created_after_history (a b : SearchHistory.t) : Prop :=
  SearchHistory.createdAt b <= SearchHistory.createdAt a.

#[export] Instance created_after_saved_dec : RelDecision created_after_saved.
Proof. intros a b. unfold created_after_saved. apply _. Defined.
#[export] Instance created_after_history_dec : RelDecision created_after_history.
Proof. intros a b. unfold created_after_history. apply _. Defined.

(** The [userId] filter of every saved-options and history query. *)
Definition owned_by (uid : Z) (r : SavedOptions.t) : Prop := SavedOptions.userId r = uid.
Definition saved_match (uid : Z) (oid : string) (r : SavedOptions.t) : Prop :=
  SavedOptions.userId r = uid /\ SavedOptions.optionId r = oid.
Definition history_of (uid : Z) (h : SearchHistory.t) : Prop :=
  SearchHistory.userId h = Some uid.

#[export] Instance owned_by_dec uid : forall r, Decision (owned_by uid r).
Proof. intros r. unfold owned_by. apply _. Defined.
#[export] Instance saved_match_dec uid oid : forall r, Decision (saved_match uid oid r).
Proof. intros r. unfold saved_match. apply _. Defined.
#[export] Instance history_of_dec uid : forall h, Decision (history_of uid h).
Proof. intros h. unfold history_of. apply _. Defined.

(** A column of [.set({...data})]: an absent key leaves the column. *)
Definition patch {A} (o : option (option A)) (old : option A) : option A :=
  match o with None => old | Some v => v end.

Module DatabaseStorage.

Definition getUserById (uid : Z) (db : DB) : option Users.t :=
  head (filter (fun u => Users.id u = uid) (users db)).

Definition getUserByUsername (name : string) (db : DB) : option Users.t :=
  head (filter (fun u => Users.username u = name) (users db)).

(** [bcrypt.hash], then [INSERT ... RETURNING]: the serial default is
    drawn first, then the primary key and the two unique indexes are
    checked in their order of declaration. *)
Definition createUser `{Bcrypt} (userData : SignUpData) (salt : string) (now : Z)
    (db : DB) : DB * result DbError Users.t :=
  let hashedPassword := bcrypt_hash (su_password userData) salt in
  match nextval "users_id_seq" (users_id_seq db) with
  | Err e => (db, Err e)
  | Ok nid =>
      let row := Users.mk nid (su_username userData) (su_email userData)
                   hashedPassword (Some (su_firstName userData))
                   (Some (su_lastName userData)) None None None None now now in
      let db1 := set_users db (users db) nid in
      if existsb (fun u => Users.id u =? nid) (users db) then
        (db1, Err (UniqueViolation "users_pkey"))
      else if existsb (fun u => String.eqb (Users.username u) (su_username userData)) (users db) then
        (db1, Err (UniqueViolation "users_username_unique"))
      else if existsb (fun u => String.eqb (Users.email u) (su_email userData)) (users db) then
        (db1, Err (UniqueViolation "users_email_unique"))
      else (set_users db (users db ++ [row]) nid, Ok row)
  end.

Definition apply_profile (data : ProfileUpdate) (now : Z) (u : Users.t) : Users.t :=
  Users.mk (Users.id u) (Users.username u) (Users.email u) (Users.passwordHash u)
    (Some (pu_firstName data)) (Some (pu_lastName data))
    (patch (pu_phone data) (Users.phone u))
    (patch (pu_budgetRange data) (Users.budgetRange u))
    (patch (pu_travelStyle data) (Users.travelStyle u))
    (patch (pu_interests data) (Users.interests u))
    (Users.createdAt u) now.

(** [UPDATE users SET ..., updatedAt = now WHERE id = $1 RETURNING *];
    [const [user] = ...] is [undefined] when no row matched. *)
Definition updateUserProfile (uid : Z) (data : ProfileUpdate) (now : Z) (db : DB)
    : DB * option Users.t :=
  let us := map (fun u => if Users.id u =? uid then apply_profile data now u else u) (users db) in
  (set_users db us (users_id_seq db), head (filter (fun u => Users.id u = uid) us)).

Definition getSavedOptions (uid : Z) (db : DB) : list SavedOptions.t :=
  merge_sort created_after_saved (filter (owned_by uid) (savedOptions db)).

(** The checks of [INSERT INTO saved_options]: NOT NULL on the JSON
    payload, the primary key, then the foreign key to [users]. *)
Definition saveOption (data : InsertSavedOption) (now : Z) (db : DB)
    : DB * result DbError SavedOptions.t :=
  match nextval "saved_options_id_seq" (saved_options_id_seq db) with
  | Err e => (db, Err e)
  | Ok nid =>
      let db1 := set_saved db (savedOptions db) nid in
      let row := SavedOptions.mk nid (ins_userId data) (ins_optionId data)
                   (ins_optionType data) (ins_optionData data) now in
      match ins_optionData data with
      | JNull => (db1, Err (NotNullViolation "option_data"))
      | _ =>
        if existsb (fun r => SavedOptions.id r =? nid) (savedOptions db) then
          (db1, Err (UniqueViolation "saved_options_pkey"))
        else if negb (user_exists db (ins_userId data)) then
          (db1, Err (ForeignKeyViolation "saved_options_user_id_users_id_fk"))
        else (set_saved db (savedOptions db ++ [row]) nid, Ok row)
      end
  end.

Definition removeSavedOption (uid : Z) (oid : string) (db : DB) : DB :=
  set_saved db (filter (fun r => ~ saved_match uid oid r) (savedOptions db))
    (saved_options_id_seq db).

Definition isSavedOption (uid : Z) (oid : string) (db : DB) : bool :=
  bool_decide (Exists (saved_match uid oid) (savedOptions db)).

Definition getSearchHistory (uid : Z) (db : DB) : list SearchHistory.t :=
  take 10 (merge_sort created_after_history (filter (history_of uid) (searchHistory db))).

Definition saveSearchHistory (data : InsertSearchHistory) (now : Z) (db : DB)
    : DB * result DbError SearchHistory.t :=
  match nextval "search_history_id_seq" (search_history_id_seq db) with
  | Err e => (db, Err e)
  | Ok nid =>
      let db1 := set_history db (searchHistory db) nid in
      let uid := patch (ih_userId data) None in
      let row := SearchHistory.mk nid uid (ih_destination data)
                   (patch (ih_checkin data) None) (patch (ih_checkout data) None)
                   (patch (ih_travelers data) None) now in
      if existsb (fun h => SearchHistory.id h =? nid) (searchHistory db) then
        (db1, Err (UniqueViolation "search_history_pkey"))
      else match uid with
           | Some u =>
               if negb (user_exists db u) then
                 (db1, Err (ForeignKeyViolation "search_history_user_id_users_id_fk"))
               else (set_history db (searchHistory db ++ [row]) nid, Ok row)
           | None => (set_history db (searchHistory db ++ [row]) nid, Ok row)
           end
  end.

End DatabaseStorage.

#[export] Instance storage `{Bcrypt} : IStorage DB := {
  getUserById := DatabaseStorage.getUserById;
  getUserByUsername := DatabaseStorage.getUserByUsername;
  createUser := DatabaseStorage.createUser;
  updateUserProfile := DatabaseStorage.updateUserProfile;
  getSavedOptions := DatabaseStorage.getSavedOptions;
  saveOption := DatabaseStorage.saveOption;
  removeSavedOption := DatabaseStorage.removeSavedOption;
  isSavedOption := DatabaseStorage.isSavedOption;
  getSearchHistory := DatabaseStorage.getSearchHistory;
  saveSearchHistory := DatabaseStorage.saveSearchHistory
}.

(** ** Fresh serial values and key lookups

    Shared by the three tables: the sequence bounds every id, so the next
    value is fresh; [existsb] on a key answers membership of the key. *)

Section Keys.
Context {A K : Type} (g : A -> K) (eqb : K -> K -> bool).
Hypothesis eqb_spec : forall a b, reflect (a = b) (eqb a b).

Lemma existsb_key_false (l : list A) (k : K) :
  existsb (fun x => eqb (g x) k) l = false <-> ~ In k (map g l).
Proof.
  split.
  - intros H Hin. apply in_map_iff in Hin as (x & <- & Hx).
    assert (existsb (fun y => eqb (g y) (g x)) l = true) as Ht.
    { apply existsb_exists. exists x. split; [done|]. by destruct (eqb_spec (g x) (g x)). }
    congruence.
  - intros Hn. destruct (existsb _ l) eqn:E; [|done].
    apply existsb_exists in E as (x & Hx & Hb).
    destruct (eqb_spec (g x) k) as [<-|]; [|discriminate].
    exfalso. apply Hn. by apply in_map.
Qed.

Lemma NoDup_map_snoc (l : list A) (x : A) :
  NoDup (map g l) -> ~ In (g x) (map g l) -> NoDup (map g (l ++ [x])).
Proof.
  intros Hl Hx. rewrite map_app. simpl.
  apply NoDup_app. split; [done|]. split.
  - intros y Hy Hy'. apply list_elem_of_singleton in Hy'. subst.
    apply Hx. by apply list_elem_of_In.
  - apply NoDup_singleton.
Qed.
End Keys.

Section FreshIds.
Context {A : Type} (f : A -> Z).

Definition ids_within (seq : Z) (l : list A) : Prop :=
  Forall (fun x => 0 < f x <= seq) l.

Lemma fresh_not_in (l : list A) (seq : Z) :
  ids_within seq l -> ~ In (seq + 1) (map f l).
Proof.
  intros Hb Hin. apply in_map_iff in Hin as (x & Hx & Hin).
  unfold ids_within in Hb. rewrite Forall_forall in Hb. apply list_elem_of_In in Hin.
  specialize (Hb x Hin). lia.
Qed.

Lemma existsb_fresh (l : list A) (seq : Z) :
  ids_within seq l -> existsb (fun x => f x =? seq + 1) l = false.
Proof. intros Hb. apply (existsb_key_false f Z.eqb Z.eqb_spec). by apply fresh_not_in. Qed.

Lemma ids_within_mono (l : list A) (s s' : Z) :
  s <= s' -> ids_within s l -> ids_within s' l.
Proof. intros Hs H. eapply Forall_impl; [exact H|]. simpl. lia. Qed.

Lemma ids_within_snoc (l : list A) (x : A) (s : Z) :
  0 <= s -> ids_within s l -> f x = s + 1 -> ids_within (s + 1) (l ++ [x]).
Proof.
  intros Hs Hl Hx. apply Forall_app. split.
  - eapply ids_within_mono; [|done]. lia.
  - constructor; [lia|constructor].
Qed.
End FreshIds.

Lemma nextval_Ok name last n :
  nextval name last = Ok n -> n = last + 1 /\ last < serial_max.
Proof. unfold nextval. destruct (Z.ltb_spec last serial_max) as [Hlt|Hge]; intros Heq; by invc Heq. Qed.

Lemma nextval_Err name last e :
  nextval name last = Err e -> serial_max <= last.
Proof. unfold nextval. destruct (Z.ltb_spec last serial_max) as [Hlt|Hge]; intros Heq; by invc Heq. Qed.

(** ** The invariant of the tables

    Primary keys are distinct and bounded by their sequence, the unique
    columns of [users] are distinct, every foreign key names a user, and
    the sequences stay within [0, 2^31 - 1]. *)

Definition fk_history (db : DB) (h : SearchHistory.t) : Prop :=
  match SearchHistory.userId h with Some u => user_exists db u = true | None => True end.

Record db_wf (db : DB) : Prop := {
  wf_user_ids : NoDup (map Users.id (users db));
  wf_usernames : NoDup (map Users.username (users db));
  wf_emails : NoDup (map Users.email (users db));
  wf_user_seq : ids_within Users.id (users_id_seq db) (users db);
  wf_saved_ids : NoDup (map SavedOptions.id (savedOptions db));
  wf_saved_seq : ids_within SavedOptions.id (saved_options_id_seq db) (savedOptions db);
  wf_saved_fk : Forall (fun r => user_exists db (SavedOptions.userId r) = true) (savedOptions db);
  wf_history_ids : NoDup (map SearchHistory.id (searchHistory db));
  wf_history_seq : ids_within SearchHistory.id (search_history_id_seq db) (searchHistory db);
  wf_history_fk : Forall (fk_history db) (searchHistory db);
  wf_seqs : 0 <= users_id_seq db <= serial_max /\ 0 <= saved_options_id_seq db <= serial_max
            /\ 0 <= search_history_id_seq db <= serial_max
}.

Lemma empty_db_wf : db_wf empty_db.
Proof. split; simpl; try constructor; unfold serial_max; lia. Qed.

#[export] Hint Resolve empty_db_wf : tc.

(** *** Lists kept by a filter *)

Lemma NoDup_map_filter {A B} (g : A -> B) (P : A -> Prop) `{!forall x, Decision (P x)}
    (l : list A) :
  NoDup (map g l) -> NoDup (map g (filter P l)).
Proof.
  induction l as [|x l IH]; simpl; [done|]. intros Hnd. invc Hnd.
  rewrite filter_cons. case_decide; simpl; [|auto].
  constructor; [|auto]. intros Hin.
  apply list_elem_of_In, in_map_iff in Hin as (y & Hy & Hin).
  apply list_elem_of_In, list_elem_of_filter in Hin as [_ Hin].
  match goal with H : g x ∉ _ |- _ => apply H end.
  apply list_elem_of_In. rewrite <- Hy. apply in_map. by apply list_elem_of_In.
Qed.

Lemma Forall_filter_weaken {A} (Q P : A -> Prop) `{!forall x, Decision (P x)} (l : list A) :
  Forall Q l -> Forall Q (filter P l).
Proof.
  rewrite !Forall_forall. intros HQ x Hx. apply list_elem_of_filter in Hx as [_ Hx]. auto.
Qed.

(** *** Each table keeps the invariant *)

Lemma user_exists_snoc db row seq u :
  user_exists db u = true -> user_exists (set_users db (users db ++ [row]) seq) u = true.
Proof. unfold user_exists. simpl. rewrite existsb_app. by intros ->. Qed.

Lemma fk_history_snoc db row seq h :
  fk_history db h -> fk_history (set_users db (users db ++ [row]) seq) h.
Proof. unfold fk_history. destruct (SearchHistory.userId h); [apply user_exists_snoc|done]. Qed.

Lemma wf_users_seq db s :
  db_wf db -> users_id_seq db <= s <= serial_max -> db_wf (set_users db (users db) s).
Proof.
  intros [] Hs. split; simpl; try done.
  - eapply ids_within_mono; [|done]. lia.
  - lia.
Qed.

Lemma wf_users_snoc db (row : Users.t) :
  db_wf db -> Users.id row = users_id_seq db + 1 -> users_id_seq db < serial_max ->
  ~ In (Users.username row) (map Users.username (users db)) ->
  ~ In (Users.email row) (map Users.email (users db)) ->
  db_wf (set_users db (users db ++ [row]) (users_id_seq db + 1)).
Proof.
  intros [] Hid Hmax Hun Hem. split; simpl; try done.
  - apply NoDup_map_snoc; [done|]. rewrite Hid. by apply fresh_not_in.
  - by apply NoDup_map_snoc.
  - by apply NoDup_map_snoc.
  - apply ids_within_snoc; [lia|done|done].
  - eapply Forall_impl; [exact wf_saved_fk0|]. intros r. apply user_exists_snoc.
  - eapply Forall_impl; [exact wf_history_fk0|]. intros h. apply fk_history_snoc.
  - lia.
Qed.

Lemma wf_users_map db (f : Users.t -> Users.t) :
  (forall u, Users.id (f u) = Users.id u /\ Users.username (f u) = Users.username u /\
             Users.email (f u) = Users.email u) ->
  db_wf db -> db_wf (set_users db (map f (users db)) (users_id_seq db)).
Proof.
  intros Hf Hwf.
  assert (forall g : Users.t -> Z, (forall u, g (f u) = g u) ->
            map g (map f (users db)) = map g (users db)) as Hm.
  { intros g Hg. rewrite map_map. apply map_ext. exact Hg. }
  assert (forall uid, user_exists (set_users db (map f (users db)) (users_id_seq db)) uid
                      = user_exists db uid) as Hex.
  { intros uid. unfold user_exists. simpl. clear Hwf Hm. induction (users db) as [|u us IH]; [done|].
    simpl. rewrite IH. by rewrite (proj1 (Hf u)). }
  destruct Hwf. split; simpl; try done.
  - rewrite Hm; [done|]. intros u. apply Hf.
  - rewrite map_map. erewrite map_ext; [exact wf_usernames0|]. intros u. apply Hf.
  - rewrite map_map. erewrite map_ext; [exact wf_emails0|]. intros u. apply Hf.
  - unfold ids_within. apply Forall_map. eapply Forall_impl; [exact wf_user_seq0|].
    intros u. by rewrite (proj1 (Hf u)).
  - eapply Forall_impl; [exact wf_saved_fk0|]. intros r. by rewrite Hex.
  - eapply Forall_impl; [exact wf_history_fk0|]. intros h. unfold fk_history.
    destruct (SearchHistory.userId h); [by rewrite Hex|done].
Qed.

Lemma wf_saved_seq_bump db s :
  db_wf db -> saved_options_id_seq db <= s <= serial_max ->
  db_wf (set_saved db (savedOptions db) s).
Proof.
  intros [] Hs. split; simpl; try done.
  - eapply ids_within_mono; [|done]. lia.
  - lia.
Qed.

Lemma wf_saved_snoc db (row : SavedOptions.t) :
  db_wf db -> SavedOptions.id row = saved_options_id_seq db + 1 ->
  saved_options_id_seq db < serial_max -> user_exists db (SavedOptions.userId row) = true ->
  db_wf (set_saved db (savedOptions db ++ [row]) (saved_options_id_seq db + 1)).
Proof.
  intros [] Hid Hmax Hfk. split; simpl; try done.
  - apply NoDup_map_snoc; [done|]. rewrite Hid. by apply fresh_not_in.
  - apply ids_within_snoc; [lia|done|done].
  - apply Forall_app. split; [done|]. by constructor.
  - lia.
Qed.

Lemma wf_saved_filter db (P : SavedOptions.t -> Prop) `{!forall x, Decision (P x)} :
  db_wf db -> db_wf (set_saved db (filter P (savedOptions db)) (saved_options_id_seq db)).
Proof.
  intros []. split; simpl; try done.
  - by apply NoDup_map_filter.
  - by apply Forall_filter_weaken.
  - by apply Forall_filter_weaken.
Qed.

Lemma wf_history_seq_bump db s :
  db_wf db -> search_history_id_seq db <= s <= serial_max ->
  db_wf (set_history db (searchHistory db) s).
Proof.
  intros [] Hs. split; simpl; try done.
  - eapply ids_within_mono; [|done]. lia.
  - lia.
Qed.

Lemma wf_history_snoc db (row : SearchHistory.t) :
  db_wf db -> SearchHistory.id row = search_history_id_seq db + 1 ->
  search_history_id_seq db < serial_max -> fk_history db row ->
  db_wf (set_history db (searchHistory db ++ [row]) (search_history_id_seq db + 1)).
Proof.
  intros [] Hid Hmax Hfk. split; simpl; try done.
  - apply NoDup_map_snoc; [done|]. rewrite Hid. by apply fresh_not_in.
  - apply ids_within_snoc; [lia|done|done].
  - apply Forall_app. split; [done|]. by constructor.
  - lia.
Qed.

#[export] Hint Resolve wf_users_seq wf_saved_seq_bump wf_history_seq_bump wf_saved_filter : tc.

(** ** The operations keep the invariant *)

#[export] Instance created_after_saved_total : Total created_after_saved.
Proof. intros a b. unfold created_after_saved. lia. Qed.
#[export] Instance created_after_saved_trans : Transitive created_after_saved.
Proof. intros a b c. unfold created_after_saved. lia. Qed.
#[export] Instance created_after_history_total : Total created_after_history.
Proof. intros a b. unfold created_after_history. lia. Qed.
#[export] Instance created_after_history_trans : Transitive created_after_history.
Proof. intros a b c. unfold created_after_history. lia. Qed.

Section Operations.
Context `{Bcrypt}.

Lemma createUser_wf d salt now db :
  db_wf db -> db_wf (DatabaseStorage.createUser d salt now db).1.
Proof.
  intros Hwf. pose proof (wf_seqs _ Hwf) as Hs.
  unfold DatabaseStorage.createUser.
  destruct (nextval _ _) as [nid|e] eqn:Hn; [|done].
  apply nextval_Ok in Hn as [-> Hlt].
  rewrite (existsb_fresh Users.id _ _ (wf_user_seq _ Hwf)).
  destruct (existsb (fun u => String.eqb (Users.username u) _) _) eqn:E1;
    [apply wf_users_seq; [done|lia]|].
  destruct (existsb (fun u => String.eqb (Users.email u) _) _) eqn:E2;
    [apply wf_users_seq; [done|lia]|].
  apply wf_users_snoc; simpl; try done.
  - exact (proj1 (existsb_key_false Users.username String.eqb String.eqb_spec _ _) E1).
  - exact (proj1 (existsb_key_false Users.email String.eqb String.eqb_spec _ _) E2).
Qed.

Lemma updateUserProfile_wf uid p now db :
  db_wf db -> db_wf (DatabaseStorage.updateUserProfile uid p now db).1.
Proof.
  apply wf_users_map. intros u. by destruct (Users.id u =? uid).
Qed.

Lemma saveOption_wf d now db :
  db_wf db -> db_wf (DatabaseStorage.saveOption d now db).1.
Proof.
  intros Hwf. pose proof (wf_seqs _ Hwf) as Hs.
  unfold DatabaseStorage.saveOption.
  destruct (nextval _ _) as [nid|e] eqn:Hn; [|done].
  apply nextval_Ok in Hn as [-> Hlt].
  rewrite (existsb_fresh SavedOptions.id _ _ (wf_saved_seq _ Hwf)).
  destruct (user_exists db (ins_userId d)) eqn:Hu;
    destruct (ins_optionData d); simpl;
    solve [apply wf_saved_seq_bump; [done|lia] | by apply wf_saved_snoc].
Qed.

Lemma removeSavedOption_wf uid oid db :
  db_wf db -> db_wf (DatabaseStorage.removeSavedOption uid oid db).
Proof. apply wf_saved_filter. Qed.

Lemma saveSearchHistory_wf d now db :
  db_wf db -> db_wf (DatabaseStorage.saveSearchHistory d now db).1.
Proof.
  intros Hwf. pose proof (wf_seqs _ Hwf) as Hs.
  unfold DatabaseStorage.saveSearchHistory.
  destruct (nextval _ _) as [nid|e] eqn:Hn; [|done].
  apply nextval_Ok in Hn as [-> Hlt].
  rewrite (existsb_fresh SearchHistory.id _ _ (wf_history_seq _ Hwf)).
  destruct (patch (ih_userId d) None) as [u|] eqn:Hu; simpl;
    [destruct (user_exists db u) eqn:Hx; simpl|];
    solve [apply wf_history_seq_bump; [done|lia]
          | apply wf_history_snoc; simpl; try done; unfold fk_history; simpl; by rewrite ?Hu].
Qed.

(** Any sequence of storage calls, from the empty database. *)
Inductive db_step : DB -> DB -> Prop :=
| step_createUser d salt now db : db_step db (DatabaseStorage.createUser d salt now db).1
| step_updateUserProfile uid p now db :
    db_step db (DatabaseStorage.updateUserProfile uid p now db).1
| step_saveOption d now db : db_step db (DatabaseStorage.saveOption d now db).1
| step_removeSavedOption uid oid db : db_step db (DatabaseStorage.removeSavedOption uid oid db)
| step_saveSearchHistory d now db : db_step db (DatabaseStorage.saveSearchHistory d now db).1.

Lemma db_step_wf db db' : db_step db db' -> db_wf db -> db_wf db'.
Proof.
  destruct 1; eauto using createUser_wf, updateUserProfile_wf, saveOption_wf,
    removeSavedOption_wf, saveSearchHistory_wf.
Qed.

End Operations.

(** ** Functional behaviour of the saved-options and history methods *)

Section Behaviour.
Context `{Bcrypt}.

Lemma isSavedOption_true uid oid db :
  DatabaseStorage.isSavedOption uid oid db = true <-> Exists (saved_match uid oid) (savedOptions db).
Proof. apply bool_decide_eq_true. Qed.

Lemma saveOption_Ok_inv d now db db' r :
  DatabaseStorage.saveOption d now db = (db', Ok r) ->
  db' = set_saved db (savedOptions db ++ [r]) (saved_options_id_seq db + 1) /\
  r = SavedOptions.mk (saved_options_id_seq db + 1) (ins_userId d) (ins_optionId d)
        (ins_optionType d) (ins_optionData d) now /\
  user_exists db (ins_userId d) = true.
Proof.
  unfold DatabaseStorage.saveOption. intros Hs.
  destruct (nextval _ _) as [nid|e] eqn:Hn; [|discriminate].
  apply nextval_Ok in Hn as [-> _].
  repeat case_match; simplify_eq; split_and!; try done;
    match goal with
    | Hd : ins_optionData d = _ |- _ => by rewrite Hd
    | Hx : negb _ = false |- _ => by apply negb_false_iff
    end.
Qed.

Lemma saveOption_Err_inv d now db db' e :
  DatabaseStorage.saveOption d now db = (db', Err e) -> savedOptions db' = savedOptions db.
Proof.
  unfold DatabaseStorage.saveOption. intros Hs.
  destruct (nextval _ _); repeat case_match; simplify_eq; done.
Qed.

Lemma isSaved_snoc uid oid db rs r s :
  DatabaseStorage.isSavedOption uid oid (set_saved db (rs ++ [r]) s) =
  DatabaseStorage.isSavedOption uid oid (set_saved db rs s) || bool_decide (saved_match uid oid r).
Proof.
  unfold DatabaseStorage.isSavedOption. simpl.
  destruct (decide (saved_match uid oid r)) as [Hr|Hr].
  - rewrite (bool_decide_eq_true_2 _ Hr), orb_true_r.
    apply bool_decide_eq_true. apply Exists_app. right. by constructor.
  - rewrite (bool_decide_eq_false_2 _ Hr), orb_false_r. apply bool_decide_ext. rewrite Exists_app, Exists_cons, Exists_nil. tauto.
Qed.

(** C5: [GET /api/saved-options] reads exactly the caller's rows, newest
    first. *)
Theorem getSavedOptions_scoped_sorted uid db :
  Forall (owned_by uid) (DatabaseStorage.getSavedOptions uid db) /\
  Sorted created_after_saved (DatabaseStorage.getSavedOptions uid db) /\
  DatabaseStorage.getSavedOptions uid db ≡ₚ filter (owned_by uid) (savedOptions db).
Proof.
  unfold DatabaseStorage.getSavedOptions. split_and!.
  - rewrite (merge_sort_Permutation _ _). apply Forall_filter_self.
  - apply Sorted_merge_sort. apply _.
  - apply merge_sort_Permutation.
Qed.

(** C13: After a successful save the caller's option reads as saved, and the
    answer for every other user is unchanged. *)
Theorem saveOption_isSaved d now db db' r :
  DatabaseStorage.saveOption d now db = (db', Ok r) ->
  DatabaseStorage.isSavedOption (ins_userId d) (ins_optionId d) db' = true /\
  (forall uid oid, uid <> ins_userId d ->
    DatabaseStorage.isSavedOption uid oid db' = DatabaseStorage.isSavedOption uid oid db).
Proof.
  intros Hs. apply saveOption_Ok_inv in Hs as (-> & -> & _). split.
  - rewrite isSaved_snoc, orb_true_iff. right. by apply bool_decide_eq_true_2.
  - intros uid oid Hne. rewrite isSaved_snoc, (bool_decide_eq_false_2 (saved_match uid oid _)).
    + by rewrite orb_false_r.
    + intros [Hu _]. simpl in Hu. congruence.
Qed.

(** C20: Saving is not an upsert: a second save of the same option by the same
    user adds a second row. *)
Theorem saveOption_duplicates d now db db' r :
  DatabaseStorage.saveOption d now db = (db', Ok r) ->
  length (filter (saved_match (ins_userId d) (ins_optionId d)) (savedOptions db')) =
  S (length (filter (saved_match (ins_userId d) (ins_optionId d)) (savedOptions db))).
Proof.
  intros Hs. apply saveOption_Ok_inv in Hs as (-> & -> & _). simpl.
  rewrite filter_app, length_app, filter_cons_True; [simpl; lia|done].
Qed.

(** C4: [DELETE /api/saved-options/:optionId] removes every row of the pair,
    is idempotent, and leaves every other pair and every other user's list
    as it was. *)
Theorem removeSavedOption_spec uid oid db :
  DatabaseStorage.isSavedOption uid oid (DatabaseStorage.removeSavedOption uid oid db) = false /\
  DatabaseStorage.removeSavedOption uid oid (DatabaseStorage.removeSavedOption uid oid db) =
    DatabaseStorage.removeSavedOption uid oid db /\
  (forall uid' oid', (uid', oid') <> (uid, oid) ->
    DatabaseStorage.isSavedOption uid' oid' (DatabaseStorage.removeSavedOption uid oid db) =
    DatabaseStorage.isSavedOption uid' oid' db) /\
  (forall uid', uid' <> uid ->
    DatabaseStorage.getSavedOptions uid' (DatabaseStorage.removeSavedOption uid oid db) =
    DatabaseStorage.getSavedOptions uid' db).
Proof.
  unfold DatabaseStorage.removeSavedOption, DatabaseStorage.isSavedOption,
    DatabaseStorage.getSavedOptions; simpl. split_and!.
  - apply bool_decide_eq_false_2. rewrite Exists_exists.
    intros (x & Hx & Hm). by apply list_elem_of_filter in Hx as [? _].
  - unfold set_saved. simpl. by rewrite filter_filter_absorb.
  - intros uid' oid' Hne. apply bool_decide_ext, Exists_filter_absorb.
    intros x [Hu Ho] [Hu' Ho']. apply Hne. by rewrite <- Hu, <- Ho, Hu', Ho'.
  - intros uid' Hne. rewrite filter_filter_absorb; [done|].
    intros x Hx [Hu _]. unfold owned_by in Hx. congruence.
Qed.

(** C6: [GET /api/search-history] returns the caller's entries, newest
    first, at most ten of them, and no entry left out is newer than one
    returned. *)
Theorem getSearchHistory_newest uid db :
  let hs := filter (history_of uid) (searchHistory db) in
  let res := DatabaseStorage.getSearchHistory uid db in
  length res = Nat.min 10 (length hs) /\
  Forall (history_of uid) res /\
  Sorted created_after_history res /\
  (forall h h', h ∈ hs -> h ∉ res -> h' ∈ res ->
     SearchHistory.createdAt h <= SearchHistory.createdAt h').
Proof.
  unfold DatabaseStorage.getSearchHistory. cbn zeta.
  set (hs := filter (history_of uid) (searchHistory db)).
  pose proof (StronglySorted_merge_sort created_after_history hs) as Hss.
  split_and!.
  - by rewrite length_take, (merge_sort_Permutation _ _).
  - rewrite Forall_forall. intros x Hx.
    apply elem_of_take_weaken in Hx. rewrite (merge_sort_Permutation _ _) in Hx.
    by apply list_elem_of_filter in Hx as [? _].
  - apply StronglySorted_Sorted. rewrite <- (take_drop 10 (merge_sort _ hs)) in Hss.
    by apply StronglySorted_app_1_l in Hss.
  - intros h h' Hh Hn Hh'. rewrite <- (take_drop 10 (merge_sort _ hs)) in Hss.
    apply (StronglySorted_app_1_elem_of _ _ _ h' h Hss Hh').
    apply elem_of_take_drop; [|done]. by rewrite (merge_sort_Permutation _ _).
Qed.

Lemma saveSearchHistory_Ok_inv d now db db' h :
  DatabaseStorage.saveSearchHistory d now db = (db', Ok h) ->
  searchHistory db' = (searchHistory db ++ [h])%list /\ SearchHistory.createdAt h = now /\
  SearchHistory.userId h = patch (ih_userId d) None.
Proof.
  unfold DatabaseStorage.saveSearchHistory. intros Hs.
  destruct (nextval _ _); repeat case_match; simplify_eq; done.
Qed.

(** In a list sorted newest first that holds [h] and otherwise only
    entries strictly older than [h], [h] comes first. *)
Lemma head_newest (hs l : list SearchHistory.t) h :
  StronglySorted created_after_history l -> l ≡ₚ (hs ++ [h])%list ->
  (forall h', h' ∈ hs -> SearchHistory.createdAt h' < SearchHistory.createdAt h) ->
  head l = Some h.
Proof.
  intros Hs Hp Hlt. assert (h ∈ l) as Hh by (rewrite Hp; set_solver).
  destruct l as [|x l]; [by apply elem_of_nil in Hh|]. simpl.
  apply StronglySorted_inv in Hs as [_ Hf]. rewrite Forall_forall in Hf.
  apply elem_of_cons in Hh as [->|Hh]; [done|].
  assert (x ∈ (hs ++ [h])%list) as Hx by (rewrite <- Hp; set_solver).
  apply elem_of_app in Hx as [Hx|Hx]; [|by apply list_elem_of_singleton in Hx as ->].
  specialize (Hf h Hh). specialize (Hlt x Hx). unfold created_after_history in Hf. lia.
Qed.

(** C36: A search saved for user [u] at a time later than every entry of
    [u]'s history is the first entry [getSearchHistory] returns to [u]
    next, with [u] as its owner and the time of the insert. *)
Theorem saveSearchHistory_newest_first d now db db' h u :
  DatabaseStorage.saveSearchHistory d now db = (db', Ok h) ->
  patch (ih_userId d) None = Some u ->
  (forall h', h' ∈ searchHistory db -> history_of u h' -> SearchHistory.createdAt h' < now) ->
  head (DatabaseStorage.getSearchHistory u db') = Some h /\
  SearchHistory.userId h = Some u /\ SearchHistory.createdAt h = now.
Proof.
  intros Hs Hu Hlt. apply saveSearchHistory_Ok_inv in Hs as (Hdb & Hc & Hh).
  rewrite Hu in Hh. split_and!; [|done..].
  unfold DatabaseStorage.getSearchHistory. rewrite Hdb, filter_app, filter_cons_True, filter_nil
    by (unfold history_of; congruence).
  set (hs := filter (history_of u) (searchHistory db)).
  assert (head (merge_sort created_after_history (hs ++ [h])%list) = Some h) as Hd.
  { apply (head_newest hs); [exact (StronglySorted_merge_sort _ _)|apply merge_sort_Permutation|].
    intros h' Hin. apply list_elem_of_filter in Hin as [Hu' Hin]. rewrite Hc. by apply Hlt. }
  destruct (merge_sort _ _); [done|]. exact Hd.
Qed.

(** *** Users *)

Lemma createUser_fresh_branch d salt now db :
  db_wf db -> users_id_seq db < serial_max ->
  DatabaseStorage.createUser d salt now db =
  let nid := users_id_seq db + 1 in
  let row := Users.mk nid (su_username d) (su_email d) (bcrypt_hash (su_password d) salt)
               (Some (su_firstName d)) (Some (su_lastName d)) None None None None now now in
  if existsb (fun u => String.eqb (Users.username u) (su_username d)) (users db) then
    (set_users db (users db) nid, Err (UniqueViolation "users_username_unique"))
  else if existsb (fun u => String.eqb (Users.email u) (su_email d)) (users db) then
    (set_users db (users db) nid, Err (UniqueViolation "users_email_unique"))
  else (set_users db (users db ++ [row]) nid, Ok row).
Proof.
  intros Hwf Hlt. unfold DatabaseStorage.createUser, nextval.
  destruct (Z.ltb_spec (users_id_seq db) serial_max); [|lia].
  by rewrite (existsb_fresh Users.id _ _ (wf_user_seq _ Hwf)).
Qed.

Lemma createUser_username_taken d salt now db :
  db_wf db -> users_id_seq db < serial_max ->
  In (su_username d) (map Users.username (users db)) ->
  (DatabaseStorage.createUser d salt now db).2 = Err (UniqueViolation "users_username_unique").
Proof.
  intros Hwf Hlt Hin. rewrite createUser_fresh_branch by done. cbn zeta.
  pose proof (existsb_key_false Users.username String.eqb String.eqb_spec (users db) (su_username d)) as Hu.
  destruct (existsb _ _) eqn:E; [done|]. exfalso. exact (proj1 Hu eq_refl Hin).
Qed.

Lemma createUser_email_taken d salt now db :
  db_wf db -> users_id_seq db < serial_max ->
  ~ In (su_username d) (map Users.username (users db)) ->
  In (su_email d) (map Users.email (users db)) ->
  (DatabaseStorage.createUser d salt now db).2 = Err (UniqueViolation "users_email_unique").
Proof.
  intros Hwf Hlt Hn Hin. rewrite createUser_fresh_branch by done. cbn zeta.
  pose proof (existsb_key_false Users.username String.eqb String.eqb_spec (users db) (su_username d)) as Hu.
  pose proof (existsb_key_false Users.email String.eqb String.eqb_spec (users db) (su_email d)) as He.
  rewrite (proj2 Hu Hn).
  destruct (existsb (fun u => String.eqb (Users.email u) _) _) eqn:E'; [done|].
  exfalso. exact (proj1 He eq_refl Hin).
Qed.

Lemma createUser_fresh d salt now db :
  db_wf db -> users_id_seq db < serial_max ->
  ~ In (su_username d) (map Users.username (users db)) ->
  ~ In (su_email d) (map Users.email (users db)) ->
  exists row, (DatabaseStorage.createUser d salt now db).2 = Ok row /\
    Users.id row = users_id_seq db + 1 /\
    Users.passwordHash row = bcrypt_hash (su_password d) salt /\
    DatabaseStorage.getUserByUsername (su_username d) (DatabaseStorage.createUser d salt now db).1 = Some row.
Proof.
  intros Hwf Hlt Hn Hn'. rewrite createUser_fresh_branch by done. cbn zeta.
  pose proof (existsb_key_false Users.username String.eqb String.eqb_spec (users db) (su_username d)) as Hu.
  pose proof (existsb_key_false Users.email String.eqb String.eqb_spec (users db) (su_email d)) as He.
  apply Hu in Hn. apply He in Hn'. rewrite Hn, Hn'. simpl.
  eexists. split_and!; try done.
  unfold DatabaseStorage.getUserByUsername. simpl.
  rewrite filter_app, filter_none; [by rewrite filter_cons_True|].
  intros u Hin Heq. apply Hu in Hn. apply Hn. rewrite <- Heq.
  apply in_map. by apply list_elem_of_In.
Qed.

(** C8: Sign-up's insert: a taken username fails on its unique index, a free
    username with a taken e-mail on the e-mail index, and otherwise the
    new row gets the next id, the bcrypt hash of the password, and is
    found by its username. *)
Theorem createUser_spec d salt now db :
  db_wf db -> users_id_seq db < serial_max ->
  let res := DatabaseStorage.createUser d salt now db in
  (In (su_username d) (map Users.username (users db)) ->
     res.2 = Err (UniqueViolation "users_username_unique")) /\
  (~ In (su_username d) (map Users.username (users db)) ->
   In (su_email d) (map Users.email (users db)) ->
     res.2 = Err (UniqueViolation "users_email_unique")) /\
  (~ In (su_username d) (map Users.username (users db)) ->
   ~ In (su_email d) (map Users.email (users db)) ->
   exists row, res.2 = Ok row /\ Users.id row = users_id_seq db + 1 /\
     Users.passwordHash row = bcrypt_hash (su_password d) salt /\
     DatabaseStorage.getUserByUsername (su_username d) res.1 = Some row).
Proof.
  intros Hwf Hlt. cbn zeta.
  split_and!; eauto using createUser_username_taken, createUser_email_taken, createUser_fresh.
Qed.

(** C22: The profile update touches only the caller's row, and in it never the
    id, the username, the e-mail or the password hash. *)
Theorem updateUserProfile_scoped uid p now db :
  let db' := (DatabaseStorage.updateUserProfile uid p now db).1 in
  map Users.id (users db') = map Users.id (users db) /\
  map Users.username (users db') = map Users.username (users db) /\
  map Users.email (users db') = map Users.email (users db) /\
  map Users.passwordHash (users db') = map Users.passwordHash (users db) /\
  (forall u, u ∈ users db -> Users.id u <> uid -> u ∈ users db').
Proof.
  cbn zeta. unfold DatabaseStorage.updateUserProfile. simpl.
  rewrite !map_map. split_and!;
    try (apply map_ext; intros u; by destruct (Users.id u =? uid)).
  intros u Hu Hne. apply list_elem_of_In, in_map_iff. exists u. split.
  - by rewrite (proj2 (Z.eqb_neq _ _) Hne).
  - by apply list_elem_of_In.
Qed.

End Behaviour.

(** [updateUserProfile] returns the caller's row with the update applied. *)
Lemma updateUserProfile_returns uid p now db u :
  DatabaseStorage.getUserById uid db = Some u ->
  (DatabaseStorage.updateUserProfile uid p now db).2 = Some (DatabaseStorage.apply_profile p now u).
Proof.
  unfold DatabaseStorage.getUserById, DatabaseStorage.updateUserProfile. simpl.
  induction (users db) as [|x l IH]; [done|]. simpl. rewrite !filter_cons.
  destruct (Z.eqb_spec (Users.id x) uid) as [Hx|Hx].
  - rewrite !decide_True by done. by intros [= ->].
  - rewrite !decide_False by done. exact IH.
Qed.

(** ** Users are never removed *)

Section UsersGrow.
Context `{Bcrypt}.

Lemma user_exists_map db (f : Users.t -> Users.t) s n :
  (forall u, Users.id (f u) = Users.id u) ->
  user_exists (set_users db (map f (users db)) s) n = user_exists db n.
Proof.
  intros Hf. unfold user_exists. simpl. induction (users db) as [|u us IH]; [done|].
  simpl. by rewrite IH, Hf.
Qed.

Lemma db_step_users_grow db db' n :
  db_step db db' -> user_exists db n = true -> user_exists db' n = true.
Proof.
  destruct 1 as [d salt now0 db0|uid p now0 db0|d now0 db0|uid oid db0|d now0 db0]; intros Hn.
  - unfold DatabaseStorage.createUser.
    destruct (nextval _ _); [|done]. repeat case_match; try done. by apply user_exists_snoc.
  - unfold DatabaseStorage.updateUserProfile. simpl. rewrite user_exists_map; [done|].
    intros u. by destruct (Users.id u =? uid).
  - unfold DatabaseStorage.saveOption. destruct (nextval _ _); [|done].
    by repeat case_match.
  - done.
  - unfold DatabaseStorage.saveSearchHistory. destruct (nextval _ _); [|done].
    by repeat case_match.
Qed.

Lemma rtc_db_step_wf db db' : rtc db_step db db' -> db_wf db -> db_wf db'.
Proof. induction 1; eauto using db_step_wf. Qed.

Lemma rtc_db_step_users_grow db db' n :
  rtc db_step db db' -> user_exists db n = true -> user_exists db' n = true.
Proof. induction 1; eauto using db_step_users_grow. Qed.

Lemma createUser_Ok_exists d salt now db db' u :
  DatabaseStorage.createUser d salt now db = (db', Ok u) -> user_exists db' (Users.id u) = true.
Proof.
  unfold DatabaseStorage.createUser. destruct (nextval _ _); [|discriminate].
  repeat case_match; intros Hc; simplify_eq. unfold user_exists. simpl.
  rewrite existsb_app. simpl. by rewrite Z.eqb_refl, orb_true_r.
Qed.

Lemma getUserByUsername_exists name db u :
  DatabaseStorage.getUserByUsername name db = Some u -> user_exists db (Users.id u) = true.
Proof.
  unfold DatabaseStorage.getUserByUsername, user_exists. intros Hh.
  apply existsb_exists. exists u. split; [|apply Z.eqb_refl].
  apply list_elem_of_In. destruct (filter _ (users db)) as [|x l] eqn:E; [done|].
  simpl in Hh. invc Hh. eapply list_elem_of_filter with (P := fun u => Users.username u = name).
  rewrite E. apply list_elem_of_here.
Qed.

Lemma getUserById_exists uid db u :
  DatabaseStorage.getUserById uid db = Some u -> Users.id u = uid /\ user_exists db uid = true.
Proof.
  unfold DatabaseStorage.getUserById, user_exists. intros Hh.
  destruct (filter _ (users db)) as [|x l] eqn:E; [done|]. simpl in Hh. invc Hh.
  assert (u ∈ filter (fun u => Users.id u = uid) (users db)) as Hin by (rewrite E; apply list_elem_of_here).
  apply list_elem_of_filter in Hin as [Hid Hin]. split; [done|].
  apply existsb_exists. exists u. split; [by apply list_elem_of_In|]. by apply Z.eqb_eq.
Qed.
End UsersGrow.

(** A user of a well-formed database has an id in [1, 2^31 - 1], and
    [getUserById] finds it. *)
Lemma user_exists_bounds db n :
  db_wf db -> user_exists db n = true -> 0 < n <= serial_max.
Proof.
  intros Hwf Hn. apply existsb_exists in Hn as (u & Hu & Heq). apply Z.eqb_eq in Heq. subst.
  pose proof (wf_user_seq _ Hwf) as Hb. pose proof (wf_seqs _ Hwf) as Hs.
  unfold ids_within in Hb. rewrite Forall_forall in Hb.
  specialize (Hb u (proj2 (list_elem_of_In _ _) Hu)). lia.
Qed.

Lemma user_exists_getUserById db n :
  user_exists db n = true -> exists u, DatabaseStorage.getUserById n db = Some u.
Proof.
  intros Hn. apply existsb_exists in Hn as (u & Hu & Heq). apply Z.eqb_eq in Heq.
  unfold DatabaseStorage.getUserById.
  destruct (filter _ (users db)) as [|x l] eqn:E; [|by exists x].
  exfalso. assert (u ∈ filter (fun u => Users.id u = n) (users db)) as Hin.
  { apply list_elem_of_filter. split; [done|]. by apply list_elem_of_In. }
  rewrite E in Hin. by apply elem_of_nil in Hin.
Qed.

(** On a well-formed database whose sequence is not exhausted, saving a
    non-null payload for a user of the database succeeds. *)
Lemma saveOption_succeeds d now db :
  db_wf db -> saved_options_id_seq db < serial_max -> ins_optionData d <> JNull ->
  user_exists db (ins_userId d) = true ->
  DatabaseStorage.saveOption d now db =
    (set_saved db (savedOptions db ++ [SavedOptions.mk (saved_options_id_seq db + 1) (ins_userId d)
        (ins_optionId d) (ins_optionType d) (ins_optionData d) now]) (saved_options_id_seq db + 1),
     Ok (SavedOptions.mk (saved_options_id_seq db + 1) (ins_userId d) (ins_optionId d)
        (ins_optionType d) (ins_optionData d) now)).
Proof.
  intros Hwf Hs Hn Hu. unfold DatabaseStorage.saveOption, nextval.
  destruct (Z.ltb_spec (saved_options_id_seq db) serial_max); [|lia].
  rewrite (existsb_fresh SavedOptions.id _ _ (wf_saved_seq _ Hwf)), Hu.
  by destruct (ins_optionData d).
Qed.

(** The rows the route lists for [uid] are that user's rows. *)
Lemma getSavedOptions_elem_of uid db r :
  r ∈ DatabaseStorage.getSavedOptions uid db <-> r ∈ savedOptions db /\ SavedOptions.userId r = uid.
Proof.
  unfold DatabaseStorage.getSavedOptions. rewrite (merge_sort_Permutation _ _), list_elem_of_filter.
  unfold owned_by. tauto.
Qed.

(** ** A bcrypt for concrete runs

    The hash is the password itself; it satisfies [BcryptLaws], so the
    theorems that assume them apply to it. *)
Definition plain_bcrypt : Bcrypt :=
  {| bcrypt_hash pw _ := pw; bcrypt_compare pw h := String.eqb pw h |}.

Lemma plain_bcrypt_laws : @BcryptLaws plain_bcrypt.
Proof. split; simpl; [intros; apply String.eqb_refl|intros pw pw' _ E; by apply String.eqb_eq in E]. Qed.

(** ** Concrete runs

    A database with one user and no saved rows, on which the theorems
    above are applied. *)
Definition demo_user : Users.t :=
  Users.mk 1 "alice" "alice@example.com" "secret" None None None None None None 0 0.

Definition demo_db : DB := mkDB [demo_user] [] [] 1 0 0.

Definition demo_insert : InsertSavedOption :=
  mkInsertSaved 1 "flight1" "flight" (JObj [("id", JStr "flight1")]).

Lemma demo_db_wf : db_wf demo_db.
Proof. split; vm_compute; repeat constructor; try set_solver; try lia; discriminate. Qed.

(** C13 at the one-user database: saving [flight1] for user 1. *)
Lemma saveOption_isSaved_witness :
  exists db' r, DatabaseStorage.saveOption demo_insert 5 demo_db = (db', Ok r) /\
  DatabaseStorage.isSavedOption 1 "flight1" db' = true /\
  DatabaseStorage.isSavedOption 2 "flight1" db' = DatabaseStorage.isSavedOption 2 "flight1" demo_db.
Proof.
  do 2 eexists. split; [reflexivity|].
  destruct (saveOption_isSaved demo_insert 5 demo_db _ _ eq_refl) as [H1 H2].
  split; [exact H1|]. apply H2. discriminate.
Defined.

(** C20 at the one-user database: the second save of [flight1] adds a second row. *)
Lemma saveOption_duplicates_witness :
  exists db1 r1 db2 r2,
    DatabaseStorage.saveOption demo_insert 5 demo_db = (db1, Ok r1) /\
    DatabaseStorage.saveOption demo_insert 6 db1 = (db2, Ok r2) /\
    length (filter (saved_match 1 "flight1") (savedOptions db2)) = 2%nat.
Proof.
  do 4 eexists. split; [reflexivity|]. split; [reflexivity|].
  exact (saveOption_duplicates demo_insert 6 (DatabaseStorage.saveOption demo_insert 5 demo_db).1 _ _ eq_refl).
Defined.

(** C8 at the one-user database. *)
Lemma createUser_spec_witness :
  db_wf demo_db /\ users_id_seq demo_db < serial_max /\
  ((@DatabaseStorage.createUser plain_bcrypt
      (mkSignUp "alice" "bob@example.com" "pw" "Bob" "B") "salt" 7 demo_db).2 =
     Err (UniqueViolation "users_username_unique")).
Proof.
  split_and!; [exact demo_db_wf|vm_compute; reflexivity|].
  apply (createUser_spec (H := plain_bcrypt) _ "salt" 7 demo_db demo_db_wf); [vm_compute; reflexivity|].
  left. reflexivity.
Defined.

Definition demo_history_insert : InsertSearchHistory :=
  mkInsertHistory (Some (Some 1)) "Paris" None None None.

(** C36 at the search of [alice] at time 5 on the database without history. *)
Lemma saveSearchHistory_newest_first_witness :
  let '(db', r) := DatabaseStorage.saveSearchHistory demo_history_insert 5 demo_db in
  match r with
  | Ok h => head (DatabaseStorage.getSearchHistory 1 db') = Some h /\
            SearchHistory.userId h = Some 1 /\ SearchHistory.createdAt h = 5
  | Err _ => False
  end.
Proof.
  destruct (DatabaseStorage.saveSearchHistory _ _ _) as [db' [h|e]] eqn:E; [|discriminate].
  apply (saveSearchHistory_newest_first _ _ _ _ _ 1 E); [reflexivity|].
  intros h' Hin. by apply elem_of_nil in Hin.
Defined.
