(* ===== verification/Session.v ===== *)
(** * Session: express-session with its memory store, and the guard

    [setupSession] (src/server/auth.ts) installs express-session with no
    [store] option, so sessions live in the library's [MemoryStore]: a map
    from session id to the serialized session, whose cookie carries the
    expiry.  The options are [resave: false], [saveUninitialized: false]
    and [maxAge] 24 hours.  The library is not part of the repository;
    its behaviour for these options is modelled here:

    - at the start of a request the cookie's session is loaded; an expired
      entry is deleted on read, and a missing or expired one gives a new,
      empty session under a freshly drawn id;
    - at the end of the request a modified session is written with a new
      expiry [now + maxAge]; an unmodified loaded session is touched (its
      expiry slides to [now + maxAge]); an unmodified new session is never
      stored;
    - [req.session.destroy] deletes the entry and never fails.

    [isAuthenticated] is the guard of every session-gated route. *)

From S2P Require Import Prelude.
Open Scope string_scope.
Open Scope Z_scope.

Record SessionData := mkSess {
  sess_userId : option Z;
  sess_expires : Z
}.

Abbreviation Store := (gmap string SessionData).

(** [cookie.maxAge] of [setupSession]: 24 hours in milliseconds. *)
Definition maxAge : Z := 24 * 60 * 60 * 1000.

(** The session object a handler sees as [req.session]. *)
Record ReqSession := mkReqSess {
  sessionID : string;
  userId : option Z;
  isNew : bool;
  modified : bool;
  destroyed : bool
}.

(** [MemoryStore.get]: an entry whose expiry has passed is deleted and
    reads as absent. *)
Definition store_get (sid : string) (now : Z) (st : Store) : Store * option SessionData :=
  match st !! sid with
  | Some s => if now <? sess_expires s then (st, Some s) else (delete sid st, None)
  | None => (st, None)
  end.

Definition new_session (fresh : string) : ReqSession := mkReqSess fresh None true false false.

(** The middleware's entry: load the cookie's session, or generate one. *)
Definition session_begin (cookie : option string) (fresh : string) (now : Z) (st : Store)
    : Store * ReqSession :=
  match cookie with
  | Some sid =>
      match store_get sid now st with
      | (st', Some s) => (st', mkReqSess sid (sess_userId s) false false false)
      | (st', None) => (st', new_session fresh)
      end
  | None => (st, new_session fresh)
  end.

(** [req.session.userId = id]: the session counts as modified when its
    content changes. *)
Definition set_userId (rs : ReqSession) (uid : Z) : ReqSession :=
  mkReqSess (sessionID rs) (Some uid) (isNew rs)
    (modified rs || negb (bool_decide (userId rs = Some uid))) (destroyed rs).

(** [req.session.destroy(cb)] with the memory store: the entry is
    removed (by [session_end] below) and the callback receives no error. *)
Definition session_destroy (rs : ReqSession) : ReqSession * option string :=
  (mkReqSess (sessionID rs) (userId rs) (isNew rs) (modified rs) true, None).

(** The middleware's exit; the second component is the session id sent in
    a [Set-Cookie] header, if any. *)
Definition session_end (rs : ReqSession) (now : Z) (st : Store) : Store * option string :=
  if destroyed rs then (delete (sessionID rs) st, None)
  else if modified rs then
    (<[sessionID rs := mkSess (userId rs) (now + maxAge)]> st, Some (sessionID rs))
  else if isNew rs then (st, None)
  else (alter (fun s => mkSess (sess_userId s) (now + maxAge)) (sessionID rs) st, None).

(** [isAuthenticated]: [if (req.session.userId) next()]; a JavaScript
    [if] on a number rejects [0]. *)
Definition isAuthenticated (rs : ReqSession) : bool :=
  match userId rs with
  | Some n => js_truthy_num n
  | None => false
  end.

(** The identity a guarded handler reads from [req.session.userId]. *)
Definition session_user (rs : ReqSession) : Z :=
  match userId rs with Some n => n | None => 0 end.

(** ** The life of one session id

    A session id is absent from the store, active until its expiry, or
    expired (still stored until the next read deletes it). *)
Inductive SessionStatus := Absent | Active (uid : option Z) | Expired.

Definition sid_status (st : Store) (sid : string) (now : Z) : SessionStatus :=
  match st !! sid with
  | None => Absent
  | Some s => if now <? sess_expires s then Active (sess_userId s) else Expired
  end.

(** ** Lemmas *)

Lemma session_begin_active cookie fresh now st sid u :
  cookie = Some sid -> sid_status st sid now = Active u ->
  session_begin cookie fresh now st = (st, mkReqSess sid u false false false).
Proof.
  intros -> Hs. unfold sid_status in Hs. simpl. unfold store_get.
  destruct (st !! sid) as [s|]; [|done].
  destruct (now <? sess_expires s); [|done]. by invc Hs.
Qed.

Lemma session_begin_inactive cookie fresh now st :
  (forall sid, cookie = Some sid -> sid_status st sid now = Absent \/ sid_status st sid now = Expired) ->
  (session_begin cookie fresh now st).2 = new_session fresh.
Proof.
  intros Hc. destruct cookie as [sid|]; [|done]. simpl. unfold store_get.
  specialize (Hc sid eq_refl). unfold sid_status in Hc.
  destruct (st !! sid) as [s|]; [|done].
  destruct (now <? sess_expires s); [|done]. by destruct Hc.
Qed.

Lemma new_session_not_authenticated fresh : isAuthenticated (new_session fresh) = false.
Proof. done. Qed.

Lemma isAuthenticated_true rs :
  isAuthenticated rs = true <-> exists n, userId rs = Some n /\ n <> 0.
Proof.
  unfold isAuthenticated, js_truthy_num. destruct (userId rs) as [n|]; split.
  - intros Hn. exists n. split; [done|]. apply negb_true_iff, Z.eqb_neq in Hn. done.
  - intros (m & Hm & Hne). invc Hm. by apply negb_true_iff, Z.eqb_neq.
  - discriminate.
  - intros (m & Hm & _). discriminate.
Qed.

#[export] Hint Resolve new_session_not_authenticated : tc.

(** The two ways a request's session starts. *)
Lemma session_begin_cases cookie fresh now st :
  let '(st1, rs) := session_begin cookie fresh now st in
  (rs = new_session fresh /\ (st1 = st \/ exists sid, st1 = delete sid st)) \/
  (exists sid sd, cookie = Some sid /\ st !! sid = Some sd /\ now < sess_expires sd /\
     st1 = st /\ rs = mkReqSess sid (sess_userId sd) false false false).
Proof.
  destruct cookie as [sid|]; simpl; [|by left; split; [|left]].
  unfold store_get. destruct (st !! sid) as [sd|] eqn:E; [|by left; split; [|left]].
  destruct (Z.ltb_spec now (sess_expires sd)).
  - right. by exists sid, sd.
  - left. split; [done|]. right. by exists sid.
Qed.

(** ** A property of every stored session is kept by the middleware *)

Section StoreInvariant.
Context (P : SessionData -> Prop).
Hypothesis P_touch : forall sd t, P sd -> P (mkSess (sess_userId sd) t).

Definition store_all (st : Store) : Prop := forall sid sd, st !! sid = Some sd -> P sd.

Lemma store_all_delete st sid : store_all st -> store_all (delete sid st).
Proof. intros Hs k sd Hk. apply lookup_delete_Some in Hk as [_ Hk]. eauto. Qed.

Lemma session_begin_store_all cookie fresh now st :
  store_all st -> store_all (session_begin cookie fresh now st).1.
Proof.
  intros Hs. pose proof (session_begin_cases cookie fresh now st) as Hc.
  destruct (session_begin _ _ _ _) as [st1 rs]. simpl.
  destruct Hc as [[_ [->|[sid ->]]]|(sid & sd & _ & _ & _ & -> & _)];
    auto using store_all_delete.
Qed.

(** The exit writes the session only when it was modified. *)
Lemma session_end_store_all rs now st :
  store_all st ->
  (destroyed rs = false -> modified rs = true -> P (mkSess (userId rs) (now + maxAge))) ->
  store_all (session_end rs now st).1.
Proof.
  intros Hs Hp. unfold session_end.
  destruct (destroyed rs); [by apply store_all_delete|].
  destruct (modified rs); simpl.
  - intros k sd Hk. apply lookup_insert_Some in Hk as [[_ <-]|[_ Hk]]; eauto.
  - destruct (isNew rs); [done|]. simpl. intros k sd Hk.
    apply lookup_alter_Some in Hk as [(_ & sd0 & Hk & ->)|[_ Hk]]; eauto.
Qed.
End StoreInvariant.

(** ** Sessions expire [maxAge] after their last request *)

Lemma session_end_other rs now st sid :
  sid <> sessionID rs -> (session_end rs now st).1 !! sid = st !! sid.
Proof.
  intros Hne. unfold session_end.
  destruct (destroyed rs); simpl; [by rewrite lookup_delete_ne|].
  destruct (modified rs); simpl; [by rewrite lookup_insert_ne|].
  destruct (isNew rs); [done|]. simpl. by rewrite lookup_alter_ne.
Qed.

Lemma session_end_own rs now st sd :
  (isNew rs = true -> st !! sessionID rs = None) ->
  (session_end rs now st).1 !! sessionID rs = Some sd -> sess_expires sd = now + maxAge.
Proof.
  intros Hnew. unfold session_end.
  destruct (destroyed rs); simpl; [by rewrite lookup_delete_eq|].
  destruct (modified rs); simpl; [rewrite lookup_insert_eq; by intros [= <-]|].
  destruct (isNew rs); simpl; [by rewrite Hnew|].
  rewrite lookup_alter_eq. destruct (st !! sessionID rs); simpl; [by intros [= <-]|done].
Qed.

(** An unmodified session a request loaded is touched: active, for the
    same user, [maxAge] past the request, and no cookie is sent. *)
Lemma session_end_touch rs now st t :
  destroyed rs = false -> modified rs = false -> isNew rs = false ->
  sid_status st (sessionID rs) now = Active (userId rs) -> t < now + maxAge ->
  sid_status (session_end rs now st).1 (sessionID rs) t = Active (userId rs) /\ (session_end rs now st).2 = None.
Proof.
  intros Hd Hm Hn Hs Ht. unfold sid_status, session_end in *. rewrite Hd, Hm, Hn. simpl.
  rewrite lookup_alter_eq. destruct (st !! sessionID rs) as [sd|]; [|done]. simpl.
  destruct (now <? sess_expires sd); [|done]. injection Hs as <-.
  by destruct (Z.ltb_spec t (now + maxAge)); [|lia].
Qed.

(** C32: The middleware's exit, as [setupSession] configures it
    ([resave: false], [saveUninitialized: false], [maxAge] of 24 hours),
    touches no session but the request's own.  That one, if stored, is
    active no longer than [maxAge] after the request; a destroyed one is
    gone; a modified one is stored and active, for its user, until then; a
    new one the request did not modify is not stored and gets no cookie;
    and an unmodified one the request loaded is kept active, for the same
    user, for [maxAge] more. *)
Theorem session_end_lifetime rs now st t :
  (isNew rs = true -> st !! sessionID rs = None) ->
  (forall sid, sid <> sessionID rs -> (session_end rs now st).1 !! sid = st !! sid) /\
  (now + maxAge <= t -> forall u, sid_status (session_end rs now st).1 (sessionID rs) t <> Active u) /\
  (destroyed rs = true -> sid_status (session_end rs now st).1 (sessionID rs) t = Absent) /\
  (destroyed rs = false -> modified rs = true -> t < now + maxAge ->
     sid_status (session_end rs now st).1 (sessionID rs) t = Active (userId rs)) /\
  (destroyed rs = false -> modified rs = false -> isNew rs = true -> session_end rs now st = (st, None)) /\
  (destroyed rs = false -> modified rs = false -> isNew rs = false ->
     sid_status st (sessionID rs) now = Active (userId rs) -> t < now + maxAge ->
     sid_status (session_end rs now st).1 (sessionID rs) t = Active (userId rs)).
Proof.
  intros Hnew. split_and!.
  - intros sid. apply session_end_other.
  - intros Ht u. unfold sid_status.
    destruct ((session_end rs now st).1 !! sessionID rs) as [sd|] eqn:E; [|done].
    rewrite (session_end_own _ _ _ _ Hnew E). destruct (Z.ltb_spec t (now + maxAge)); [lia|done].
  - intros Hd. unfold sid_status, session_end. rewrite Hd. simpl. by rewrite lookup_delete_eq.
  - intros Hd Hm Ht. unfold sid_status, session_end. rewrite Hd, Hm. simpl.
    rewrite lookup_insert_eq. simpl. by destruct (Z.ltb_spec t (now + maxAge)); [|lia].
  - intros Hd Hm Hn. unfold session_end. by rewrite Hd, Hm, Hn.
  - intros Hd Hm Hn Hs Ht. by apply session_end_touch.
Qed.

(** C32 at a sign-in at time 0 (active at 1000, no longer at [maxAge]),
    at a visit that signs nobody in, and at a later request of the
    signed-in session at time 1000 (still active just before
    [1000 + maxAge]). *)
Lemma session_end_lifetime_witness :
  let rs := mkReqSess "s1" (Some 1) true true false in
  let st1 := (session_end rs 0 ∅).1 in
  let rs2 := mkReqSess "s1" (Some 1) false false false in
  (0 + maxAge <= maxAge -> forall u, sid_status st1 "s1" maxAge <> Active u) /\
  (false = false -> true = true -> 1000 < 0 + maxAge -> sid_status st1 "s1" 1000 = Active (Some 1)) /\
  (false = false -> false = false -> true = true ->
     session_end (mkReqSess "s2" None true false false) 0 ∅ = (∅, None)) /\
  (sid_status (session_end rs2 1000 st1).1 "s1" (1000 + maxAge - 1) = Active (Some 1)).
Proof.
  intros rs st1 rs2. split_and!.
  - exact (proj1 (proj2 (session_end_lifetime (mkReqSess "s1" (Some 1) true true false) 0 ∅ maxAge
             (fun _ => eq_refl)))).
  - exact (proj1 (proj2 (proj2 (proj2 (session_end_lifetime (mkReqSess "s1" (Some 1) true true false) 0 ∅ 1000
             (fun _ => eq_refl)))))).
  - exact (proj1 (proj2 (proj2 (proj2 (proj2 (session_end_lifetime (mkReqSess "s2" None true false false) 0 ∅ 0
             (fun _ => eq_refl))))))).
  - apply (proj2 (proj2 (proj2 (proj2 (proj2 (session_end_lifetime rs2 1000
             (session_end (mkReqSess "s1" (Some 1) true true false) 0 ∅).1 (1000 + maxAge - 1)
             (fun H => ltac:(discriminate H)))))))); [reflexivity..|vm_compute; reflexivity|vm_compute; reflexivity].
Defined.
