(* ===== verification/Auth.v ===== *)
(** * Auth: the routes of [setupAuthRoutes] (src/server/auth.ts)

    A handler receives the JSON body, the request environment (the clock
    and the salt bcrypt draws), the request's session and the storage
    state; it returns the session, the storage state and the response.
    Handlers are written against the [IStorage] interface, as the source
    calls the [storage] object through it.  [guarded] is an Express route
    with [isAuthenticated] in front of its handler. *)

From S2P Require Import Prelude Schema Storage Session.
Open Scope string_scope.
Open Scope Z_scope.

(** ** Responses

    [res.json(x)] answers 200 with the JSON of [x]; [res.json(undefined)]
    answers 200 with an empty body ([None]). *)
Record Response := mkResp {
  status : Z;
  body : option Json
}.

Definition json_ok (b : Json) : Response := mkResp 200 (Some b).

(** [res.ok], which [apiRequest] tests before it throws: a status in
    [200, 300). *)
Definition res_ok (r : Response) : bool := (200 <=? status r) && (status r <? 300).
Definition message (code : Z) (m : string) : Response :=
  mkResp code (Some (JObj [("message", JStr m)])).
(** [res.status(400).json({ message: "Invalid data", errors: error.errors })]. *)
Definition invalid_data (iss : list ZodIssue) : Response :=
  mkResp 400 (Some (JObj [("message", JStr "Invalid data");
                          ("errors", JArr (map issue_json iss))])).

(** What a request draws from its surroundings: [new Date()] and the salt
    of [bcrypt.hash]. *)
Record Env := mkEnv {
  now : Z;
  salt : string
}.

(** [const { passwordHash, ...userWithoutPassword } = user; res.json(...)]. *)
Definition public_user (u : Users.t) : Json := omit_key "passwordHash" (Users.to_json u).

Section Handlers.
Context `{Bcrypt} `{EmailCheck} {S : Type} `{IStorage S}.

Definition Handler := Json -> Env -> ReqSession -> S -> ReqSession * S * Response.

(** [app.METHOD(path, isAuthenticated, handler)]. *)
Definition guarded (h : Handler) : Handler :=
  fun b env rs st =>
    if isAuthenticated rs then h b env rs st else (rs, st, message 401 "Unauthorized").

(** [POST /api/auth/signup]. *)
Definition signup : Handler :=
  fun b env rs st =>
    match signUpSchema b with
    | Err iss => (rs, st, invalid_data iss)
    | Ok validatedData =>
        match getUserByUsername (su_username validatedData) st with
        | Some _ => (rs, st, message 400 "Username already exists")
        | None =>
            match createUser validatedData (salt env) (now env) st with
            | (st', Err _) => (rs, st', message 500 "Failed to create account")
            | (st', Ok user) => (set_userId rs (Users.id user), st', json_ok (public_user user))
            end
        end
    end.

(** [POST /api/auth/signin]. *)
Definition signin : Handler :=
  fun b env rs st =>
    match signInSchema b with
    | Err iss => (rs, st, invalid_data iss)
    | Ok validatedData =>
        match getUserByUsername (si_username validatedData) st with
        | None => (rs, st, message 401 "Invalid username or password")
        | Some user =>
            if bcrypt_compare (si_password validatedData) (Users.passwordHash user)
            then (set_userId rs (Users.id user), st, json_ok (public_user user))
            else (rs, st, message 401 "Invalid username or password")
        end
    end.

(** [GET /api/auth/user], behind the guard. *)
Definition getUser : Handler :=
  guarded (fun b env rs st =>
    match getUserById (session_user rs) st with
    | None => (rs, st, message 404 "User not found")
    | Some user => (rs, st, json_ok (public_user user))
    end).

(** [POST /api/auth/signout]: not guarded. *)
Definition signout : Handler :=
  fun b env rs st =>
    match session_destroy rs with
    | (rs', Some _) => (rs', st, message 500 "Failed to sign out")
    | (rs', None) => (rs', st, message 200 "Signed out successfully")
    end.

End Handlers.

(** ** The public user object *)

Lemma public_user_no_hash u :
  match public_user u with JObj fs => obj_get "passwordHash" fs | _ => None end = None.
Proof. reflexivity. Qed.

Section AuthTheorems.
Context `{Bcrypt} `{EmailCheck} {S : Type} `{IStorage S}.

(** C10: An unknown username and a wrong password get the same answer, and
    neither touches the session or the storage. *)
Theorem signin_failure_uniform b env rs (st : S) d :
  signInSchema b = Ok d ->
  (getUserByUsername (si_username d) st = None \/
   exists u, getUserByUsername (si_username d) st = Some u /\
             bcrypt_compare (si_password d) (Users.passwordHash u) = false) ->
  signin b env rs st = (rs, st, message 401 "Invalid username or password").
Proof.
  intros Hv Hcase. unfold signin. rewrite Hv.
  destruct Hcase as [-> | (u & -> & Hc)]; [done|]. by rewrite Hc.
Qed.

(** C23: Sign-up with a username that exists answers 400 and changes nothing. *)
Theorem signup_taken_username b env rs (st : S) d u :
  signUpSchema b = Ok d -> getUserByUsername (su_username d) st = Some u ->
  signup b env rs st = (rs, st, message 400 "Username already exists").
Proof. intros Hv Hu. unfold signup. by rewrite Hv, Hu. Qed.

(** Sign-out always succeeds and marks the session destroyed. *)
Theorem signout_always_ok b env rs (st : S) :
  let '(rs', st', resp) := signout b env rs st in
  destroyed rs' = true /\ st' = st /\ resp = message 200 "Signed out successfully".
Proof. done. Qed.

End AuthTheorems.

(** ** Sign-up and sign-in over [DatabaseStorage] *)

Section OverDatabase.
Context `{BcryptLaws} `{EmailCheck}.

(** C18: Sign-up with a fresh username whose e-mail is taken reaches the
    insert, which fails on [users_email_unique]; the handler's catch-all
    answers 500, not a conflict, and no user is signed in. *)
Theorem signup_taken_email b env rs db d :
  db_wf db -> users_id_seq db < serial_max ->
  signUpSchema b = Ok d ->
  ~ In (su_username d) (map Users.username (users db)) ->
  In (su_email d) (map Users.email (users db)) ->
  let '(rs', db', resp) := signup b env rs db in
  resp = message 500 "Failed to create account" /\ rs' = rs /\ users db' = users db.
Proof.
  intros Hwf Hlt Hv Hu He. unfold signup. rewrite Hv. simpl.
  pose proof (createUser_email_taken d (salt env) (now env) db Hwf Hlt Hu He) as Hmail.
  assert (DatabaseStorage.getUserByUsername (su_username d) db = None) as ->.
  { unfold DatabaseStorage.getUserByUsername. rewrite filter_none; [done|].
    intros x Hx Heq. apply Hu. rewrite <- Heq. apply in_map. by apply list_elem_of_In. }
  rewrite createUser_fresh_branch in Hmail |- * by done. cbn zeta in Hmail |- *.
  destruct (existsb _ _); [done|]. destruct (existsb _ _); done.
Qed.

(** C9: A user whose stored hash is bcrypt's hash of [pw] signs in with
    [pw], and with no other password. *)
Theorem signin_checks_password b env rs db u name pw salt0 pw' :
  DatabaseStorage.getUserByUsername name db = Some u ->
  Users.passwordHash u = bcrypt_hash pw salt0 ->
  signInSchema b = Ok (mkSignIn name pw') ->
  signin b env rs db =
    if bool_decide (pw' = pw)
    then (set_userId rs (Users.id u), db, json_ok (public_user u))
    else (rs, db, message 401 "Invalid username or password").
Proof.
  intros Hu Hh Hv. unfold signin. rewrite Hv. simpl. rewrite Hu, Hh.
  case_bool_decide as Hpw.
  - subst. by rewrite bcrypt_compare_hash.
  - destruct (bcrypt_compare pw' _) eqn:Hc; [|done].
    exfalso. apply Hpw. by eapply bcrypt_compare_sound.
Qed.

End OverDatabase.

(** ** Concrete runs

    The handlers over the one-user database of Storage.v, with the plain
    bcrypt and the ['@'] e-mail check. *)

#[local] Existing Instance plain_bcrypt.
#[local] Existing Instance plain_bcrypt_laws.
#[local] Existing Instance has_at_sign.

Definition demo_signup_body (u e : string) : Json :=
  JObj [("username", JStr u); ("email", JStr e); ("password", JStr "secret1");
        ("firstName", JStr "Al"); ("lastName", JStr "Ice")].

Definition demo_signin_body (u p : string) : Json :=
  JObj [("username", JStr u); ("password", JStr p)].

Definition demo_env : Env := mkEnv 10 "salt".

Definition demo_rs : ReqSession := new_session "sid1".

(** C10 at a wrong password for [alice]. *)
Lemma signin_failure_uniform_witness :
  signin (S := DB) (demo_signin_body "alice" "wrong") demo_env demo_rs demo_db =
    (demo_rs, demo_db, message 401 "Invalid username or password").
Proof.
  apply (signin_failure_uniform _ _ _ _ (mkSignIn "alice" "wrong")); [reflexivity|].
  right. exists demo_user. split; reflexivity.
Defined.

(** C23 at the taken username [alice]. *)
Lemma signup_taken_username_witness :
  signup (S := DB) (demo_signup_body "alice" "al@example.com") demo_env demo_rs demo_db =
    (demo_rs, demo_db, message 400 "Username already exists").
Proof.
  apply (signup_taken_username _ _ _ _ (mkSignUp "alice" "al@example.com" "secret1" "Al" "Ice") demo_user);
    reflexivity.
Defined.

(** C18 at a new username with [alice]'s e-mail. *)
Lemma signup_taken_email_witness :
  let '(rs', db', resp) := signup (S := DB) (demo_signup_body "carol" "alice@example.com") demo_env demo_rs demo_db in
  resp = message 500 "Failed to create account" /\ rs' = demo_rs /\ users db' = users demo_db.
Proof.
  apply (signup_taken_email _ _ _ _ (mkSignUp "carol" "alice@example.com" "secret1" "Al" "Ice"));
    [exact demo_db_wf|vm_compute; reflexivity|reflexivity| |simpl; by left].
  simpl. intros [Hc|[]]. discriminate.
Defined.

(** C9 at [alice]'s right password: the session is signed in as user 1. *)
Lemma signin_checks_password_witness :
  signin (S := DB) (demo_signin_body "alice" "secret") demo_env demo_rs demo_db =
    (set_userId demo_rs 1, demo_db, json_ok (public_user demo_user)).
Proof.
  rewrite (signin_checks_password _ _ _ _ demo_user "alice" "secret" "salt" "secret");
    reflexivity.
Defined.
