(* ===== verification/Routes.v ===== *)
(** * Routes: the handlers of [registerRoutes] (src/server/routes.ts)

    Every route here is guarded by [isAuthenticated] and reads the caller
    from [req.session.userId]; the two POST routes validate
    [{...req.body, userId}], so the session's id overrides any [userId]
    the client sends.  Reads never fail in the model (the database is
    always reachable), so the 500 branches of their [catch] are not
    represented; the writes keep theirs, reached by a failed insert.
    The file also holds Express's routing of a method and a URL over the
    registrations of auth.ts and routes.ts ([route_of]). *)

From S2P Require Import Prelude Schema Storage Session Auth.
From Stdlib Require Import Ascii.
Open Scope string_scope.
Open Scope Z_scope.

Section RouteHandlers.
Context `{Bcrypt} {S : Type} `{IStorage S}.

(** [PATCH /api/user/profile]: [res.json(updatedUser)] sends the whole
    row. *)
Definition patchProfile : Handler :=
  guarded (fun b env rs st =>
    let uid := session_user rs in
    match updateUserProfileSchema b with
    | Err iss => (rs, st, invalid_data iss)
    | Ok validatedData =>
        let '(st', updatedUser) := updateUserProfile uid validatedData (now env) st in
        (rs, st', mkResp 200 (option_map Users.to_json updatedUser))
    end).

(** [GET /api/saved-options]. *)
Definition getSavedOptionsRoute : Handler :=
  guarded (fun b env rs st =>
    (rs, st, json_ok (JArr (map SavedOptions.to_json (getSavedOptions (session_user rs) st))))).

(** [POST /api/saved-options]. *)
Definition postSavedOption : Handler :=
  guarded (fun b env rs st =>
    let uid := session_user rs in
    match insertSavedOptionSchema (spread_with b "userId" (JNum uid)) with
    | Err iss => (rs, st, invalid_data iss)
    | Ok validatedData =>
        match saveOption validatedData (now env) st with
        | (st', Err _) => (rs, st', message 500 "Failed to save option")
        | (st', Ok savedOption) => (rs, st', json_ok (SavedOptions.to_json savedOption))
        end
    end).

(** [DELETE /api/saved-options/:optionId]. *)
Definition deleteSavedOption (optionId : string) : Handler :=
  guarded (fun b env rs st =>
    (rs, removeSavedOption (session_user rs) optionId st,
     json_ok (JObj [("success", JBool true)]))).

(** [GET /api/saved-options/:optionId/check]. *)
Definition checkSavedOption (optionId : string) : Handler :=
  guarded (fun b env rs st =>
    (rs, st, json_ok (JObj [("isSaved", JBool (isSavedOption (session_user rs) optionId st))]))).

(** [GET /api/search-history]. *)
Definition getSearchHistoryRoute : Handler :=
  guarded (fun b env rs st =>
    (rs, st, json_ok (JArr (map SearchHistory.to_json (getSearchHistory (session_user rs) st))))).

(** [POST /api/search-history]. *)
Definition postSearchHistory : Handler :=
  guarded (fun b env rs st =>
    let uid := session_user rs in
    match insertSearchHistorySchema (spread_with b "userId" (JNum uid)) with
    | Err iss => (rs, st, invalid_data iss)
    | Ok validatedData =>
        match saveSearchHistory validatedData (now env) st with
        | (st', Err _) => (rs, st', message 500 "Failed to save search history")
        | (st', Ok history) => (rs, st', json_ok (SearchHistory.to_json history))
        end
    end).

End RouteHandlers.

(** ** The routes of the application *)

Inductive Route :=
| SignUp
| SignIn
| GetUser
| SignOut
| PatchProfile
| GetSavedOptions
| PostSavedOption
| DeleteSavedOption (optionId : string)
| CheckSavedOption (optionId : string)
| GetSearchHistory
| PostSearchHistory.

(** The routes mounted with [isAuthenticated]. *)
Definition route_guarded (r : Route) : bool :=
  match r with SignUp | SignIn | SignOut => false | _ => true end.

Definition dispatch `{Bcrypt} `{EmailCheck} {S : Type} `{IStorage S} (r : Route) : Handler :=
  match r with
  | SignUp => signup
  | SignIn => signin
  | GetUser => getUser
  | SignOut => signout
  | PatchProfile => patchProfile
  | GetSavedOptions => getSavedOptionsRoute
  | PostSavedOption => postSavedOption
  | DeleteSavedOption o => deleteSavedOption o
  | CheckSavedOption o => checkSavedOption o
  | GetSearchHistory => getSearchHistoryRoute
  | PostSearchHistory => postSearchHistory
  end.

(** ** The route table

    The method and path each [app.get/post/patch/delete] registers.
    Express matches the path of the URL: the part before any ['?'] (the
    browser never sends a ['#'] fragment).  A path is its list of
    segments, split on ['/'] as it was sent; a [:param] segment matches any
    non-empty segment, and the handler receives it percent-decoded
    ([decodeURIComponent]); an escape that does not decode fails the
    request with 400.  Express's default matching also ignores a trailing
    slash, which [split_path] drops. *)

Inductive Method := GET | POST | PATCH | DELETE.

#[export] Instance Method_eq_dec : EqDecision Method.
Proof. solve_decision. Defined.

(** The path of a URL: up to the first ['?'] or ['#']. *)
Fixpoint url_path (u : string) : string :=
  match u with
  | EmptyString => EmptyString
  | String c u' =>
      if Ascii.eqb c "?"%char || Ascii.eqb c "#"%char then EmptyString else String c (url_path u')
  end.

(** The segments of ["/a/b/"]: [["a"; "b"]]. *)
Fixpoint split_segs (s : string) (cur : string) : list string :=
  match s with
  | EmptyString => [cur]
  | String c s' =>
      if Ascii.eqb c "/"%char then cur :: split_segs s' "" else split_segs s' (cur ++ String c "")
  end.

Definition split_path (u : string) : list string :=
  let p := url_path u in
  let segs := match p with String "/"%char p' => split_segs p' "" | _ => split_segs p "" end in
  match rev segs with "" :: rest => rev rest | _ => segs end.

(** A hexadecimal digit. *)
Definition hex_val (c : Ascii.ascii) : option nat :=
  let n := Ascii.nat_of_ascii c in
  if (48 <=? n)%nat && (n <=? 57)%nat then Some (n - 48)%nat
  else if (65 <=? n)%nat && (n <=? 70)%nat then Some (n - 55)%nat
  else if (97 <=? n)%nat && (n <=? 102)%nat then Some (n - 87)%nat
  else None.

(** [decodeURIComponent] on the bytes of a segment: [%XX] is the byte
    [XX]; a ['%'] without two hex digits fails. *)
Fixpoint percent_decode (s : string) : option string :=
  match s with
  | EmptyString => Some EmptyString
  | String c s1 =>
      if Ascii.eqb c "%"%char then
        match s1 with
        | String h1 (String h2 s2) =>
            match hex_val h1, hex_val h2 with
            | Some a, Some b => String (Ascii.ascii_of_nat (16 * a + b)) <$> percent_decode s2
            | _, _ => None
            end
        | _ => None
        end
      else String c <$> percent_decode s1
  end.

(** What Express does with a request: run a route, find none (the final
    404), or fail decoding a parameter (400). *)
Inductive Routing := Routed (r : Route) | NotFound | BadParam.

(** The registrations of [setupAuthRoutes] (auth.ts). *)
Definition auth_route_of (m : Method) (segs : list string) : option Route :=
  match m, segs with
  | POST, ["api"; "auth"; "signup"] => Some SignUp
  | POST, ["api"; "auth"; "signin"] => Some SignIn
  | GET, ["api"; "auth"; "user"] => Some GetUser
  | POST, ["api"; "auth"; "signout"] => Some SignOut
  | _, _ => None
  end.

(** A route with a [:optionId] parameter. *)
Definition with_param (raw : string) (r : string -> Route) : Routing :=
  if String.eqb raw "" then NotFound
  else match percent_decode raw with Some v => Routed (r v) | None => BadParam end.

(** The registrations of [registerRoutes] (routes.ts). *)
Definition app_route_of (m : Method) (segs : list string) : Routing :=
  match m, segs with
  | PATCH, ["api"; "user"; "profile"] => Routed PatchProfile
  | GET, ["api"; "saved-options"] => Routed GetSavedOptions
  | POST, ["api"; "saved-options"] => Routed PostSavedOption
  | DELETE, ["api"; "saved-options"; oid] => with_param oid DeleteSavedOption
  | GET, ["api"; "saved-options"; oid; "check"] => with_param oid CheckSavedOption
  | GET, ["api"; "search-history"] => Routed GetSearchHistory
  | POST, ["api"; "search-history"] => Routed PostSearchHistory
  | _, _ => NotFound
  end.

(** [setupAuthRoutes] is registered first, then the routes of
    [registerRoutes]. *)
Definition route_of (m : Method) (segs : list string) : Routing :=
  match auth_route_of m segs with Some r => Routed r | None => app_route_of m segs end.

(** ** Theorems over any storage *)

Section RouteTheorems.
Context `{Bcrypt} `{EmailCheck} {S : Type} `{IStorage S}.

(** C2: Every guarded route answers 401 to a request whose session carries no
    user, without calling its handler: no storage and no session change. *)
Theorem guarded_routes_reject r b env rs (st : S) :
  route_guarded r = true -> isAuthenticated rs = false ->
  dispatch r b env rs st = (rs, st, message 401 "Unauthorized").
Proof.
  intros Hg Ha. destruct r; try discriminate; simpl;
    unfold getUser, patchProfile, getSavedOptionsRoute, postSavedOption, deleteSavedOption,
      checkSavedOption, getSearchHistoryRoute, postSearchHistory, guarded;
    by rewrite Ha.
Qed.

(** A profile update with an empty first name answers 400 and leaves the
    storage as it was. *)
Theorem patchProfile_empty_firstName fs env rs (st : S) :
  isAuthenticated rs = true -> obj_get "firstName" fs = Some (JStr "") ->
  exists iss, patchProfile (JObj fs) env rs st = (rs, st, invalid_data iss).
Proof.
  intros Ha Hf. destruct (updateUserProfileSchema_empty_firstName fs Hf) as (e & He & _).
  exists e. unfold patchProfile, guarded. rewrite Ha. cbv beta iota zeta. by rewrite He.
Qed.

(** A search submitted with a check-in date written as a string (what a
    form sends) is refused with 400 and nothing is stored. *)
Theorem postSearchHistory_rejects_string_dates fs s env rs (st : S) :
  isAuthenticated rs = true -> obj_get "checkin" fs = Some (JStr s) ->
  exists iss, postSearchHistory (JObj fs) env rs st = (rs, st, invalid_data iss).
Proof.
  intros Ha Hc. unfold postSearchHistory, guarded. rewrite Ha. cbv beta iota zeta.
  assert (obj_get "checkin" (obj_set "userId" (JNum (session_user rs)) fs) = Some (JStr s)) as Hc'.
  { by rewrite obj_get_set_ne. }
  destruct (insertSearchHistorySchema_checkin_rejected _ _ Hc' ltac:(done)) as (e & He & _).
  exists e. rewrite spread_with_obj. by rewrite He.
Qed.

End RouteTheorems.

(** ** Theorems over [DatabaseStorage] *)

Section RoutesOverDatabase.
Context `{Bcrypt}.

(** C15: [PATCH /api/user/profile] sends the updated row as it is, password
    hash included. *)
Theorem patchProfile_exposes_passwordHash b env rs db v u :
  isAuthenticated rs = true -> updateUserProfileSchema b = Ok v ->
  DatabaseStorage.getUserById (session_user rs) db = Some u ->
  exists fs, (patchProfile b env rs db).2 = mkResp 200 (Some (JObj fs)) /\
             obj_get "passwordHash" fs = Some (JStr (Users.passwordHash u)).
Proof.
  intros Ha Hv Hu. unfold patchProfile, guarded. rewrite Ha. cbv beta iota zeta. rewrite Hv.
  pose proof (updateUserProfile_returns _ v (now env) _ _ Hu) as Hr.
  cbn [updateUserProfile storage].
  destruct (DatabaseStorage.updateUserProfile _ _ _ _) as [db' o]. simpl in Hr. subst o.
  by eexists.
Qed.

(** C3: A row [POST /api/saved-options] adds belongs to the session's user,
    whatever [userId] the body names. *)
Theorem postSavedOption_owner b env rs db rs' db' resp :
  postSavedOption b env rs db = (rs', db', resp) ->
  rs' = rs /\
  (forall r, r ∈ savedOptions db' -> r ∉ savedOptions db ->
             SavedOptions.userId r = session_user rs).
Proof.
  unfold postSavedOption, guarded.
  destruct (isAuthenticated rs); [|intros [= <- <- _]; split; [done|]; intros; contradiction].
  cbv beta iota zeta. cbn [saveOption storage].
  destruct (insertSavedOptionSchema _) as [v|iss] eqn:Hv;
    [|intros [= <- <- _]; split; [done|]; intros; contradiction].
  destruct (DatabaseStorage.saveOption v (now env) db) as [db1 [r1|e]] eqn:Hs;
    intros [= <- <- _]; split; try done.
  - apply saveOption_Ok_inv in Hs as (-> & -> & _). simpl.
    intros r Hr Hn. apply elem_of_app in Hr as [Hr|Hr]; [contradiction|].
    apply list_elem_of_singleton in Hr. subst. simpl.
    by apply insertSavedOptionSchema_userId in Hv.
  - apply saveOption_Err_inv in Hs. rewrite Hs. intros; contradiction.
Qed.

End RoutesOverDatabase.

(** ** Concrete runs *)

#[local] Existing Instance plain_bcrypt.
#[local] Existing Instance has_at_sign.

(** A session signed in as user 1 ([alice] of the one-user database). *)
Definition demo_auth_rs : ReqSession := mkReqSess "sid1" (Some 1) false false false.

(** C2 at a request without a signed-in session. *)
Lemma guarded_routes_reject_witness :
  dispatch (S := DB) GetSavedOptions JNull demo_env demo_rs demo_db =
    (demo_rs, demo_db, message 401 "Unauthorized").
Proof. apply guarded_routes_reject; reflexivity. Defined.

(** At an empty first name. *)
Lemma patchProfile_empty_firstName_witness :
  exists iss, patchProfile (S := DB) (JObj [("firstName", JStr ""); ("lastName", JStr "Doe")])
    demo_env demo_auth_rs demo_db = (demo_auth_rs, demo_db, invalid_data iss).
Proof. apply patchProfile_empty_firstName; reflexivity. Defined.

(** C15 at [alice]'s profile update: the response carries ["secret"]. *)
Lemma patchProfile_exposes_passwordHash_witness :
  exists fs, (patchProfile (JObj [("firstName", JStr "Al"); ("lastName", JStr "Ice")])
                demo_env demo_auth_rs demo_db).2 = mkResp 200 (Some (JObj fs)) /\
             obj_get "passwordHash" fs = Some (JStr "secret").
Proof.
  apply (patchProfile_exposes_passwordHash _ _ _ _ (mkProfile "Al" "Ice" None None None None) demo_user);
    reflexivity.
Defined.

(** C3 at a body that names user 2 while the session is user 1's. *)
Lemma postSavedOption_owner_witness :
  let '(rs', db', resp) :=
    postSavedOption (JObj [("userId", JNum 2); ("optionId", JStr "flight1");
                           ("optionType", JStr "flight"); ("optionData", JObj [])])
      demo_env demo_auth_rs demo_db in
  rs' = demo_auth_rs /\
  (forall r, r ∈ savedOptions db' -> r ∉ savedOptions demo_db -> SavedOptions.userId r = 1).
Proof.
  destruct (postSavedOption _ _ _ _) as [[rs' db'] resp] eqn:E.
  exact (postSavedOption_owner _ _ _ _ _ _ _ E).
Defined.
