(* ===== verification/SignIn.v ===== *)
(** * SignIn: the sign-in page against the sign-in route

    Models src/client/src/pages/signin.tsx: the form's default values,
    [form.handleSubmit(onSubmit)] with [zodResolver(signInSchema)] (a
    refused form shows the field messages and sends nothing; an accepted
    one calls [onSubmit] with zod's output), and [onSubmit]: the spinner
    on, [apiRequest("POST", "/api/auth/signin", data)], then either the
    "Welcome back!" toast and [setLocation("/")] or, when [apiRequest]
    throws on an answer that is not 2xx, the "Sign in failed" toast; the
    spinner off in [finally].  The failure toast's description is
    [error.message], which [apiRequest] (src/client/src/lib/queryClient.ts,
    outside src/) builds from the status and the body of the answer; the
    toast keeps both.  [res_ok], the test [apiRequest] makes, is in Auth.v. *)

From S2P Require Import Prelude Schema Storage Session Auth Routes.
Open Scope string_scope.
Open Scope Z_scope.

(** ** The page *)

Record SignInForm := mkSignInForm { sf_username : string; sf_password : string }.

Definition signin_defaults : SignInForm := mkSignInForm "" "".

Definition signin_form_json (f : SignInForm) : Json :=
  JObj [("username", JStr (sf_username f)); ("password", JStr (sf_password f))].

(** zod's output object, the schema's keys in shape order. *)
Definition signin_data_json (d : SignInData) : Json :=
  JObj [("username", JStr (si_username d)); ("password", JStr (si_password d))].

(** [form.handleSubmit(onSubmit)]: the body [onSubmit] posts, or the
    resolver's issues. *)
Definition signin_handleSubmit (f : SignInForm) : Parsed Json :=
  match signInSchema (signin_form_json f) with
  | Ok d => Ok (signin_data_json d)
  | Err iss => Err iss
  end.

Inductive SignInToast :=
| ToastWelcome
| ToastSignInFailed (code : Z) (answer : option Json).

Record SignInPage := mkSignInPage {
  sp_isLoading : bool;
  sp_location : string;
  sp_toasts : list SignInToast
}.

Definition signin_page_init (loc : string) : SignInPage := mkSignInPage false loc [].

(** [setIsLoading(true)] before the request. *)
Definition signin_begin (p : SignInPage) : SignInPage :=
  mkSignInPage true (sp_location p) (sp_toasts p).

(** The rest of [onSubmit] once the answer is in. *)
Definition signin_finish (p : SignInPage) (resp : Response) : SignInPage :=
  if res_ok resp then mkSignInPage false "/" (sp_toasts p ++ [ToastWelcome])
  else mkSignInPage false (sp_location p) (sp_toasts p ++ [ToastSignInFailed (status resp) (body resp)]).

(** The submit button's label; the inputs and the button are disabled
    while [isLoading]. *)
Definition signin_button_label (p : SignInPage) : string :=
  if sp_isLoading p then "Signing in..." else "Sign In".

Definition signin_inputs_disabled (p : SignInPage) : bool := sp_isLoading p.

(** The link under the form. *)
Definition signin_signup_href : string := "/signup".

(** ** The resolver *)

Lemma signInSchema_form f :
  sf_username f <> "" -> sf_password f <> "" ->
  signInSchema (signin_form_json f) = Ok (mkSignIn (sf_username f) (sf_password f)).
Proof. intros Hu Hp. unfold signInSchema, z_object. cbn -[min_check]. by rewrite !min_check_1. Qed.

Lemma signInSchema_form_empty f :
  sf_username f = "" \/ sf_password f = "" -> exists iss, signInSchema (signin_form_json f) = Err iss.
Proof.
  destruct f as [u pw]. unfold signInSchema, z_object. cbn -[min_check].
  intros [-> | ->]; rewrite min_check_1_empty; cbn -[min_check];
    [destruct (min_check _ _ _ pw)|destruct (min_check _ _ _ u)]; by eexists.
Qed.

(** The resolver refuses exactly the forms with an empty field, and
    passes the others on unchanged. *)
Lemma signin_handleSubmit_cases f :
  ((exists iss, signin_handleSubmit f = Err iss) <-> sf_username f = "" \/ sf_password f = "") /\
  (forall req, signin_handleSubmit f = Ok req ->
     req = signin_form_json f /\ signInSchema req = Ok (mkSignIn (sf_username f) (sf_password f))).
Proof.
  unfold signin_handleSubmit.
  destruct (String.eq_dec (sf_username f) ""), (String.eq_dec (sf_password f) "") as [|Hp];
    try (destruct (signInSchema_form_empty f ltac:(tauto)) as [iss ->];
         split; [split; [tauto|by eexists]|discriminate]).
  rewrite signInSchema_form by done. split.
  - split; [by intros [? ?]|tauto].
  - intros req [= <-]. rewrite <- signInSchema_form by done. by destruct f.
Qed.

(** ** Submitting the page *)

Section Submit.
Context `{Bcrypt} `{EmailCheck}.

Definition invalid_credentials : Response := message 401 "Invalid username or password".

(** C35: Submitting the sign-in page: the resolver refuses a form, and so
    sends nothing, exactly when a field is empty; any other form reaches the sign-in route, which never answers
    it 400 and changes no table.  Either the stored hash of the user of
    that name accepts the password, the session is signed in as that user
    and the page greets and goes to ["/"], or the session is untouched and
    the page stays where it is with the "Sign in failed" toast for the 401
    answer; the spinner is off in both cases. *)
Theorem signin_page_outcome f env rs db p :
  ((exists iss, signin_handleSubmit f = Err iss) <-> sf_username f = "" \/ sf_password f = "") /\
  (forall req, signin_handleSubmit f = Ok req ->
      let '(rs', db', resp) := dispatch SignIn req env rs db in
      db' = db /\
      ((exists u, DatabaseStorage.getUserByUsername (sf_username f) db = Some u /\
          bcrypt_compare (sf_password f) (Users.passwordHash u) = true /\
          rs' = set_userId rs (Users.id u) /\
          signin_finish (signin_begin p) resp = mkSignInPage false "/" (sp_toasts p ++ [ToastWelcome])) \/
       ((forall u, DatabaseStorage.getUserByUsername (sf_username f) db = Some u ->
           bcrypt_compare (sf_password f) (Users.passwordHash u) = false) /\
        rs' = rs /\ resp = invalid_credentials /\
        signin_finish (signin_begin p) resp =
          mkSignInPage false (sp_location p)
            (sp_toasts p ++ [ToastSignInFailed 401 (body invalid_credentials)])))).
Proof.
  destruct (signin_handleSubmit_cases f) as [Herr Hok]. split; [exact Herr|].
  intros req E. apply Hok in E as [-> Hs]. cbn [dispatch]. unfold signin. rewrite Hs.
  cbn [getUserByUsername storage si_username si_password].
  destruct (DatabaseStorage.getUserByUsername _ db) as [u|] eqn:Hu;
    [destruct (bcrypt_compare _ _) eqn:Hc|]; (split; [done|]).
  - left. by exists u.
  - right. split_and!; [by intros ? [= <-]|done..].
  - right. split_and!; [done..].
Qed.
End Submit.
