(* ===== verification/SavedSpec.v ===== *)
(** * SavedSpec: the saved-options store against its abstract specification

    The specification's Ownership-Scoped Resource Store, for saved
    options, is a set of (owner, optionId) pairs: [save] adds a pair,
    [remove] deletes it, [isSaved] tests it, [list] gives the ids of one
    owner.  [alpha] abstracts a database to that set.  The theorems say
    that every method of [DatabaseStorage] implements its abstract
    operation; that every sequence of storage calls ([DbCall], run by
    [exec_call]) is simulated, call for call and outcome for outcome, by
    the abstract store's labelled steps ([abs_call_step]), whose run on
    those labels is unique; and that every route changes the abstract
    store only on behalf of the session's user. *)

From S2P Require Import Prelude Schema Storage Session Auth Routes.
Open Scope Z_scope.

(** ** The abstract store *)

Abbreviation AbsSaved := (gset (Z * string)).

Definition abs_save (u : Z) (o : string) (s : AbsSaved) : AbsSaved := {[(u, o)]} ∪ s.
Definition abs_remove (u : Z) (o : string) (s : AbsSaved) : AbsSaved := s ∖ {[(u, o)]}.
Definition abs_isSaved (u : Z) (o : string) (s : AbsSaved) : bool := bool_decide ((u, o) ∈ s).
Definition abs_list (u : Z) (s : AbsSaved) : gset string :=
  set_map snd (filter (fun p : Z * string => p.1 = u) s).

(** ** The abstraction of a database *)

Definition saved_key (r : SavedOptions.t) : Z * string :=
  (SavedOptions.userId r, SavedOptions.optionId r).

Definition alpha (db : DB) : AbsSaved := list_to_set (map saved_key (savedOptions db)).

(** ** Each method implements its abstract operation *)

Lemma alpha_snoc db r s :
  alpha (set_saved db (savedOptions db ++ [r]) s) = abs_save (SavedOptions.userId r) (SavedOptions.optionId r) (alpha db).
Proof. unfold alpha, abs_save. simpl. rewrite map_app, list_to_set_app_L. simpl. set_solver. Qed.

Lemma alpha_saveOption d now db :
  alpha (DatabaseStorage.saveOption d now db).1 =
  match (DatabaseStorage.saveOption d now db).2 with
  | Ok _ => abs_save (ins_userId d) (ins_optionId d) (alpha db)
  | Err _ => alpha db
  end.
Proof.
  destruct (DatabaseStorage.saveOption d now db) as [db' [r|e]] eqn:E; simpl.
  - apply saveOption_Ok_inv in E as (-> & -> & _). apply alpha_snoc.
  - apply saveOption_Err_inv in E. unfold alpha. by rewrite E.
Qed.

Lemma alpha_removeSavedOption u o db :
  alpha (DatabaseStorage.removeSavedOption u o db) = abs_remove u o (alpha db).
Proof.
  unfold alpha, abs_remove, DatabaseStorage.removeSavedOption. simpl.
  apply set_eq. intros p.
  rewrite elem_of_difference, !elem_of_list_to_set, !list_elem_of_fmap, elem_of_singleton.
  split.
  - intros (r & -> & Hr). apply list_elem_of_filter in Hr as [Hn Hr]. split; [eauto|].
    intros Heq. apply Hn. unfold saved_key in Heq. injection Heq as <- <-. done.
  - intros [(r & -> & Hr) Hne]. exists r. split; [done|].
    apply list_elem_of_filter. split; [|done]. intros [<- <-]. by apply Hne.
Qed.

Lemma isSavedOption_alpha u o db :
  DatabaseStorage.isSavedOption u o db = abs_isSaved u o (alpha db).
Proof.
  unfold DatabaseStorage.isSavedOption, abs_isSaved, alpha. apply bool_decide_ext.
  rewrite Exists_exists, elem_of_list_to_set, list_elem_of_fmap. split.
  - intros (r & Hr & <- & <-). by exists r.
  - intros (r & Heq & Hr). exists r. split; [done|].
    unfold saved_key in Heq. injection Heq as H1 H2. by split.
Qed.

Lemma getSavedOptions_alpha u db :
  list_to_set (map SavedOptions.optionId (DatabaseStorage.getSavedOptions u db)) = abs_list u (alpha db).
Proof.
  unfold abs_list, alpha. apply set_eq. intros o.
  rewrite elem_of_list_to_set, list_elem_of_fmap, elem_of_map. split.
  - intros (r & -> & Hr). apply getSavedOptions_elem_of in Hr as [Hr Hu].
    exists (saved_key r). split; [done|]. apply elem_of_filter. split; [done|].
    apply elem_of_list_to_set, list_elem_of_fmap. by exists r.
  - intros (p & -> & Hp). apply elem_of_filter in Hp as [Hu Hp].
    apply elem_of_list_to_set, list_elem_of_fmap in Hp as (r & -> & Hr).
    exists r. split; [done|]. by apply getSavedOptions_elem_of.
Qed.

Lemma createUser_saved `{Bcrypt} d salt now db :
  savedOptions (DatabaseStorage.createUser d salt now db).1 = savedOptions db.
Proof. unfold DatabaseStorage.createUser. by repeat case_match. Qed.

Lemma saveSearchHistory_saved d now db :
  savedOptions (DatabaseStorage.saveSearchHistory d now db).1 = savedOptions db.
Proof. unfold DatabaseStorage.saveSearchHistory. by repeat case_match. Qed.

Lemma alpha_same db db' : savedOptions db' = savedOptions db -> alpha db' = alpha db.
Proof. unfold alpha. by intros ->. Qed.

#[export] Hint Resolve createUser_saved saveSearchHistory_saved : tc.

(** ** The refinement *)

(** C29: [DatabaseStorage] implements the abstract store: a successful
    [saveOption] adds the pair, a failed one changes nothing,
    [removeSavedOption] deletes the pair, [isSavedOption] tests it, and
    [getSavedOptions] lists exactly the owner's ids. *)
Theorem saved_store_refines d now u o db :
  alpha (DatabaseStorage.saveOption d now db).1 =
    match (DatabaseStorage.saveOption d now db).2 with
    | Ok _ => abs_save (ins_userId d) (ins_optionId d) (alpha db)
    | Err _ => alpha db
    end /\
  alpha (DatabaseStorage.removeSavedOption u o db) = abs_remove u o (alpha db) /\
  DatabaseStorage.isSavedOption u o db = abs_isSaved u o (alpha db) /\
  list_to_set (map SavedOptions.optionId (DatabaseStorage.getSavedOptions u db)) = abs_list u (alpha db).
Proof.
  split_and!; auto using alpha_saveOption, alpha_removeSavedOption, isSavedOption_alpha,
    getSavedOptions_alpha.
Qed.

(** ** Runs of calls, concrete and abstract *)

Section Simulation.
Context `{Bcrypt}.

(** A call of the [IStorage] methods that write. *)
Inductive DbCall :=
| CCreateUser (d : SignUpData) (salt : string) (now : Z)
| CUpdateUserProfile (uid : Z) (p : ProfileUpdate) (now : Z)
| CSaveOption (d : InsertSavedOption) (now : Z)
| CRemoveSavedOption (uid : Z) (oid : string)
| CSaveSearchHistory (d : InsertSearchHistory) (now : Z).

(** The method of [DatabaseStorage] a call runs, with whether it
    succeeded ([removeSavedOption] cannot fail). *)
Definition exec_call (c : DbCall) (db : DB) : DB * bool :=
  match c with
  | CCreateUser d salt now => let '(db', r) := DatabaseStorage.createUser d salt now db in (db', is_ok r)
  | CUpdateUserProfile uid p now =>
      let '(db', r) := DatabaseStorage.updateUserProfile uid p now db in (db', bool_decide (is_Some r))
  | CSaveOption d now => let '(db', r) := DatabaseStorage.saveOption d now db in (db', is_ok r)
  | CRemoveSavedOption uid oid => (DatabaseStorage.removeSavedOption uid oid db, true)
  | CSaveSearchHistory d now => let '(db', r) := DatabaseStorage.saveSearchHistory d now db in (db', is_ok r)
  end.

(** A sequence of calls, each on the database the previous one left,
    with the outcome of each. *)
Fixpoint exec_calls (cs : list DbCall) (db : DB) : DB * list bool :=
  match cs with
  | [] => (db, [])
  | c :: cs' =>
      let '(db1, ok) := exec_call c db in
      let '(db2, oks) := exec_calls cs' db1 in (db2, ok :: oks)
  end.

(** What the specification's store does on a call with a given outcome:
    a successful save adds its pair, a failed one nothing; a removal
    deletes its pair; the other calls do not touch saved options. *)
Inductive abs_call_step : DbCall -> bool -> AbsSaved -> AbsSaved -> Prop :=
| acs_save d now s : abs_call_step (CSaveOption d now) true s (abs_save (ins_userId d) (ins_optionId d) s)
| acs_save_failed d now s : abs_call_step (CSaveOption d now) false s s
| acs_remove u o s : abs_call_step (CRemoveSavedOption u o) true s (abs_remove u o s)
| acs_createUser d salt now ok s : abs_call_step (CCreateUser d salt now) ok s s
| acs_updateUserProfile uid p now ok s : abs_call_step (CUpdateUserProfile uid p now) ok s s
| acs_saveSearchHistory d now ok s : abs_call_step (CSaveSearchHistory d now) ok s s.

Inductive abs_run : list (DbCall * bool) -> AbsSaved -> AbsSaved -> Prop :=
| abs_run_nil s : abs_run [] s s
| abs_run_cons c ok l s s1 s2 :
    abs_call_step c ok s s1 -> abs_run l s1 s2 -> abs_run ((c, ok) :: l) s s2.

Lemma abs_call_step_det c ok s s1 s2 :
  abs_call_step c ok s s1 -> abs_call_step c ok s s2 -> s1 = s2.
Proof. destruct 1; by inversion 1. Qed.

Lemma abs_run_det l s s1 s2 : abs_run l s s1 -> abs_run l s s2 -> s1 = s2.
Proof.
  intros H1. revert s2. induction H1 as [|c ok l s s1 s2' Hs _ IH]; intros s2 H2; inversion H2 as [|? ? ? ? t1 ? Ht Hl]; subst; [done|].
  apply IH. by rewrite (abs_call_step_det c ok s s1 t1).
Qed.

Lemma exec_call_abs c db :
  abs_call_step c (exec_call c db).2 (alpha db) (alpha (exec_call c db).1).
Proof.
  destruct c as [d salt now|uid p now|d now|uid oid|d now]; cbn [exec_call fst snd].
  - pose proof (createUser_saved d salt now db) as E.
    destruct (DatabaseStorage.createUser _ _ _ _). simpl in *. rewrite (alpha_same _ _ E). constructor.
  - destruct (DatabaseStorage.updateUserProfile _ _ _ _) as [db' r] eqn:E. simpl.
    rewrite (alpha_same db db') by (by injection E as <- _). constructor.
  - pose proof (alpha_saveOption d now db) as A.
    destruct (DatabaseStorage.saveOption _ _ _) as [db' [r|e]]; simpl in *; rewrite A; constructor.
  - rewrite alpha_removeSavedOption. constructor.
  - pose proof (saveSearchHistory_saved d now db) as E.
    destruct (DatabaseStorage.saveSearchHistory _ _ _). simpl in *. rewrite (alpha_same _ _ E). constructor.
Qed.

(** Each call is a write of the database, and each write is a call. *)
Lemma exec_call_db_step c db : db_step db (exec_call c db).1.
Proof.
  destruct c as [d salt now|uid p now|d now|uid oid|d now]; cbn [exec_call].
  - pose proof (step_createUser d salt now db). by destruct (DatabaseStorage.createUser _ _ _ _).
  - pose proof (step_updateUserProfile uid p now db). by destruct (DatabaseStorage.updateUserProfile _ _ _ _).
  - pose proof (step_saveOption d now db). by destruct (DatabaseStorage.saveOption _ _ _).
  - constructor.
  - pose proof (step_saveSearchHistory d now db). by destruct (DatabaseStorage.saveSearchHistory _ _ _).
Qed.

Lemma db_step_exec_call db db' : db_step db db' -> exists c, db' = (exec_call c db).1.
Proof.
  destruct 1 as [d salt now db|uid p now db|d now db|uid oid db|d now db].
  - exists (CCreateUser d salt now). cbn [exec_call]. by destruct (DatabaseStorage.createUser d salt now db).
  - exists (CUpdateUserProfile uid p now). cbn [exec_call]. by destruct (DatabaseStorage.updateUserProfile uid p now db).
  - exists (CSaveOption d now). cbn [exec_call]. by destruct (DatabaseStorage.saveOption d now db).
  - by exists (CRemoveSavedOption uid oid).
  - exists (CSaveSearchHistory d now). cbn [exec_call]. by destruct (DatabaseStorage.saveSearchHistory d now db).
Qed.

Lemma exec_calls_abs_run cs db :
  abs_run (zip cs (exec_calls cs db).2) (alpha db) (alpha (exec_calls cs db).1).
Proof.
  revert db. induction cs as [|c cs IH]; intros db; [constructor|]. cbn [exec_calls].
  pose proof (exec_call_abs c db) as Hc. destruct (exec_call c db) as [db1 ok].
  specialize (IH db1). destruct (exec_calls cs db1) as [db2 oks]. by econstructor.
Qed.

(** C30: Every sequence of writes of the database, interleaved in any
    order, is simulated by the specification's store call for call: the
    saved pairs after the run are those the abstract store reaches by
    the same calls with the same outcomes (a successful save adds its
    pair, a removal deletes its pair, every other call and every failed
    save keeps them), and no other abstract run of those labels ends
    elsewhere. *)
Theorem db_calls_simulated cs db :
  abs_run (zip cs (exec_calls cs db).2) (alpha db) (alpha (exec_calls cs db).1) /\
  (forall s', abs_run (zip cs (exec_calls cs db).2) (alpha db) s' -> s' = alpha (exec_calls cs db).1).
Proof.
  split; [apply exec_calls_abs_run|]. intros s' Hs'.
  exact (abs_run_det _ _ _ _ Hs' (exec_calls_abs_run cs db)).
Qed.
End Simulation.

(** ** Every route acts for the session's user only *)

(** What a request by user [u] may do to the abstract store. *)
Definition saved_effect (u : Z) (s s' : AbsSaved) : Prop :=
  s' = s \/ exists o, s' = abs_save u o s \/ s' = abs_remove u o s.

Section RouteOwnership.
Context `{Bcrypt} `{EmailCheck}.

Lemma saved_effect_same u db db' :
  savedOptions db' = savedOptions db -> saved_effect u (alpha db) (alpha db').
Proof. intros E. left. by apply alpha_same. Qed.

Lemma createUser_saved_eq d salt now db db' res :
  DatabaseStorage.createUser d salt now db = (db', res) -> savedOptions db' = savedOptions db.
Proof. intros E. by rewrite <- (createUser_saved d salt now db), E. Qed.

Lemma updateUserProfile_saved_eq uid p now db db' res :
  DatabaseStorage.updateUserProfile uid p now db = (db', res) -> savedOptions db' = savedOptions db.
Proof. by intros [= <- _]. Qed.

Lemma saveSearchHistory_saved_eq d now db db' res :
  DatabaseStorage.saveSearchHistory d now db = (db', res) -> savedOptions db' = savedOptions db.
Proof. intros E. by rewrite <- (saveSearchHistory_saved d now db), E. Qed.

Lemma saveOption_saved_effect u v now db db' res :
  ins_userId v = u -> DatabaseStorage.saveOption v now db = (db', res) ->
  saved_effect u (alpha db) (alpha db').
Proof.
  intros <- E. pose proof (alpha_saveOption v now db) as A. rewrite E in A. simpl in A.
  rewrite A. destruct res; [right; exists (ins_optionId v); by left|by left].
Qed.

Lemma removeSavedOption_saved_effect u o db :
  saved_effect u (alpha db) (alpha (DatabaseStorage.removeSavedOption u o db)).
Proof. right. exists o. right. apply alpha_removeSavedOption. Qed.

(** C31: Whatever route a request takes, it changes the abstract store
    only by saving or removing one pair owned by the session's user: no
    request writes or deletes another identity's saved options. *)
Theorem routes_scope_saved_store r b env rs db rs' db' resp :
  dispatch r b env rs db = (rs', db', resp) ->
  saved_effect (session_user rs) (alpha db) (alpha db').
Proof.
  destruct r; cbn [dispatch];
    unfold signup, signin, getUser, signout, patchProfile, getSavedOptionsRoute, postSavedOption,
      deleteSavedOption, checkSavedOption, getSearchHistoryRoute, postSearchHistory, guarded;
    cbn [getUserByUsername getUserById createUser updateUserProfile getSavedOptions saveOption
      removeSavedOption isSavedOption getSearchHistory saveSearchHistory storage];
    repeat case_match; intros; simplify_eq.
  all: try by left.
  all: first
    [ apply saved_effect_same; by eauto using createUser_saved_eq, updateUserProfile_saved_eq,
        saveSearchHistory_saved_eq
    | apply removeSavedOption_saved_effect
    | eapply saveOption_saved_effect; [by eapply insertSavedOptionSchema_userId|eassumption] ].
Qed.
End RouteOwnership.

(** ** Concrete runs *)

#[local] Existing Instance plain_bcrypt.
#[local] Existing Instance has_at_sign.


(** C31 at [alice] saving [flight1] with a body that names user 2. *)
Lemma routes_scope_saved_store_witness :
  let '(rs', db', resp) :=
    dispatch PostSavedOption
      (JObj [("userId", JNum 2); ("optionId", JStr "flight1");
             ("optionType", JStr "flight"); ("optionData", JObj [])])
      demo_env demo_auth_rs demo_db in
  saved_effect 1 (alpha demo_db) (alpha db').
Proof.
  destruct (dispatch _ _ _ _ _) as [[rs' db'] resp] eqn:E.
  exact (routes_scope_saved_store _ _ _ _ _ _ _ _ E).
Defined.
