(* ===== verification/Server.v ===== *)
(** * Server: a request from cookie to response, and the reachable states

    One request runs the session middleware's entry, the route (guard and
    handler, [dispatch]), then the middleware's exit.  The server state is
    the database and the session store.  [server_step] is one request from
    any client; the request's fresh session id (drawn by the library's
    random generator) is assumed not to name a stored session.  The
    reachable states are those [server_step] reaches from the empty
    database and store; their invariant is proved by rule induction. *)

From S2P Require Import Prelude Schema Storage Session Auth Routes.
Open Scope string_scope.
Open Scope Z_scope.

Record Request := mkReq {
  cookie : option string;
  route : Route;
  reqBody : Json;
  env : Env;
  fresh_sid : string
}.

Record Server := mkServer {
  db : DB;
  store : Store
}.

Definition init_server : Server := mkServer empty_db ∅.

Section Server.
Context `{Bcrypt} `{EmailCheck}.

(** The response and the [Set-Cookie] session id of a request. *)
Definition handle (s : Server) (req : Request) : Server * Response * option string :=
  let '(st1, rs) := session_begin (cookie req) (fresh_sid req) (now (env req)) (store s) in
  let '(rs', db', resp) := dispatch (route req) (reqBody req) (env req) rs (db s) in
  let '(st2, setCookie) := session_end rs' (now (env req)) st1 in
  (mkServer db' st2, resp, setCookie).

(** A request by method and URL.  [setupSession] installs the session
    middleware with [app.use], for every path, before the routes; a path
    no route serves, or a parameter that does not decode, leaves the
    router without running a handler, and the middleware's exit still
    runs when the response ends.  The code of the answer then is the one
    the host application's final handler gives (not under src/): [404]
    for no route, [400] for a bad parameter in Express's own. *)
Definition middleware_only (s : Server) (ck : option string) (e : Env) (fresh : string) (code : Z)
    : Server * Response * option string :=
  let '(st1, rs) := session_begin ck fresh (now e) (store s) in
  let '(st2, setCookie) := session_end rs (now e) st1 in
  (mkServer (db s) st2, mkResp code None, setCookie).

Definition serve (s : Server) (m : Method) (url : string) (ck : option string) (b : Json) (e : Env)
    (fresh : string) : Server * Response * option string :=
  match route_of m (split_path url) with
  | Routed r => handle s (mkReq ck r b e fresh)
  | NotFound => middleware_only s ck e fresh 404
  | BadParam => middleware_only s ck e fresh 400
  end.

Inductive server_step : Server -> Server -> Prop :=
| step_request s req :
    fresh_sid req ∉ dom (store s) -> server_step s (handle s req).1.1.

Definition reachable (s : Server) : Prop := rtc server_step init_server s.

(** ** The invariant

    The tables are well formed and every stored session names a user of
    the database. *)
Definition session_names_user (d : DB) (sd : SessionData) : Prop :=
  exists n, sess_userId sd = Some n /\ user_exists d n = true.

Definition store_ok (d : DB) (st : Store) : Prop := store_all (session_names_user d) st.

Record server_wf (s : Server) : Prop := {
  swf_db : db_wf (db s);
  swf_store : store_ok (db s) (store s)
}.

(** What a route may do to the session: nothing, destroy it, or sign in a
    user of the database. *)
Definition session_effect (d' : DB) (rs rs' : ReqSession) : Prop :=
  rs' = rs \/ rs' = (session_destroy rs).1 \/
  exists n, rs' = set_userId rs n /\ user_exists d' n = true.

Definition handler_ok (h : Handler (S := DB)) : Prop :=
  forall b e rs d rs' d' resp, h b e rs d = (rs', d', resp) ->
    rtc db_step d d' /\ session_effect d' rs rs'.

(** *** Each route's effect *)

Lemma createUser_step d sa n db0 db1 r :
  DatabaseStorage.createUser d sa n db0 = (db1, r) -> rtc db_step db0 db1.
Proof. intros E. apply rtc_once. pose proof (step_createUser d sa n db0) as Hs. by rewrite E in Hs. Qed.
Lemma updateUserProfile_step uid p n db0 db1 r :
  DatabaseStorage.updateUserProfile uid p n db0 = (db1, r) -> rtc db_step db0 db1.
Proof. intros E. apply rtc_once. pose proof (step_updateUserProfile uid p n db0) as Hs. by rewrite E in Hs. Qed.
Lemma saveOption_step d n db0 db1 r :
  DatabaseStorage.saveOption d n db0 = (db1, r) -> rtc db_step db0 db1.
Proof. intros E. apply rtc_once. pose proof (step_saveOption d n db0) as Hs. by rewrite E in Hs. Qed.
Lemma saveSearchHistory_step d n db0 db1 r :
  DatabaseStorage.saveSearchHistory d n db0 = (db1, r) -> rtc db_step db0 db1.
Proof. intros E. apply rtc_once. pose proof (step_saveSearchHistory d n db0) as Hs. by rewrite E in Hs. Qed.

Lemma handler_unchanged d rs : rtc db_step d d /\ session_effect d rs rs.
Proof. split; [apply rtc_refl|by left]. Qed.

Lemma guarded_ok h : handler_ok h -> handler_ok (guarded h).
Proof.
  intros Hh b e rs d rs' d' resp. unfold guarded.
  destruct (isAuthenticated rs); [apply Hh|]. intros [= <- <- _]. apply handler_unchanged.
Qed.

(** Close a handler's branch: unchanged, or one storage step. *)
Ltac handler_branch :=
  first [ intros [= <- <- _]; apply handler_unchanged
        | match goal with
          | E : DatabaseStorage.createUser _ _ _ _ = _ |- _ => apply createUser_step in E
          | E : DatabaseStorage.updateUserProfile _ _ _ _ = _ |- _ => apply updateUserProfile_step in E
          | E : DatabaseStorage.saveOption _ _ _ = _ |- _ => apply saveOption_step in E
          | E : DatabaseStorage.saveSearchHistory _ _ _ = _ |- _ => apply saveSearchHistory_step in E
          end; intros [= <- <- _]; split; [done|by left] ].

Lemma signup_ok : handler_ok signup.
Proof.
  intros b e rs d rs' d' resp. unfold signup. cbn [getUserByUsername createUser storage].
  destruct (signUpSchema b) as [v|iss]; [|handler_branch].
  destruct (DatabaseStorage.getUserByUsername _ _); [handler_branch|].
  destruct (DatabaseStorage.createUser _ _ _ _) as [d1 [u|err]] eqn:E; [|handler_branch].
  intros [= <- <- _]. split; [by eapply createUser_step|].
  right; right. exists (Users.id u). split; [done|]. by eapply createUser_Ok_exists.
Qed.

Lemma signin_ok : handler_ok signin.
Proof.
  intros b e rs d rs' d' resp. unfold signin. cbn [getUserByUsername storage].
  destruct (signInSchema b) as [v|iss]; [|handler_branch].
  destruct (DatabaseStorage.getUserByUsername _ _) as [u|] eqn:E; [|handler_branch].
  destruct (bcrypt_compare _ _); [|handler_branch].
  intros [= <- <- _]. split; [apply rtc_refl|].
  right; right. exists (Users.id u). split; [done|]. by eapply getUserByUsername_exists.
Qed.

Lemma signout_ok : handler_ok signout.
Proof. intros b e rs d rs' d' resp [= <- <- _]. split; [apply rtc_refl|by right; left]. Qed.

Lemma dispatch_ok r : handler_ok (dispatch r).
Proof.
  destruct r; simpl; try apply signup_ok; try apply signin_ok; try apply signout_ok;
    apply guarded_ok; intros b e rs d rs' d' resp;
    cbn [getUserById updateUserProfile getSavedOptions saveOption removeSavedOption
         isSavedOption getSearchHistory saveSearchHistory storage]; cbv beta zeta.
  - destruct (DatabaseStorage.getUserById _ _); handler_branch.
  - destruct (updateUserProfileSchema b); [|handler_branch].
    destruct (DatabaseStorage.updateUserProfile _ _ _ _) as [d1 o] eqn:E. handler_branch.
  - handler_branch.
  - destruct (insertSavedOptionSchema _); [|handler_branch].
    destruct (DatabaseStorage.saveOption _ _ _) as [d1 [x|x]] eqn:E; handler_branch.
  - intros [= <- <- _]. split; [apply rtc_once; constructor|by left].
  - handler_branch.
  - handler_branch.
  - destruct (insertSearchHistorySchema _); [|handler_branch].
    destruct (DatabaseStorage.saveSearchHistory _ _ _) as [d1 [x|x]] eqn:E; handler_branch.
Qed.

(** *** One request keeps the invariant *)

Lemma session_names_user_touch d sd t :
  session_names_user d sd -> session_names_user d (mkSess (sess_userId sd) t).
Proof. done. Qed.

Lemma store_ok_grow d d' st : rtc db_step d d' -> store_ok d st -> store_ok d' st.
Proof.
  intros Hr Hs sid sd Hk. destruct (Hs sid sd Hk) as (n & Hn & Hx).
  exists n. split; [done|]. by eapply rtc_db_step_users_grow.
Qed.

Lemma handle_wf s req : server_wf s -> server_wf (handle s req).1.1.
Proof.
  intros [Hdb Hst]. unfold handle.
  pose proof (session_begin_cases (cookie req) (fresh_sid req) (now (env req)) (store s)) as Hc.
  pose proof (session_begin_store_all (session_names_user (db s))
                (cookie req) (fresh_sid req) (now (env req)) _ Hst) as Hst1.
  destruct (session_begin _ _ _ _) as [st1 rs]. simpl in Hst1.
  assert (modified rs = false) as Hmod
    by (destruct Hc as [[-> _]|(? & ? & _ & _ & _ & _ & ->)]; done).
  destruct (dispatch _ _ _ _ _) as [[rs' d'] resp] eqn:Ed.
  destruct (dispatch_ok _ _ _ _ _ _ _ _ Ed) as [Hsteps Heff].
  destruct (session_end rs' _ st1) as [st2 sc] eqn:Ee. simpl.
  split; [by eapply rtc_db_step_wf|].
  replace st2 with (session_end rs' (now (env req)) st1).1 by (by rewrite Ee).
  apply session_end_store_all; [apply session_names_user_touch|by eapply store_ok_grow|].
  intros Hd Hm. destruct Heff as [->|[->|(n & -> & Hn)]].
  - congruence.
  - discriminate.
  - by exists n.
Qed.

Lemma init_server_wf : server_wf init_server.
Proof. split; [apply empty_db_wf|]. intros sid sd Hk. simpl in Hk. by rewrite lookup_empty in Hk. Qed.

Lemma server_step_wf s s' : server_wf s -> server_step s s' -> server_wf s'.
Proof. intros Hs Hst. inversion Hst; subst. by apply handle_wf. Qed.

Lemma reachable_server_wf s : reachable s -> server_wf s.
Proof. apply rtc_preserved; [exact server_step_wf|exact init_server_wf]. Qed.

(** C1: Every reachable state keeps the tables well formed, and every session
    in the store names a user of the database. *)
Theorem reachable_wf s : reachable s -> server_wf s.
Proof. unfold reachable. apply (rtc_preserved _ _ server_step_wf), init_server_wf. Qed.

End Server.

(** ** What the invariant buys *)

Section Consequences.
Context `{Bcrypt} `{EmailCheck}.

Lemma stored_session_user s sid sd :
  server_wf s -> store s !! sid = Some sd ->
  exists n, sess_userId sd = Some n /\ user_exists (db s) n = true /\ 0 < n.
Proof.
  intros [Hdb Hst] Hk. destruct (Hst sid sd Hk) as (n & Hn & Hx).
  exists n. split_and!; [done|done|]. by apply (user_exists_bounds _ _ Hdb) in Hx as [? _].
Qed.

(** C11: In a reachable state a request carrying the cookie of an active
    session passes [isAuthenticated]: stored sessions always name a user
    and user ids are never 0, the one number JavaScript's [if] rejects. *)
Theorem reachable_active_session_authenticated s sid u fresh t :
  reachable s -> sid_status (store s) sid t = Active u ->
  isAuthenticated (session_begin (Some sid) fresh t (store s)).2 = true.
Proof.
  intros Hr Ha. apply reachable_server_wf in Hr.
  rewrite (session_begin_active (Some sid) fresh t (store s) sid u eq_refl Ha). simpl.
  unfold sid_status in Ha. destruct (store s !! sid) as [sd|] eqn:Hk; [|done].
  destruct (t <? sess_expires sd); [|done]. invc Ha.
  destruct (stored_session_user _ _ _ Hr Hk) as (n & -> & _ & Hpos). simpl.
  unfold isAuthenticated, js_truthy_num. simpl. apply negb_true_iff, Z.eqb_neq. lia.
Qed.

(** C12: In a reachable state [GET /api/auth/user] never answers 404: a
    request either has no signed-in session (401) or its session names a
    user the database holds (200). *)
Theorem reachable_getUser_never_404 s req :
  reachable s -> route req = GetUser ->
  status (handle s req).1.2 = 401 \/ status (handle s req).1.2 = 200.
Proof.
  intros Hr Hroute. apply reachable_server_wf in Hr. unfold handle. rewrite Hroute.
  pose proof (session_begin_cases (cookie req) (fresh_sid req) (now (env req)) (store s)) as Hc.
  destruct (session_begin _ _ _ _) as [st1 rs].
  simpl dispatch. unfold getUser, guarded.
  destruct Hc as [[-> _]|(sid & sd & _ & Hk & _ & _ & ->)].
  - left. simpl. by repeat case_match.
  - destruct (stored_session_user _ _ _ Hr Hk) as (n & Hn & Hx & Hpos).
    rewrite Hn. unfold isAuthenticated, js_truthy_num. simpl.
    rewrite (proj2 (Z.eqb_neq n 0)) by lia. simpl.
    destruct (user_exists_getUserById _ _ Hx) as (u & Hu).
    cbn [getUserById storage session_user userId]. rewrite Hu.
    right. by repeat case_match.
Qed.

End Consequences.

(** ** Concrete runs *)

#[local] Existing Instance plain_bcrypt.
#[local] Existing Instance has_at_sign.

(** [alice] signs up from a browser without a cookie; the new session is
    ["sid1"]. *)
Definition signup_req : Request :=
  mkReq None SignUp (demo_signup_body "alice" "alice@example.com") demo_env "sid1".

Definition after_signup : Server := (handle init_server signup_req).1.1.

Lemma after_signup_reachable : reachable after_signup.
Proof. apply rtc_once. constructor. simpl. rewrite dom_empty_L. apply not_elem_of_empty. Qed.

(** C1 at the state after one sign-up. *)
Lemma reachable_wf_witness : reachable after_signup /\ server_wf after_signup.
Proof. split; [exact after_signup_reachable|apply reachable_wf, after_signup_reachable]. Defined.

(** C11 at the cookie of the session the sign-up created. *)
Lemma reachable_active_session_authenticated_witness :
  reachable after_signup /\ sid_status (store after_signup) "sid1" 20 = Active (Some 1) /\
  isAuthenticated (session_begin (Some "sid1") "sid2" 20 (store after_signup)).2 = true.
Proof.
  split_and!; [exact after_signup_reachable|vm_compute; reflexivity|].
  apply (reachable_active_session_authenticated _ _ (Some 1));
    [exact after_signup_reachable|vm_compute; reflexivity].
Defined.

(** C12 at [GET /api/auth/user] with that cookie. *)
Lemma reachable_getUser_never_404_witness :
  let req := mkReq (Some "sid1") GetUser JNull (mkEnv 20 "salt") "sid2" in
  status (handle after_signup req).1.2 = 401 \/ status (handle after_signup req).1.2 = 200.
Proof. apply reachable_getUser_never_404; [exact after_signup_reachable|reflexivity]. Defined.
