(* ===== verification/TravelData.v ===== *)
(** * TravelData: travel options, the mock catalogue, and their JSON

    Models src/client/src/lib/travel-data.ts: the [TravelOption]
    interface (optional fields as [option]), the three mock lists, and the
    JSON the client builds from an option ([JSON.stringify] of the object
    literal, absent fields omitted).  The client reads [optionData] back
    without decoding it (home.tsx:220 is only a type annotation), so the
    views read its fields straight from the JSON.  Ratings are exact rationals; [4.5] is [45 # 10]. *)

From S2P Require Import Prelude.
From Stdlib Require Import QArith Qround.
Open Scope string_scope.
Close Scope Q_scope.

Inductive OptionType := Flight | Hotel | Activity.

#[export] Instance OptionType_eq_dec : EqDecision OptionType.
Proof. solve_decision. Defined.

(** The string of the [type] field. *)
Definition type_name (t : OptionType) : string :=
  match t with Flight => "flight" | Hotel => "hotel" | Activity => "activity" end.

Module TravelOption.
Record t := mk {
  id : string;
  type : OptionType;
  name : option string;
  airline : option string;
  departure : option string;
  arrival : option string;
  location : option string;
  price : Z;
  duration : option string;
  rating : Q;
  amenities : option (list string);
  image : string
}.
End TravelOption.

(** ** JSON of an option *)

(** A JavaScript number: an integer prints without a fraction. *)
Definition number_json (q : Q) : Json :=
  let r := Qred q in if (Qden r =? 1)%positive then JNum (Qnum r) else JFloat r.

Definition opt_field {A} (k : string) (f : A -> Json) (o : option A) : list (string * Json) :=
  match o with Some a => [(k, f a)] | None => [] end.

Definition option_to_json (o : TravelOption.t) : Json :=
  JObj ([("id", JStr (TravelOption.id o)); ("type", JStr (type_name (TravelOption.type o)))] ++
        opt_field "name" JStr (TravelOption.name o) ++
        opt_field "airline" JStr (TravelOption.airline o) ++
        opt_field "departure" JStr (TravelOption.departure o) ++
        opt_field "arrival" JStr (TravelOption.arrival o) ++
        opt_field "location" JStr (TravelOption.location o) ++
        [("price", JNum (TravelOption.price o))] ++
        opt_field "duration" JStr (TravelOption.duration o) ++
        [("rating", number_json (TravelOption.rating o))] ++
        opt_field "amenities" (fun xs => JArr (map JStr xs)) (TravelOption.amenities o) ++
        [("image", JStr (TravelOption.image o))]).

(** ** The mock catalogue ([mockFlights], [mockHotels], [mockActivities]) *)

Definition mockFlights : list TravelOption.t := [
  TravelOption.mk "flight1" Flight None (Some "SkyWings")
    (Some "New York (JFK)") (Some "Paris (CDG)") None 599
    (Some "7h 30m") (45 # 10)%Q None
    "https://images.unsplash.com/photo-1436491865332-7a61a109cc05?ixlib=rb-4.0.3&auto=format&fit=crop&w=400&h=250";
  TravelOption.mk "flight2" Flight None (Some "AirGlobal")
    (Some "New York (JFK)") (Some "Paris (CDG)") None 649
    (Some "8h 15m") (42 # 10)%Q None
    "https://images.unsplash.com/photo-1556388158-158dc0cd181c?ixlib=rb-4.0.3&auto=format&fit=crop&w=400&h=250";
  TravelOption.mk "flight3" Flight None (Some "EuroJet")
    (Some "New York (JFK)") (Some "Paris (CDG)") None 575
    (Some "7h 45m") (47 # 10)%Q None
    "https://images.unsplash.com/photo-1544031897-6bf37807e2fa?ixlib=rb-4.0.3&auto=format&fit=crop&w=400&h=250"
].

Definition mockHotels : list TravelOption.t := [
  TravelOption.mk "hotel1" Hotel (Some "Le Grand Hotel") None
    None None (Some "Paris, France") 250
    None (48 # 10)%Q (Some ["WiFi"; "Pool"; "Spa"; "Restaurant"])
    "https://images.unsplash.com/photo-1551882547-ff40c63fe5fa?ixlib=rb-4.0.3&auto=format&fit=crop&w=400&h=250";
  TravelOption.mk "hotel2" Hotel (Some "Hotel Moderne") None
    None None (Some "Paris, France") 180
    None (43 # 10)%Q (Some ["WiFi"; "Gym"; "Restaurant"])
    "https://images.unsplash.com/photo-1590490360182-c33d57733427?ixlib=rb-4.0.3&auto=format&fit=crop&w=400&h=250";
  TravelOption.mk "hotel3" Hotel (Some "Boutique Paris") None
    None None (Some "Paris, France") 320
    None (46 # 10)%Q (Some ["WiFi"; "Concierge"; "Bar"; "Room Service"])
    "https://images.unsplash.com/photo-1578683010236-d716f9a3f461?ixlib=rb-4.0.3&auto=format&fit=crop&w=400&h=250";
  TravelOption.mk "hotel4" Hotel (Some "Paris Palace") None
    None None (Some "Paris, France") 450
    None (49 # 10)%Q (Some ["WiFi"; "Pool"; "Spa"; "Restaurant"; "Valet"; "Butler"])
    "https://images.unsplash.com/photo-1582719478250-c89cae4dc85b?ixlib=rb-4.0.3&auto=format&fit=crop&w=400&h=250"
].

Definition mockActivities : list TravelOption.t := [
  TravelOption.mk "activity1" Activity (Some "Eiffel Tower Tour") None
    None None (Some "Paris, France") 45
    (Some "2 hours") (49 # 10)%Q None
    "https://images.unsplash.com/photo-1471623432079-b009d30b6729?ixlib=rb-4.0.3&auto=format&fit=crop&w=400&h=250";
  TravelOption.mk "activity2" Activity (Some "Seine River Cruise") None
    None None (Some "Paris, France") 35
    (Some "1.5 hours") (46 # 10)%Q None
    "https://images.unsplash.com/photo-1502602898536-47ad22581b52?ixlib=rb-4.0.3&auto=format&fit=crop&w=400&h=250";
  TravelOption.mk "activity3" Activity (Some "Louvre Museum Visit") None
    None None (Some "Paris, France") 25
    (Some "3 hours") (48 # 10)%Q None
    "https://images.unsplash.com/photo-1541961017774-22349e4a1262?ixlib=rb-4.0.3&auto=format&fit=crop&w=400&h=250";
  TravelOption.mk "activity4" Activity (Some "Montmartre Walking Tour") None
    None None (Some "Paris, France") 30
    (Some "2.5 hours") (47 # 10)%Q None
    "https://images.unsplash.com/photo-1502602898536-47ad22581b52?ixlib=rb-4.0.3&auto=format&fit=crop&w=400&h=250"
].


(** The catalogue a search shows: [[...mockFlights, ...mockHotels, ...mockActivities]]. *)
Definition allOptions : list TravelOption.t := mockFlights ++ mockHotels ++ mockActivities.

(** The catalogue's ids are distinct and each list holds one type, so the
    [key={option.id}] of every card is unique and [isSaved(option.id)]
    names one option. *)
Lemma allOptions_wf :
  NoDup (map TravelOption.id allOptions) /\
  Forall (fun o => TravelOption.type o = Flight) mockFlights /\
  Forall (fun o => TravelOption.type o = Hotel) mockHotels /\
  Forall (fun o => TravelOption.type o = Activity) mockActivities.
Proof. split_and!; [apply (bool_decide_unpack _ (dec := NoDup_dec _)); vm_compute; exact I|..]; repeat constructor. Qed.
