(* ===== verification/Home.v ===== *)
(** * Home: the search form, the home page and the option card

    Models the logic of src/client/src/pages/home.tsx,
    src/client/src/components/ui/travel-search.tsx and
    src/client/src/components/ui/travel-option-card.tsx.  The page's state
    ([activeTab], [searchResults], [isSearching]) changes by events; an
    event also yields the API calls the page makes.  [savedOptions] is the
    JSON array [GET /api/saved-options] answered.  The tab views are the
    branches the JSX takes, with the data each one shows. *)

From S2P Require Import Prelude TravelData.
Open Scope string_scope.

(** ** The search form (travel-search.tsx) *)

(** The form values: every field is a string, as the inputs and the
    select hold them. *)
Record SearchForm := mkSearchForm {
  destination : string; checkin : string; checkout : string; travelers : string
}.

Definition search_defaults : SearchForm := mkSearchForm "" "" "" "1".

Definition form_json (f : SearchForm) : Json :=
  JObj [("destination", JStr (destination f)); ("checkin", JStr (checkin f));
        ("checkout", JStr (checkout f)); ("travelers", JStr (travelers f))].

(** [onSubmit]: an empty destination returns before [onSearch]. *)
Definition search_onSubmit (f : SearchForm) : option Json :=
  if String.eqb (destination f) "" then None else Some (form_json f).

(** The select's items for the travelers field. *)
Definition travelers_options : list string := ["1"; "2"; "3"; "4"].

(** The form as a state machine: each input sets its field; a submit
    calls [onSearch] with the values, unless the destination is empty. *)
Inductive SearchFormEvent :=
| DestinationTyped (v : string)
| CheckinPicked (v : string)
| CheckoutPicked (v : string)
| TravelersPicked (v : string)
| SearchFormSubmitted.

Definition search_form_step (f : SearchForm) (e : SearchFormEvent) : SearchForm * list Json :=
  match e with
  | DestinationTyped v => (mkSearchForm v (checkin f) (checkout f) (travelers f), [])
  | CheckinPicked v => (mkSearchForm (destination f) v (checkout f) (travelers f), [])
  | CheckoutPicked v => (mkSearchForm (destination f) (checkin f) v (travelers f), [])
  | TravelersPicked v => (mkSearchForm (destination f) (checkin f) (checkout f) v, [])
  | SearchFormSubmitted =>
      (f, match search_onSubmit f with Some d => [d] | None => [] end)
  end.

(** ** The home page (home.tsx) *)

Inductive Tab := TabSearch | TabTrips | TabCompare.

Record HomeState := mkHome {
  activeTab : Tab;
  searchResults : list TravelOption.t;
  isSearching : bool
}.

Definition home_init : HomeState := mkHome TabSearch [] false.

(** The [value] of each [TabsTrigger] and [TabsContent]; [onValueChange]
    hands it to [setActiveTab]. *)
Definition tab_value (t : Tab) : string :=
  match t with TabSearch => "search" | TabTrips => "trips" | TabCompare => "compare" end.

Definition tab_of_value (v : string) : option Tab :=
  if String.eqb v "search" then Some TabSearch
  else if String.eqb v "trips" then Some TabTrips
  else if String.eqb v "compare" then Some TabCompare
  else None.

(** The triggers of the tab list, with their labels. *)
Definition tab_triggers : list (Tab * string) :=
  [(TabSearch, "Discover"); (TabTrips, "My Trips"); (TabCompare, "Compare")].

(** The requests the page sends through [apiRequest]. *)
Inductive ApiCall :=
| CallPostSearchHistory (body : Json)
| CallPostSavedOption (body : Json)
| CallDeleteSavedOption (optionId : string).

Inductive HomeEvent :=
| SearchSubmitted (searchData : Json)
| SearchTimerFired
| TabChanged (t : Tab)
| SaveClicked (option : TravelOption.t)
| RemoveClicked (optionId : string).

(** [saveOptionMutation]'s body. *)
Definition save_payload (o : TravelOption.t) : Json :=
  JObj [("optionId", JStr (TravelOption.id o));
        ("optionType", JStr (type_name (TravelOption.type o)));
        ("optionData", option_to_json o)].

(** [handleSearch] starts the spinner, switches to the search tab, arms the
    2-second timer and posts the search to the history; the timer shows
    the whole catalogue, whatever was searched. *)
Definition home_step (s : HomeState) (e : HomeEvent) : HomeState * list ApiCall :=
  match e with
  | SearchSubmitted d => (mkHome TabSearch (searchResults s) true, [CallPostSearchHistory d])
  | SearchTimerFired => (mkHome (activeTab s) allOptions false, [])
  | TabChanged t => (mkHome t (searchResults s) (isSearching s), [])
  | SaveClicked o => (s, [CallPostSavedOption (save_payload o)])
  | RemoveClicked oid => (s, [CallDeleteSavedOption oid])
  end.

(** What the page does when a call settles, by the mutation's
    [onSuccess] and [onError] ([ok]: [apiRequest] did not throw): the
    toasts, and whether [["/api/saved-options"]] is invalidated, which
    refetches the list.  A failed history post is only logged. *)
Inductive HomeToast :=
| ToastAdded | ToastSaveFailed | ToastRemoved | ToastRemoveFailed | ToastSearchCompleted.

Definition call_settled (c : ApiCall) (ok : bool) : list HomeToast * bool :=
  match c with
  | CallPostSavedOption _ => if ok then ([ToastAdded], true) else ([ToastSaveFailed], false)
  | CallDeleteSavedOption _ => if ok then ([ToastRemoved], true) else ([ToastRemoveFailed], false)
  | CallPostSearchHistory _ => ([], false)
  end.

(** The toast of the timer's callback. *)
Definition event_toasts (e : HomeEvent) : list HomeToast :=
  match e with SearchTimerFired => [ToastSearchCompleted] | _ => [] end.

Definition json_field (k : string) (j : Json) : option Json :=
  match j with JObj fs => obj_get k fs | _ => None end.

(** [saved[k] === str]: strict equality holds only for a string. *)
Definition field_is (k str : string) (j : Json) : bool :=
  match json_field k j with Some (JStr x) => String.eqb x str | _ => false end.

(** [isSaved]: [savedOptions.some(saved => saved.optionId === optionId)]. *)
Definition isSaved (savedOptions : list Json) (optionId : string) : bool :=
  existsb (field_is "optionId" optionId) savedOptions.

(** [getSavedOptionsByType]: the [optionData] of the saved rows of a
    type ([None] stands for [undefined]). *)
Definition getSavedOptionsByType (savedOptions : list Json) (type : string) : list (option Json) :=
  map (json_field "optionData")
    (List.filter (field_is "optionType" type) savedOptions).

(** [handleToggleSave] of the card: a saved option is removed, another
    one saved. *)
Definition handleToggleSave (saved : bool) (o : TravelOption.t) : HomeEvent :=
  if saved then RemoveClicked (TravelOption.id o) else SaveClicked o.

(** ** What each tab shows *)

Definition type_names : list string := ["flight"; "hotel"; "activity"].

(** The search tab: the spinner, or the results by type once some exist. *)
Inductive SearchView :=
| SearchSpinner
| SearchNothing
| SearchSections (sections : list (OptionType * list TravelOption.t)).

Definition search_view (s : HomeState) : SearchView :=
  if isSearching s then SearchSpinner
  else if bool_decide (searchResults s = []) then SearchNothing
  else SearchSections
    (map (fun t => (t, filter (fun o => TravelOption.type o = t) (searchResults s)))
         [Flight; Hotel; Activity]).

Inductive TripsView :=
| TripsLoading
| TripsEmpty
| TripsGroups (groups : list (string * list (option Json))).

(** The trips tab: types with no saved option are left out. *)
Definition trips_view (loadingSaved : bool) (savedOptions : list Json) : TripsView :=
  if loadingSaved then TripsLoading
  else if bool_decide (savedOptions = []) then TripsEmpty
  else TripsGroups
    (filter (fun g => g.2 <> []) (map (fun t => (t, getSavedOptionsByType savedOptions t)) type_names)).

Inductive CompareView :=
| CompareNotEnough
| CompareTables (tables : list (string * list (option Json))).

(** The compare tab: fewer than two saved options shows the hint; else a
    table for each type with at least two. *)
Definition compare_view (savedOptions : list Json) : CompareView :=
  if (length savedOptions <? 2)%nat then CompareNotEnough
  else CompareTables
    (filter (fun g => (2 <= length g.2)%nat)
       (map (fun t => (t, getSavedOptionsByType savedOptions t)) type_names)).

(** The tab list's values read back as the tabs they name. *)
Lemma tab_value_roundtrip t : tab_of_value (tab_value t) = Some t.
Proof. by destruct t. Qed.

(** ** What the search form hands to the page *)

Definition travelers_picked_ok (e : SearchFormEvent) : Prop :=
  match e with TravelersPicked v => v ∈ travelers_options | _ => True end.

(** Starting from the defaults, every call of [onSearch] in a run of the
    form carries the form's values as strings, with a non-empty destination
    and a travelers value of the select. *)
Lemma search_form_payloads es :
  Forall travelers_picked_ok es ->
  Forall (fun j => exists f, j = form_json f /\ destination f <> "" /\ travelers f ∈ travelers_options)
    (run_events search_form_step search_defaults es).2.
Proof.
  intros Hes.
  apply (run_events_inv search_form_step (fun f => travelers f ∈ travelers_options) travelers_picked_ok);
    [|by left|done].
  intros f [v|v|v|v|] Hf He; simpl in *; split; try done.
  unfold search_onSubmit. destruct (String.eqb_spec (destination f) ""); [done|].
  constructor; [|done]. by exists f.
Qed.

(** ** The compare tab can be blank *)

(** C25: With two or more saved options of which no type has two, the compare
    tab passes the "at least two" test and then draws no table at all. *)
Theorem compare_view_blank (saved : list Json) :
  (2 <= length saved)%nat ->
  Forall (fun t => length (List.filter (field_is "optionType" t) saved) < 2)%nat type_names ->
  compare_view saved = CompareTables [].
Proof.
  intros Hl Ht. unfold compare_view. destruct (Nat.ltb_spec (length saved) 2); [lia|].
  f_equal. unfold type_names in *. repeat (apply Forall_cons in Ht as [? Ht]).
  unfold getSavedOptionsByType. simpl. rewrite !filter_cons; simpl; rewrite !length_map, !decide_False by lia.
  done.
Qed.

(** ** Concrete runs *)

(** C25 at one saved flight and one saved hotel. *)
Lemma compare_view_blank_witness :
  compare_view [JObj [("optionType", JStr "flight")]; JObj [("optionType", JStr "hotel")]] = CompareTables [].
Proof. apply compare_view_blank; [simpl; lia|repeat constructor; simpl; lia]. Defined.
