(* ===== verification/ComparisonTable.v ===== *)
(** * ComparisonTable: the side-by-side table of saved options

    Models [getHeaders], [getRowData] and [renderStars] of
    src/client/src/components/ui/comparison-table.tsx.  A cell is its
    React [key] and the data its JSX shows; JavaScript's [||] and [&&] on
    strings treat [""] as false. *)

From S2P Require Import Prelude TravelData.
From Stdlib Require Import QArith Qround.
Open Scope string_scope.
Close Scope Q_scope.

Inductive CellContent :=
| NameCell (title : option string) (subtitle : string)
| PriceCell (price : Z)
| RatingCell (stars : option string) (rating : Q)
| TextCell (text : option string)
| BadgeCell (shown : list string) (more : option Z).

Record Cell := mkCell { cell_key : string; content : CellContent }.

(** [a || b] on optional strings. *)
Definition js_or (a b : option string) : option string :=
  match a with Some s => if String.eqb s "" then b else Some s | None => b end.

Definition truthy (a : option string) : bool :=
  match a with Some s => negb (String.eqb s "") | None => false end.

(** [Array(Math.floor(rating)).fill('★').join('')]; a negative length
    throws [RangeError] ([None]). *)
Definition renderStars (rating : Q) : option string :=
  let n := Qfloor rating in
  if (n <? 0)%Z then None else Some (String.concat "" (repeat "★" (Z.to_nat n))).

Definition getHeaders (type : string) : list string :=
  let baseHeaders := ["Option"; "Price"; "Rating"] in
  if String.eqb type "flight" then baseHeaders ++ ["Duration"; "Airline"]
  else if String.eqb type "hotel" then baseHeaders ++ ["Amenities"; "Location"]
  else if String.eqb type "activity" then baseHeaders ++ ["Duration"; "Location"]
  else baseHeaders.

(** The subtitle: the location, or [departure → arrival] when both are
    set, or nothing. *)
Definition subtitle (o : TravelOption.t) : string :=
  match js_or (TravelOption.location o) None with
  | Some l => l
  | None =>
      if truthy (TravelOption.departure o) && truthy (TravelOption.arrival o)
      then default "" (TravelOption.departure o) ++ " → " ++ default "" (TravelOption.arrival o)
      else ""
  end.

(** [amenities?.slice(0, 3)] and the [+n] badge for the rest. *)
Definition amenity_badges (am : option (list string)) : CellContent :=
  match am with
  | None => BadgeCell [] None
  | Some xs =>
      BadgeCell (take 3 xs)
        (if (3 <? length xs)%nat then Some (Z.of_nat (length xs) - 3)%Z else None)
  end.

Definition getRowData (type : string) (o : TravelOption.t) : list Cell :=
  let baseData :=
    [mkCell "name" (NameCell (js_or (TravelOption.name o) (TravelOption.airline o)) (subtitle o));
     mkCell "price" (PriceCell (TravelOption.price o));
     mkCell "rating" (RatingCell (renderStars (TravelOption.rating o)) (TravelOption.rating o))] in
  if String.eqb type "flight" then
    baseData ++ [mkCell "duration" (TextCell (TravelOption.duration o));
                 mkCell "airline" (TextCell (TravelOption.airline o))]
  else if String.eqb type "hotel" then
    baseData ++ [mkCell "amenities" (amenity_badges (TravelOption.amenities o));
                 mkCell "location" (TextCell (TravelOption.location o))]
  else if String.eqb type "activity" then
    baseData ++ [mkCell "duration" (TextCell (TravelOption.duration o));
                 mkCell "location" (TextCell (TravelOption.location o))]
  else baseData.

(** ** The table is rectangular *)

(** C26: Whatever the type, every row has one cell per header, and the cells
    of a row have distinct React keys. *)
Theorem comparison_table_rectangular type o :
  length (getRowData type o) = length (getHeaders type) /\
  NoDup (map cell_key (getRowData type o)).
Proof.
  unfold getRowData, getHeaders.
  destruct (String.eqb type "flight"); [|destruct (String.eqb type "hotel");
    [|destruct (String.eqb type "activity")]];
    (split; [done|apply (bool_decide_unpack _ (dec := NoDup_dec _)); vm_compute; exact I]).
Qed.

(** The badges show at most three amenities, and with the [+n] badge
    account for all of them. *)
Theorem amenity_badges_count xs :
  match amenity_badges (Some xs) with
  | BadgeCell shown more =>
      (length shown <= 3)%nat /\
      Z.of_nat (length shown) + default 0 more = Z.of_nat (length xs)
  | _ => False
  end%Z.
Proof.
  cbn [amenity_badges]. rewrite length_take. split; [lia|].
  destruct (3 <? length xs)%nat eqn:E;
    [apply Nat.ltb_lt in E|apply Nat.ltb_ge in E]; unfold default, id; lia.
Qed.
