(* ===== verification/Client.v ===== *)
(** * Client: what the pages send meets what the server does

    Composes the client model (Home.v, TravelData.v) with the routes
    (Routes.v) and the request cycle (Server.v): the JSON rows
    [GET /api/saved-options] answers are what the page's [isSaved] and
    [getSavedOptionsByType] read; the card's save payload is what
    [POST /api/saved-options] validates; the search form's payload is what
    [POST /api/search-history] validates; the paths the page builds are
    routed by Express to the routes they mean. *)

From S2P Require Import Prelude Schema Storage Session Auth Routes Server TravelData Home.
From Stdlib Require Import Ascii.
Open Scope string_scope.
Open Scope Z_scope.

(** ** Reading the server's rows *)

Lemma field_is_optionId oid r :
  field_is "optionId" oid (SavedOptions.to_json r) = String.eqb (SavedOptions.optionId r) oid.
Proof. done. Qed.

Lemma field_is_optionType t r :
  field_is "optionType" t (SavedOptions.to_json r) = String.eqb (SavedOptions.optionType r) t.
Proof. done. Qed.

Lemma json_field_optionData r :
  json_field "optionData" (SavedOptions.to_json r) = Some (SavedOptions.optionData r).
Proof. done. Qed.

#[export] Hint Rewrite field_is_optionId field_is_optionType json_field_optionData : tc_rw.

(** ** The card's save payload passes the schema *)

Lemma save_payload_schema o uid :
  insertSavedOptionSchema (spread_with (save_payload o) "userId" (JNum uid)) =
    Ok (mkInsertSaved uid (TravelOption.id o) (type_name (TravelOption.type o)) (option_to_json o)).
Proof. done. Qed.

Lemma option_to_json_not_null o : option_to_json o <> JNull.
Proof. done. Qed.

(** ** The client's view of saved options refines the server's *)

(** The array [GET /api/saved-options] sends: [res.json(savedOptions)]. *)
Definition saved_rows (uid : Z) (db : DB) : list Json :=
  map SavedOptions.to_json (DatabaseStorage.getSavedOptions uid db).

Lemma rows_optionId_Exists uid oid db :
  existsb (field_is "optionId" oid) (saved_rows uid db) = true <->
  Exists (saved_match uid oid) (savedOptions db).
Proof.
  unfold saved_rows. rewrite existsb_exists, Exists_exists. split.
  - intros (j & Hj & Hf). apply in_map_iff in Hj as (r & <- & Hr).
    apply list_elem_of_In, getSavedOptions_elem_of in Hr as [Hr Hu].
    rewrite field_is_optionId, String.eqb_eq in Hf. by exists r.
  - intros (r & Hr & Hu & Ho). exists (SavedOptions.to_json r). split.
    + apply in_map, list_elem_of_In, getSavedOptions_elem_of. done.
    + by rewrite field_is_optionId, String.eqb_eq.
Qed.

(** C7: The page's [isSaved(id)], computed from the rows the route sends, is
    the server's [isSavedOption] for the session's user: the heart icon
    shows exactly what [GET /api/saved-options/:id/check] would answer. *)
Theorem client_isSaved_refines uid oid db :
  isSaved (saved_rows uid db) oid =
  DatabaseStorage.isSavedOption uid oid db.
Proof.
  apply Bool.eq_iff_eq_true. unfold isSaved. by rewrite rows_optionId_Exists, isSavedOption_true.
Qed.

(** ** Saving from a card, then opening the trips tab *)

Section SaveThenList.
Context `{Bcrypt}.

(** A card's save request, on a well-formed database with room in the
    sequence, appends the session user's row and answers it. *)
Lemma postSavedOption_save_payload o env rs db :
  db_wf db -> isAuthenticated rs = true -> user_exists db (session_user rs) = true ->
  saved_options_id_seq db < serial_max ->
  let row := SavedOptions.mk (saved_options_id_seq db + 1) (session_user rs) (TravelOption.id o)
               (type_name (TravelOption.type o)) (option_to_json o) (now env) in
  postSavedOption (save_payload o) env rs db =
    (rs, set_saved db (savedOptions db ++ [row]) (saved_options_id_seq db + 1),
     json_ok (SavedOptions.to_json row)).
Proof.
  intros Hwf Ha Hu Hs. unfold postSavedOption, guarded. rewrite Ha.
  cbv beta iota zeta. rewrite save_payload_schema. cbn [saveOption storage].
  by rewrite saveOption_succeeds by (simpl; auto using option_to_json_not_null).
Qed.

(** C14: A signed-in user of a well-formed database clicks save on a card:
    the server answers 200, and the list the page then fetches marks the
    option saved and shows its data in the group of its type. *)
Theorem card_save_then_trips o env rs db :
  db_wf db -> isAuthenticated rs = true -> user_exists db (session_user rs) = true ->
  saved_options_id_seq db < serial_max ->
  exists db' row,
    postSavedOption (save_payload o) env rs db = (rs, db', json_ok (SavedOptions.to_json row)) /\
    getSavedOptionsRoute JNull env rs db' = (rs, db', json_ok (JArr (saved_rows (session_user rs) db'))) /\
    isSaved (saved_rows (session_user rs) db') (TravelOption.id o) = true /\
    Some (option_to_json o) ∈
      getSavedOptionsByType (saved_rows (session_user rs) db') (type_name (TravelOption.type o)).
Proof.
  intros Hwf Ha Hu Hs. rewrite postSavedOption_save_payload by done.
  unfold getSavedOptionsRoute, guarded. rewrite Ha. cbv beta iota zeta. cbn [getSavedOptions storage].
  set (row := SavedOptions.mk _ _ _ _ _ _).
  set (db' := set_saved _ _ _).
  assert (SavedOptions.to_json row ∈ map SavedOptions.to_json
            (DatabaseStorage.getSavedOptions (session_user rs) db')) as Hin.
  { apply list_elem_of_fmap_2, getSavedOptions_elem_of. split; [|done].
    apply elem_of_app. right. by apply list_elem_of_singleton. }
  exists db', row. unfold saved_rows. split_and!; [done|done|..].
  - unfold isSaved. apply existsb_exists. exists (SavedOptions.to_json row).
    split; [by apply list_elem_of_In|]. apply String.eqb_refl.
  - unfold getSavedOptionsByType.
    change (Some (option_to_json o)) with (json_field "optionData" (SavedOptions.to_json row)).
    apply list_elem_of_fmap_2, list_elem_of_In, filter_In.
    split; [by apply list_elem_of_In|]. rewrite field_is_optionType. apply String.eqb_refl.
Qed.
(** The toast and the refetch that follow: a signed-in user's save is
    answered 2xx, so the page says "Added to trip plan" and refetches. *)
Lemma card_save_settles o env rs db :
  db_wf db -> isAuthenticated rs = true -> user_exists db (session_user rs) = true ->
  saved_options_id_seq db < serial_max ->
  call_settled (CallPostSavedOption (save_payload o))
    (res_ok (postSavedOption (save_payload o) env rs db).2) = ([ToastAdded], true).
Proof. intros. by rewrite postSavedOption_save_payload. Qed.

(** A removal is answered 2xx exactly when the session is signed in. *)
Lemma remove_settles oid env rs (db : DB) :
  call_settled (CallDeleteSavedOption oid) (res_ok (deleteSavedOption oid JNull env rs db).2) =
  if isAuthenticated rs then ([ToastRemoved], true) else ([ToastRemoveFailed], false).
Proof. unfold deleteSavedOption, guarded. by destruct (isAuthenticated rs). Qed.
End SaveThenList.

(** ** The page's calls as HTTP requests *)


Definition api_route (c : ApiCall) : Route :=
  match c with
  | CallPostSearchHistory _ => PostSearchHistory
  | CallPostSavedOption _ => PostSavedOption
  | CallDeleteSavedOption oid => DeleteSavedOption oid
  end.

(** The JSON body of a call ([null] for a DELETE, which sends none). *)
Definition call_body (c : ApiCall) : Json :=
  match c with
  | CallPostSearchHistory b | CallPostSavedOption b => b
  | CallDeleteSavedOption _ => JNull
  end.

(** The request the server receives for a call sent with the browser's
    cookie. *)
Definition call_request (c : ApiCall) (ck : option string) (e : Env) (sid : string) : Request :=
  mkReq ck (api_route c) (call_body c) e sid.

(** ** The search form's request is never recorded *)

Section SearchNeverRecorded.
Context `{Bcrypt} `{EmailCheck}.

Lemma search_onSubmit_json f body :
  search_onSubmit f = Some body -> body = form_json f.
Proof. unfold search_onSubmit. by destruct (String.eqb _ _); intros [=]. Qed.

(** C16: Whatever the server's state and the session, the request the home
    page sends for a submitted search form (its dates are the input's
    strings) is answered 400 or 401 and leaves the database as it was:
    no search of the page reaches [search_history]. *)
Theorem home_search_never_recorded f body s sv c ck e sid :
  search_onSubmit f = Some body ->
  c ∈ (home_step s (SearchSubmitted body)).2 ->
  let req := call_request c ck e sid in
  db (handle sv req).1.1 = db sv /\ status (handle sv req).1.2 ∈ [400; 401].
Proof.
  intros Hf Hc. apply search_onSubmit_json in Hf as ->.
  apply list_elem_of_singleton in Hc as ->. cbn zeta.
  unfold handle, call_request. cbn [cookie route reqBody env fresh_sid api_route call_body].
  destruct (session_begin _ _ _ _) as [st1 rs]. cbn [dispatch]. unfold form_json.
  destruct (isAuthenticated rs) eqn:Ha.
  - destruct (postSearchHistory_rejects_string_dates (S := DB)
      [("destination", JStr (destination f)); ("checkin", JStr (checkin f));
       ("checkout", JStr (checkout f)); ("travelers", JStr (travelers f))] (checkin f) e rs (db sv) Ha)
      as [iss ->]; [done|].
    destruct (session_end _ _ _). split; [done|]. apply elem_of_cons. by left.
  - unfold postSearchHistory, guarded. rewrite Ha.
    destruct (session_end _ _ _). split; [done|]. apply elem_of_cons. right. by apply list_elem_of_singleton.
Qed.
End SearchNeverRecorded.

(** ** The page's requests reach the routes they mean *)

(** A path segment the URL carries as it is: no ['/'], none of the
    ['?'] and ['#'] that end the path, no ['%'] that starts an escape. *)
Definition plain_char (c : Ascii.ascii) : bool :=
  negb (Ascii.eqb c "/"%char || Ascii.eqb c "?"%char || Ascii.eqb c "#"%char || Ascii.eqb c "%"%char).

Definition plain_segment (s : string) : bool := forallb plain_char (String.list_ascii_of_string s).














(** The ids of the catalogue are such ids. *)
Lemma allOptions_plain_ids :
  Forall (fun o => TravelOption.id o <> "" /\ plain_segment (TravelOption.id o) = true) allOptions.
Proof. repeat constructor; done. Qed.

(** ** Concrete runs *)

#[local] Existing Instance plain_bcrypt.
#[local] Existing Instance has_at_sign.

Definition demo_hotel : TravelOption.t :=
  TravelOption.mk "hotel1" Hotel (Some "Le Grand Hotel") None None None (Some "Paris, France")
    250 None (QArith_base.inject_Z 5) (Some ["WiFi"; "Pool"]) "hotel1.jpg".

(** C14 at [alice] saving a hotel on the one-user database. *)
Lemma card_save_then_trips_witness :
  exists db' row,
    postSavedOption (save_payload demo_hotel) demo_env demo_auth_rs demo_db =
      (demo_auth_rs, db', json_ok (SavedOptions.to_json row)) /\
    getSavedOptionsRoute JNull demo_env demo_auth_rs db' = (demo_auth_rs, db', json_ok (JArr (saved_rows 1 db'))) /\
    isSaved (saved_rows 1 db') "hotel1" = true /\
    Some (option_to_json demo_hotel) ∈ getSavedOptionsByType (saved_rows 1 db') "hotel".
Proof.
  apply card_save_then_trips; [exact demo_db_wf|reflexivity|reflexivity|vm_compute; reflexivity].
Defined.

Definition demo_form : SearchForm := mkSearchForm "Paris" "2025-07-01" "2025-07-08" "2".

(** C16 at [alice]'s signed-in session searching Paris. *)
Lemma home_search_never_recorded_witness :
  let req := call_request (CallPostSearchHistory (form_json demo_form)) (Some "sid1") (mkEnv 20 "salt") "sid2" in
  db (handle after_signup req).1.1 = db after_signup /\ status (handle after_signup req).1.2 ∈ [400; 401].
Proof.
  apply (home_search_never_recorded demo_form (form_json demo_form) home_init);
    [reflexivity|apply list_elem_of_singleton; reflexivity].
Defined.

