(* ===== verification/Card.v ===== *)
(** * Card: the travel option card and its save button

    Models [renderCardContent] and [handleToggleSave] of
    src/client/src/components/ui/travel-option-card.tsx, and the search
    tab's card grids of src/client/src/pages/home.tsx, where each card gets
    [isSaved={isSaved(option.id)}], [onSave={() => handleSaveOption(option)}]
    and [onRemove={() => handleRemoveOption(option.id)}].  A card is the
    text the JSX renders (React renders [undefined] as nothing) with the
    button's icon, colour and the event its click raises.  The theorem
    composes the card with the home page, the routes and the storage: a
    click on the button, sent to the server, flips the state the card
    shows once the list is fetched again. *)

From S2P Require Import Prelude Schema Storage Session Auth Routes SavedSpec TravelData Home ComparisonTable Client.
From Stdlib Require Import QArith.
Open Scope string_scope.
Open Scope Z_scope.

(** ** The card *)

Inductive SaveIcon := HeartIcon | CheckIcon.

Record CardView := mkCard {
  card_image : string;
  card_alt : string;
  card_title : string;
  card_subtitle : string;
  card_price : Z;
  card_note : string;
  card_badges : list string;
  card_stars : option string;
  card_rating : Q;
  card_icon : SaveIcon;
  card_green : bool;
  card_onClick : HomeEvent
}.

(** [{x}] of an optional string inside JSX. *)
Definition jsx_text (o : option string) : string := default "" o.

(** [renderCardContent] for a card whose [isSaved] prop is [saved]: the
    three branches differ in the alt text, the title, the subtitle, the
    note under the price and the amenity badges; the stars, the rating and
    the button are the same. *)
Definition renderCardContent (o : TravelOption.t) (saved : bool) : CardView :=
  let icon := if saved then CheckIcon else HeartIcon in
  let ev := handleToggleSave saved o in
  match TravelOption.type o with
  | Flight =>
      mkCard (TravelOption.image o) "Flight" (jsx_text (TravelOption.airline o))
        (jsx_text (TravelOption.departure o) ++ " → " ++ jsx_text (TravelOption.arrival o))
        (TravelOption.price o) (jsx_text (TravelOption.duration o)) []
        (renderStars (TravelOption.rating o)) (TravelOption.rating o) icon saved ev
  | Hotel =>
      mkCard (TravelOption.image o) "Hotel" (jsx_text (TravelOption.name o))
        (jsx_text (TravelOption.location o))
        (TravelOption.price o) "per night" (default [] (TravelOption.amenities o))
        (renderStars (TravelOption.rating o)) (TravelOption.rating o) icon saved ev
  | Activity =>
      mkCard (TravelOption.image o) "Activity" (jsx_text (TravelOption.name o))
        (jsx_text (TravelOption.location o))
        (TravelOption.price o) (jsx_text (TravelOption.duration o)) []
        (renderStars (TravelOption.rating o)) (TravelOption.rating o) icon saved ev
  end.

(** The search tab's grids: one card per result of each section, marked
    with the page's [isSaved] over the fetched rows. *)
Definition search_cards (savedOptions : list Json) (v : SearchView)
    : list (OptionType * list CardView) :=
  match v with
  | SearchSections secs =>
      map (fun '(t, os) => (t, map (fun o => renderCardContent o (isSaved savedOptions (TravelOption.id o))) os)) secs
  | _ => []
  end.

(** ** The button *)

Lemma card_icon_of o b :
  card_icon (renderCardContent o b) = if b then CheckIcon else HeartIcon.
Proof. unfold renderCardContent. by destruct (TravelOption.type o). Qed.

Lemma isSaved_rows_alpha u oid db :
  isSaved (saved_rows u db) oid = abs_isSaved u oid (alpha db).
Proof.
  apply Bool.eq_iff_eq_true. unfold isSaved.
  by rewrite rows_optionId_Exists, <- isSavedOption_true, isSavedOption_alpha.
Qed.

Lemma abs_isSaved_save u o s : abs_isSaved u o (abs_save u o s) = true.
Proof. apply bool_decide_eq_true. unfold abs_save. set_solver. Qed.

Lemma abs_isSaved_remove u o s : abs_isSaved u o (abs_remove u o s) = false.
Proof. apply bool_decide_eq_false. unfold abs_remove. set_solver. Qed.

Section Toggle.
Context `{Bcrypt} `{EmailCheck}.

(** C33: A signed-in user of a well-formed database clicks the button of a
    card: each request the page sends for the click, once the server has
    handled it, flips whether the refetched list marks the option saved,
    and with it the card's icon (a heart becomes a check and back). *)
Theorem card_button_flips o s env rs db c rs' db' resp :
  db_wf db -> isAuthenticated rs = true -> user_exists db (session_user rs) = true ->
  saved_options_id_seq db < serial_max ->
  c ∈ (home_step s (card_onClick (renderCardContent o
         (isSaved (saved_rows (session_user rs) db) (TravelOption.id o))))).2 ->
  dispatch (api_route c) (call_body c) env rs db = (rs', db', resp) ->
  isSaved (saved_rows (session_user rs) db') (TravelOption.id o) =
    negb (isSaved (saved_rows (session_user rs) db) (TravelOption.id o)) /\
  card_icon (renderCardContent o (isSaved (saved_rows (session_user rs) db') (TravelOption.id o))) <>
    card_icon (renderCardContent o (isSaved (saved_rows (session_user rs) db) (TravelOption.id o))).
Proof.
  intros Hwf Ha Hu Hs.
  replace (card_onClick _) with (handleToggleSave (isSaved (saved_rows (session_user rs) db) (TravelOption.id o)) o)
    by (unfold renderCardContent; by destruct (TravelOption.type o)).
  rewrite !card_icon_of, !isSaved_rows_alpha.
  destruct (abs_isSaved _ _ (alpha db)); cbn [handleToggleSave home_step snd];
    intros ->%list_elem_of_singleton; cbn [api_route call_body dispatch].
  - unfold deleteSavedOption, guarded. rewrite Ha. intros [= <- <- <-].
    cbn [removeSavedOption storage]. by rewrite alpha_removeSavedOption, abs_isSaved_remove.
  - rewrite postSavedOption_save_payload by done. intros [= <- <- <-].
    by rewrite alpha_snoc, abs_isSaved_save.
Qed.
End Toggle.

(** ** Concrete runs *)

#[local] Existing Instance plain_bcrypt.
#[local] Existing Instance has_at_sign.

(** C33 at [alice] clicking the heart of [demo_hotel] on the one-user
    database. *)
Lemma card_button_flips_witness :
  let '(rs', db', resp) :=
    dispatch PostSavedOption (save_payload demo_hotel) demo_env demo_auth_rs demo_db in
  isSaved (saved_rows 1 db') (TravelOption.id demo_hotel) =
    negb (isSaved (saved_rows 1 demo_db) (TravelOption.id demo_hotel)) /\
  card_icon (renderCardContent demo_hotel (isSaved (saved_rows 1 db') (TravelOption.id demo_hotel))) <>
    card_icon (renderCardContent demo_hotel (isSaved (saved_rows 1 demo_db) (TravelOption.id demo_hotel))).
Proof.
  destruct (dispatch _ _ _ _ _) as [[rs' db'] resp] eqn:E.
  eapply (card_button_flips demo_hotel home_init demo_env demo_auth_rs demo_db
            (CallPostSavedOption (save_payload demo_hotel)));
    [exact demo_db_wf|reflexivity|reflexivity|reflexivity| |exact E].
  simpl. by apply list_elem_of_singleton.
Defined.
