(* ===== verification/Compare.v ===== *)
(** * Compare: the saved options as the trips and compare tabs render them

    Models the render of src/client/src/components/ui/comparison-table.tsx
    (the header row and one striped row per option, keyed by [option.id])
    and the cards of the trips tab of src/client/src/pages/home.tsx (keyed
    by [option.id] too, with a remove button).  Both list the
    [optionData] objects [getSavedOptionsByType] returns, so the React keys
    of their rows are the [id] fields of those objects ([row_keys]).

    The theorem composes the option card, the home page, the routes and
    the storage: the card's [isSaved] comes from the list, which is only
    refetched after a save has succeeded, so two quick clicks on the heart
    send two saves; [saveOption] stores both, and the refetched tabs list
    the option twice under the same key.  Reordering the server's rows does
    not change that: [getSavedOptionsByType] and [row_keys] respect
    permutations ([Proper] instances), which the proof rewrites along. *)

From S2P Require Import Prelude Schema Storage Session Auth Routes TravelData Home ComparisonTable Client Card.
From Stdlib Require Import QArith.
Open Scope string_scope.
Open Scope Z_scope.

(** ** The comparison table *)

Record TableRow := mkTableRow { tr_key : string; tr_white : bool; tr_cells : list Cell }.

Record TableView := mkTableView { tv_headers : list string; tv_rows : list TableRow }.

(** [ComparisonTable({ options, type })]: the headers, then a row per
    option, white on even indices ([index % 2 === 0]). *)
Definition comparisonTable (options : list TravelOption.t) (type : string) : TableView :=
  mkTableView (getHeaders type)
    (imap (fun i o => mkTableRow (TravelOption.id o) (Nat.even i) (getRowData type o)) options).

(** ** The trips tab's cards *)

(** [`${x}`] of an optional string: [undefined] is written out. *)
Definition js_template (o : option string) : string := default "undefined" o.

Record TripCard := mkTripCard {
  tc_key : string;
  tc_title : string;
  tc_subtitle : string;
  tc_price : Z;
  tc_stars : option string;
  tc_rating : Q;
  tc_onRemove : HomeEvent
}.

(** A card of the trips tab: [option.name || option.airline], then
    [option.location || `${option.departure} → ${option.arrival}`], the
    price, the stars and the rating, and the [×] button. *)
Definition trip_card (o : TravelOption.t) : TripCard :=
  mkTripCard (TravelOption.id o)
    (default "" (js_or (TravelOption.name o) (TravelOption.airline o)))
    (match js_or (TravelOption.location o) None with
     | Some l => l
     | None => js_template (TravelOption.departure o) ++ " → " ++ js_template (TravelOption.arrival o)
     end)
    (TravelOption.price o) (renderStars (TravelOption.rating o)) (TravelOption.rating o)
    (RemoveClicked (TravelOption.id o)).

(** The React keys of the rows both tabs draw for a type: [option.id] of
    each [optionData] ([None] for [undefined]). *)
Definition row_keys (opts : list (option Json)) : list (option Json) :=
  map (fun od => od ≫= json_field "id") opts.

(** ** Both views respect the order of the server's rows *)

#[export] Instance getSavedOptionsByType_perm :
  Proper ((≡ₚ) ==> (=) ==> (≡ₚ)) getSavedOptionsByType.
Proof.
  intros l l' Hl t ? <-. unfold getSavedOptionsByType. apply Permutation_map.
  induction Hl as [|x l l' _ IH|x y l|l l' l'' _ IH1 _ IH2]; simpl.
  - done.
  - case_match; [by constructor|done].
  - do 2 case_match; try constructor; done.
  - by etrans.
Qed.

#[export] Instance row_keys_perm : Proper ((≡ₚ) ==> (≡ₚ)) row_keys.
Proof. intros l l' Hl. by apply Permutation_map. Qed.

Lemma saved_rows_perm u db :
  saved_rows u db ≡ₚ map SavedOptions.to_json (filter (owned_by u) (savedOptions db)).
Proof. unfold saved_rows, DatabaseStorage.getSavedOptions. apply Permutation_map, merge_sort_Permutation. Qed.

Lemma not_NoDup_dup {A} (l : list A) x : ~ NoDup (l ++ [x; x]).
Proof.
  intros Hn. apply NoDup_app in Hn as (_ & _ & Hn). apply NoDup_cons in Hn as [Hx _].
  apply Hx. by left.
Qed.

(** ** Two clicks before the refetch *)

Section DoubleSave.
Context `{Bcrypt} `{EmailCheck}.

(** A card's save keeps the database well formed and the user in it, and
    uses one id of the sequence. *)
Lemma card_save_db o env rs db :
  db_wf db -> isAuthenticated rs = true -> user_exists db (session_user rs) = true ->
  saved_options_id_seq db < serial_max ->
  let db1 := (postSavedOption (save_payload o) env rs db).1.2 in
  db_wf db1 /\ user_exists db1 (session_user rs) = true /\
  saved_options_id_seq db1 = saved_options_id_seq db + 1.
Proof.
  intros Hwf Ha Hu Hs. rewrite postSavedOption_save_payload by done. simpl. split_and!; [|done|done].
  pose proof (saveOption_wf (mkInsertSaved (session_user rs) (TravelOption.id o)
                (type_name (TravelOption.type o)) (option_to_json o)) (now env) db Hwf) as W.
  by rewrite saveOption_succeeds in W by (simpl; auto using option_to_json_not_null).
Qed.

(** C34: A signed-in user clicks the heart of an option that is not saved,
    twice, before the list is refetched: the card still shows the heart, so
    the page sends the same save for both clicks.  Handled one after the
    other, on a well-formed database with two ids left, both saves succeed,
    and the option's type group in the refetched list, drawn by the trips
    tab and the compare table, holds two rows under the same React key. *)
Theorem double_click_duplicate_keys o s env rs db c :
  db_wf db -> isAuthenticated rs = true -> user_exists db (session_user rs) = true ->
  saved_options_id_seq db + 1 < serial_max ->
  isSaved (saved_rows (session_user rs) db) (TravelOption.id o) = false ->
  c ∈ (home_step s (card_onClick (renderCardContent o
         (isSaved (saved_rows (session_user rs) db) (TravelOption.id o))))).2 ->
  let '(rs1, db1, _) := dispatch (api_route c) (call_body c) env rs db in
  let '(_, db2, _) := dispatch (api_route c) (call_body c) env rs1 db1 in
  ~ NoDup (row_keys (getSavedOptionsByType (saved_rows (session_user rs) db2)
                                          (type_name (TravelOption.type o)))).
Proof.
  intros Hwf Ha Hu Hs Hn. rewrite Hn.
  replace (card_onClick _) with (handleToggleSave false o)
    by (unfold renderCardContent; by destruct (TravelOption.type o)).
  cbn [handleToggleSave home_step snd]. intros ->%list_elem_of_singleton.
  cbn [api_route call_body dispatch].
  destruct (card_save_db o env rs db Hwf Ha Hu ltac:(lia)) as (Hwf1 & Hu1 & Hs1).
  rewrite postSavedOption_save_payload in Hwf1, Hu1, Hs1 |- * by (done || lia). simpl in Hwf1, Hu1, Hs1.
  rewrite postSavedOption_save_payload by (done || lia). simpl.
  rewrite saved_rows_perm. simpl. rewrite !filter_app, !filter_cons_True, !filter_nil by done.
  unfold getSavedOptionsByType, row_keys. rewrite !map_app, !List.filter_app, !map_app, <- app_assoc.
  cbn [List.filter map app]. rewrite !field_is_optionType, !String.eqb_refl. cbn iota.
  apply not_NoDup_dup.
Qed.
End DoubleSave.

(** ** Concrete runs *)

#[local] Existing Instance plain_bcrypt.
#[local] Existing Instance has_at_sign.

(** C34 at [alice] double-clicking the heart of [demo_hotel]. *)
Lemma double_click_duplicate_keys_witness :
  let c := CallPostSavedOption (save_payload demo_hotel) in
  let '(rs1, db1, _) := dispatch (api_route c) (call_body c) demo_env demo_auth_rs demo_db in
  let '(_, db2, _) := dispatch (api_route c) (call_body c) demo_env rs1 db1 in
  ~ NoDup (row_keys (getSavedOptionsByType (saved_rows 1 db2) "hotel")).
Proof.
  apply (double_click_duplicate_keys demo_hotel home_init demo_env demo_auth_rs demo_db
           (CallPostSavedOption (save_payload demo_hotel)));
    [exact demo_db_wf|reflexivity|reflexivity|reflexivity|reflexivity|].
  simpl. by apply list_elem_of_singleton.
Defined.
