(* ===== verification/Profile.v ===== *)
(** * Profile: the profile page, its form and its PATCH request

    Models the logic of src/client/src/pages/profile.tsx: the form's
    default values, the header's name, the interest badges ([selectedInterests] and
    [toggleInterest]) and the request [onSubmit] sends.  The page is a
    state machine ([profile_step]) over the query's answer, the form, the
    badges and the mutation, with its view ([profile_view]).  [handleSubmit]
    first runs [zodResolver(updateUserProfileSchema)] on the form values
    and passes zod's output (the schema's keys in shape order) to the
    mutation, which sends [{...data, interests: selectedInterests}]. *)

From S2P Require Import Prelude Schema Storage Session Auth Routes.
Open Scope string_scope.

(** ** The form *)

Record ProfileForm := mkProfileForm {
  pf_firstName : string; pf_lastName : string; pf_phone : string;
  pf_budgetRange : string; pf_travelStyle : string; pf_interests : Json
}.

(** The header's name: [user?.firstName && user?.lastName ?
    `${firstName} ${lastName}` : user?.email || "User"]. *)
Definition profile_title (user : option Users.t) : string :=
  match user ≫= Users.firstName, user ≫= Users.lastName with
  | Some f, Some l =>
      if negb (String.eqb f "") && negb (String.eqb l "") then f ++ " " ++ l
      else str_or (Users.email <$> user) "User"
  | _, _ => str_or (Users.email <$> user) "User"
  end.

(** JavaScript truthiness of a JSON value. *)
Definition json_truthy (v : Json) : bool :=
  match v with
  | JNull => false
  | JBool b => b
  | JNum n => js_truthy_num n
  | JFloat q => negb (QArith_base.Qeq_bool q (QArith_base.inject_Z 0))
  | JStr s => negb (String.eqb s "")
  | JArr _ | JObj _ => true
  end.

(** [defaultValues] of [useForm], from the user the query returned. *)
Definition profile_defaults (user : option Users.t) : ProfileForm :=
  mkProfileForm
    (str_or (user ≫= Users.firstName) "")
    (str_or (user ≫= Users.lastName) "")
    (str_or (user ≫= Users.phone) "")
    (str_or (user ≫= Users.budgetRange) "mid-range")
    (str_or (user ≫= Users.travelStyle) "relaxation")
    (match user ≫= Users.interests with
     | Some j => if json_truthy j then j else JArr []
     | None => JArr []
     end).

Definition profile_form_json (f : ProfileForm) : Json :=
  JObj [("firstName", JStr (pf_firstName f)); ("lastName", JStr (pf_lastName f));
        ("phone", JStr (pf_phone f)); ("budgetRange", JStr (pf_budgetRange f));
        ("travelStyle", JStr (pf_travelStyle f)); ("interests", pf_interests f)].

(** zod's output object: an absent optional key stays absent, [null]
    stays [null]. *)
Definition nullish_field {A} (k : string) (f : A -> Json) (o : option (option A))
    : list (string * Json) :=
  match o with None => [] | Some None => [(k, JNull)] | Some (Some a) => [(k, f a)] end.

Definition profile_fields (d : ProfileUpdate) : list (string * Json) :=
  [("firstName", JStr (pu_firstName d)); ("lastName", JStr (pu_lastName d))] ++
  nullish_field "phone" JStr (pu_phone d) ++
  nullish_field "budgetRange" JStr (pu_budgetRange d) ++
  nullish_field "travelStyle" JStr (pu_travelStyle d) ++
  nullish_field "interests" (fun j => j) (pu_interests d).

(** ** The interest badges *)

Definition selectedInterests_init : list string := [].

Definition availableInterests : list string :=
  ["Nature"; "Food"; "History"; "Adventure"; "Culture"; "Beaches";
   "Mountains"; "Cities"; "Wildlife"; "Photography"; "Music"; "Art"].

(** The items of the two selects. *)
Definition budget_options : list string := ["budget"; "mid-range"; "luxury"; "ultra-luxury"].
Definition style_options : list string := ["adventure"; "relaxation"; "cultural"; "business"; "family"].

(** [toggleInterest]: remove a selected interest, append another. *)
Definition toggleInterest (interest : string) (prev : list string) : list string :=
  if existsb (String.eqb interest) prev
  then List.filter (fun i => negb (String.eqb i interest)) prev
  else prev ++ [interest].

(** [form.handleSubmit(onSubmit)]: the body of the PATCH request, if the
    resolver accepts the form. *)
Definition profile_onSubmit (f : ProfileForm) (selected : list string) : option Json :=
  match updateUserProfileSchema (profile_form_json f) with
  | Ok data => Some (spread_with (JObj (profile_fields data)) "interests" (JArr (map JStr selected)))
  | Err _ => None
  end.

(** [data] with [interests] replaced. *)
Definition with_interests (d : ProfileUpdate) (i : option (option Json)) : ProfileUpdate :=
  mkProfile (pu_firstName d) (pu_lastName d) (pu_phone d) (pu_budgetRange d) (pu_travelStyle d) i.

Lemma profile_title_nonempty user : profile_title user <> "".
Proof.
  unfold profile_title.
  destruct (user ≫= Users.firstName) as [f|], (user ≫= Users.lastName) as [l|];
    try apply str_or_nonempty; try done.
  destruct (String.eqb_spec f ""), (String.eqb_spec l ""); simpl; try (apply str_or_nonempty; done).
  destruct f; [done|]. discriminate.
Qed.

(** ** The page as a state machine

    [useQuery(["/api/auth/user"])] starts with the cached user, if any,
    and is loading otherwise.  [useForm] reads [defaultValues] once, at the
    first render, from the [user] of that render; later answers of the
    query do not reset the form.  The submit button is disabled while the
    mutation is pending. *)

Inductive ProfileToast := ToastProfileUpdated | ToastProfileFailed.

Record ProfilePage := mkProfilePage {
  pp_loading : bool;
  pp_user : option Users.t;
  pp_form : ProfileForm;
  pp_selected : list string;
  pp_pending : bool;
  pp_toasts : list ProfileToast
}.

Inductive ProfileEvent :=
| UserLoaded (u : option Users.t)
| FormEdited (f : ProfileForm)
| InterestClicked (i : string)
| ProfileSubmitted
| ProfileSaved (ok : bool).

(** The page's requests: the PATCH of the mutation, and the refetch
    [invalidateQueries] starts. *)
Inductive ProfileEffect := PatchProfileRequest (body : Json) | RefetchUser.

Definition profile_mount (cached : option Users.t) : ProfilePage :=
  mkProfilePage (negb (bool_decide (is_Some cached))) cached (profile_defaults cached)
    selectedInterests_init false [].

Definition profile_step (p : ProfilePage) (e : ProfileEvent) : ProfilePage * list ProfileEffect :=
  match e with
  | UserLoaded u =>
      (mkProfilePage false u (pp_form p) (pp_selected p) (pp_pending p) (pp_toasts p), [])
  | FormEdited f =>
      (mkProfilePage (pp_loading p) (pp_user p) f (pp_selected p) (pp_pending p) (pp_toasts p), [])
  | InterestClicked i =>
      (mkProfilePage (pp_loading p) (pp_user p) (pp_form p) (toggleInterest i (pp_selected p))
         (pp_pending p) (pp_toasts p), [])
  | ProfileSubmitted =>
      if pp_pending p then (p, []) else
      match profile_onSubmit (pp_form p) (pp_selected p) with
      | Some body =>
          (mkProfilePage (pp_loading p) (pp_user p) (pp_form p) (pp_selected p) true (pp_toasts p),
           [PatchProfileRequest body])
      | None => (p, [])
      end
  | ProfileSaved true =>
      (mkProfilePage (pp_loading p) (pp_user p) (pp_form p) (pp_selected p) false
         (pp_toasts p ++ [ToastProfileUpdated]), [RefetchUser])
  | ProfileSaved false =>
      (mkProfilePage (pp_loading p) (pp_user p) (pp_form p) (pp_selected p) false
         (pp_toasts p ++ [ToastProfileFailed]), [])
  end.

(** What the page renders: the spinner, or the header's name and e-mail,
    each interest badge with whether it is selected, and the button's
    label. *)
Inductive ProfileView :=
| ProfileLoadingView
| ProfileMain (title : string) (email : option string) (badges : list (string * bool)) (button : string).

(** The badges: every available interest, marked when
    [selectedInterests.includes(interest)]. *)
Definition interest_badges (selected : list string) : list (string * bool) :=
  map (fun i => (i, existsb (String.eqb i) selected)) availableInterests.

Definition profile_button_label (pending : bool) : string :=
  if pending then "Updating..." else "Update Profile".

Definition profile_view (p : ProfilePage) : ProfileView :=
  if pp_loading p then ProfileLoadingView
  else ProfileMain (profile_title (pp_user p)) (Users.email <$> pp_user p)
    (interest_badges (pp_selected p)) (profile_button_label (pp_pending p)).

Definition is_form_edit (e : ProfileEvent) : bool :=
  match e with FormEdited _ => true | _ => false end.

Definition is_patch (x : ProfileEffect) : bool :=
  match x with PatchProfileRequest _ => true | RefetchUser => false end.

Lemma str_or_elem o d (l : list string) :
  d ∈ l -> (forall x, o = Some x -> x = "" \/ x ∈ l) -> str_or o d ∈ l.
Proof.
  intros Hd Ho. destruct o as [x|]; simpl; [|done].
  destruct (String.eqb_spec x ""); [done|]. by destruct (Ho x eq_refl).
Qed.

(** The selects' starting values are items of the selects whenever the
    user's stored values are (or are unset), so the form never opens on a
    blank select. *)
Lemma profile_defaults_selectable user :
  (forall b, (user ≫= Users.budgetRange) = Some b -> b = "" \/ b ∈ budget_options) ->
  (forall t, (user ≫= Users.travelStyle) = Some t -> t = "" \/ t ∈ style_options) ->
  pf_budgetRange (profile_defaults user) ∈ budget_options /\
  pf_travelStyle (profile_defaults user) ∈ style_options.
Proof.
  intros Hb Ht. split; apply str_or_elem; try done; apply list_elem_of_In; simpl; tauto.
Qed.

(** ** The schema reads back its own output *)

Lemma z_string_min_Ok k m fs s :
  z_string k (min_check k 1 m) fs = Ok s -> s <> "".
Proof.
  unfold z_string. destruct (obj_get k fs) as [[| | | |[|c s']| |]|]; try discriminate.
  destruct (min_check _ _ _ _); by intros [= <-].
Qed.

Lemma z_nullish_json_not_null k fs r :
  z_nullish k as_json fs = Ok r -> r <> Some (Some JNull).
Proof. unfold z_nullish. destruct (obj_get k fs) as [[]|]; simpl; by intros [= <-]. Qed.

Lemma updateUserProfileSchema_Ok_names j d :
  updateUserProfileSchema j = Ok d ->
  pu_firstName d <> "" /\ pu_lastName d <> "" /\ pu_interests d <> Some (Some JNull).
Proof.
  unfold updateUserProfileSchema, z_object. destruct j; try discriminate.
  intros Hd. apply rmap_Ok_inv in Hd as ([f [l [p [b [t i]]]]] & Hz & ->).
  apply zpair_Ok in Hz as [Hf Hz]. apply zpair_Ok in Hz as [Hl Hz].
  do 3 apply zpair_Ok in Hz as [_ Hz].
  split_and!; [eapply z_string_min_Ok; eauto..|by eapply z_nullish_json_not_null].
Qed.

(** zod's output parses to itself: what the page sends back is what the
    resolver accepted. *)
Lemma profile_fields_roundtrip d :
  pu_firstName d <> "" -> pu_lastName d <> "" -> pu_interests d <> Some (Some JNull) ->
  updateUserProfileSchema (JObj (profile_fields d)) = Ok d.
Proof.
  destruct d as [f l p bu t i]; intros Hf Hl Hi. simpl in *.
  unfold updateUserProfileSchema, z_object.
  destruct p as [[]|], bu as [[]|], t as [[]|], i as [[[]|]|]; try done;
    cbn -[min_check]; by rewrite !min_check_1.
Qed.

Lemma profile_fields_set_interests d v :
  v <> JNull ->
  obj_set "interests" v (profile_fields d) = profile_fields (with_interests d (Some (Some v))).
Proof.
  intros Hv. destruct d as [f l p bu t i].
  destruct p as [[]|], bu as [[]|], t as [[]|], i as [[]|]; reflexivity.
Qed.

Lemma updateUserProfile_getUserById uid p now db :
  DatabaseStorage.getUserById uid (DatabaseStorage.updateUserProfile uid p now db).1 =
  (DatabaseStorage.updateUserProfile uid p now db).2.
Proof. done. Qed.

(** ** Saving the profile *)

Section ProfileSubmit.
Context `{Bcrypt}.

(** C17: Saving the profile of a signed-in user stores as interests exactly
    the page's [selectedInterests], and the response is the stored row:
    since that list starts empty and is never loaded from the user, a
    save without touching the badges erases the interests. *)
Theorem profile_submit_sets_interests f selected body env rs db u :
  profile_onSubmit f selected = Some body -> isAuthenticated rs = true ->
  DatabaseStorage.getUserById (session_user rs) db = Some u ->
  exists u',
    DatabaseStorage.getUserById (session_user rs) (patchProfile body env rs db).1.2 = Some u' /\
    Users.interests u' = Some (JArr (map JStr selected)) /\
    (patchProfile body env rs db).2 = mkResp 200 (Some (Users.to_json u')).
Proof.
  unfold profile_onSubmit. destruct (updateUserProfileSchema _) as [d|] eqn:Hd; [|discriminate].
  intros [= <-] Ha Hu. apply updateUserProfileSchema_Ok_names in Hd as (Hf & Hl & _).
  unfold patchProfile, guarded. rewrite Ha. cbv beta iota zeta.
  rewrite spread_with_obj, profile_fields_set_interests, profile_fields_roundtrip by done.
  cbn [updateUserProfile storage].
  pose proof (updateUserProfile_returns _ (with_interests d (Some (Some (JArr (map JStr selected)))))
                (now env) _ _ Hu) as Hr.
  pose proof (updateUserProfile_getUserById (session_user rs)
                (with_interests d (Some (Some (JArr (map JStr selected))))) (now env) db) as Hg.
  destruct (DatabaseStorage.updateUserProfile _ _ _ _) as [db' o]. simpl in *. subst o.
  by eexists.
Qed.
End ProfileSubmit.

(** ** The badges *)

(** C28: [toggleInterest] flips whether an interest is selected, leaves the
    others as they were and never duplicates one. *)
Theorem toggleInterest_spec x l :
  NoDup l ->
  NoDup (toggleInterest x l) /\
  (x ∈ toggleInterest x l <-> x ∉ l) /\
  (forall y, y <> x -> y ∈ toggleInterest x l <-> y ∈ l).
Proof.
  intros Hl. unfold toggleInterest.
  destruct (existsb (String.eqb x) l) eqn:E.
  - apply existsb_exists in E as (z & Hz & Ez). apply String.eqb_eq in Ez as <-.
    split_and!.
    + apply NoDup_ListNoDup, List.NoDup_filter, NoDup_ListNoDup, Hl.
    + rewrite list_elem_of_In, filter_In, String.eqb_refl. split; [by intros []|].
      intros Hn. by apply list_elem_of_In in Hz.
    + intros y Hy. rewrite !list_elem_of_In, filter_In.
      rewrite (proj2 (String.eqb_neq y x) Hy). tauto.
  - assert (x ∉ l) as Hx.
    { intros Hin. apply list_elem_of_In in Hin.
      assert (existsb (String.eqb x) l = true) as E' by (apply existsb_exists; exists x; by rewrite String.eqb_refl).
      congruence. }
    split_and!.
    + apply NoDup_app. split_and!; [done| |apply NoDup_singleton].
      intros y Hy Hy'. apply list_elem_of_singleton in Hy'. by subst.
    + rewrite elem_of_app, list_elem_of_singleton. tauto.
    + intros y Hy. rewrite elem_of_app, list_elem_of_singleton. tauto.
Qed.

(** ** The form keeps the values of the first render *)

Lemma profile_onSubmit_blank selected : profile_onSubmit (profile_defaults None) selected = None.
Proof. reflexivity. Qed.

(** C37: [useForm] reads its default values once: in any run of the page
    without an edit of the form, the form holds the values computed from
    the user known at the first render, whatever the query answers later.
    On a fresh load, with no cached user, those are blank names, which the
    resolver refuses: such a run never sends the PATCH, so the user has to
    retype both names before the profile can be saved. *)
Theorem profile_form_frozen cached es :
  Forall (fun e => is_form_edit e = false) es ->
  pp_form (run_events profile_step (profile_mount cached) es).1 = profile_defaults cached /\
  (cached = None ->
   Forall (fun x => is_patch x = false) (run_events profile_step (profile_mount cached) es).2).
Proof.
  intros Hes.
  destruct (run_events_inv profile_step (fun p => pp_form p = profile_defaults cached)
              (fun e => is_form_edit e = false) (fun x => cached = None -> is_patch x = false)
              (profile_mount cached) es) as [H1 H2]; [|done|done|].
  - intros p e Hp He. destruct e as [u|f|i| |[]]; simpl in He |- *; try discriminate;
      try (split; [done|by repeat constructor]).
    destruct (pp_pending p); [done|].
    destruct (profile_onSubmit _ _) as [body|] eqn:E; simpl; [|done].
    split; [done|]. constructor; [|done]. intros ->. rewrite Hp, profile_onSubmit_blank in E.
    discriminate.
  - split; [done|]. intros Hc. eapply Forall_impl; [exact H2|]. simpl. auto.
Qed.

(** ** Concrete runs *)

#[local] Existing Instance plain_bcrypt.

(** [alice] with the interest ["Food"] on record. *)
Definition demo_user_interests : Users.t :=
  Users.mk 1 "alice" "alice@example.com" "secret" (Some "Alice") (Some "Smith") None None None
    (Some (JArr [JStr "Food"])) 0 0.

Definition demo_db_interests : DB := mkDB [demo_user_interests] [] [] 1 0 0.

Definition demo_profile_form : ProfileForm :=
  mkProfileForm "Alice" "Smith" "" "mid-range" "relaxation" (JArr []).

Definition demo_auth_session : ReqSession := mkReqSess "sid1" (Some 1) false false false.

(** C17 at a save that leaves the badges alone: ["Food"] is erased. *)
Lemma profile_submit_sets_interests_witness :
  exists body, profile_onSubmit demo_profile_form selectedInterests_init = Some body /\
  exists u',
    DatabaseStorage.getUserById 1 (patchProfile body demo_env demo_auth_session demo_db_interests).1.2 = Some u' /\
    Users.interests u' = Some (JArr []) /\
    (patchProfile body demo_env demo_auth_session demo_db_interests).2 = mkResp 200 (Some (Users.to_json u')).
Proof.
  eexists. split; [reflexivity|].
  apply (profile_submit_sets_interests demo_profile_form selectedInterests_init _ demo_env
           demo_auth_session demo_db_interests demo_user_interests); reflexivity.
Defined.

(** C28 at selecting ["Art"] next to ["Food"]. *)
Lemma toggleInterest_spec_witness :
  NoDup (toggleInterest "Art" ["Food"]) /\
  ("Art" ∈ toggleInterest "Art" ["Food"] <-> "Art" ∉ ["Food"]) /\
  (forall y, y <> "Art" -> y ∈ toggleInterest "Art" ["Food"] <-> y ∈ ["Food"]).
Proof. apply toggleInterest_spec. apply NoDup_singleton. Defined.

(** C37 at a fresh load of [alice]'s profile, submitted untouched. *)
Lemma profile_form_frozen_witness :
  let es := [UserLoaded (Some demo_user_interests); ProfileSubmitted] in
  pp_form (run_events profile_step (profile_mount None) es).1 = profile_defaults None /\
  Forall (fun x => is_patch x = false) (run_events profile_step (profile_mount None) es).2.
Proof.
  destruct (profile_form_frozen None [UserLoaded (Some demo_user_interests); ProfileSubmitted])
    as [H1 H2]; [by repeat constructor|].
  split; [exact H1|by apply H2].
Defined.
