(* ===== verification/Navigation.v ===== *)
(** * Navigation: the menu bar's highlighted item and its links

    Models [navItems], [isActive], the user menu's label, the mobile
    sheet's open state and the sign-out link of
    src/client/src/components/ui/navigation.tsx, and follows the sign-out
    link through the server of Server.v: Express routes it nowhere, and
    the session middleware keeps the signed-in session alive. *)

From S2P Require Import Prelude Schema Storage Session Auth Routes Server.
From Stdlib Require Import Ascii.
Open Scope string_scope.

Record NavItem := mkNavItem { nav_path : string; nav_label : string }.

Definition navItems : list NavItem :=
  [mkNavItem "/" "Discover"; mkNavItem "/trips" "My Trips"; mkNavItem "/compare" "Compare"].

(** [isActive]: the root only on ["/"], another item on every location
    it prefixes ([location.startsWith(path)]). *)
Definition isActive (location path : string) : bool :=
  if String.eqb path "/" then String.eqb location "/" else String.prefix path location.

(** The sign-out entry of both menus: [<a href="/api/logout">], a plain
    link, so a [GET]. *)
Definition logout_href : string := "/api/logout".

(** The user menu's label: [user?.firstName || user?.email || "User"]. *)
Definition nav_display_name (user : option Users.t) : string :=
  str_or (user ≫= Users.firstName) (str_or (Users.email <$> user) "User").

(** [mobileMenuOpen]: the menu button opens the sheet, a link in it
    closes it. *)
Inductive NavEvent := MenuOpenChange (open : bool) | MobileLinkClicked.

Definition nav_menu_step (mobileMenuOpen : bool) (e : NavEvent) : bool :=
  match e with MenuOpenChange b => b | MobileLinkClicked => false end.

(** ** What the bar renders *)

(** A link of the bar: its target, its label and whether it is
    highlighted. *)
Record NavButton := mkNavButton { nb_href : string; nb_label : string; nb_active : bool }.

Definition nav_item_button (location : string) (it : NavItem) : NavButton :=
  mkNavButton (nav_path it) (nav_label it) (isActive location (nav_path it)).

(** The desktop bar: the items, then the user menu (the profile link
    with the label, and the sign-out link). *)
Definition nav_desktop (location : string) (user : option Users.t) : list NavButton :=
  map (nav_item_button location) navItems ++
  [mkNavButton "/profile" (nav_display_name user) false; mkNavButton logout_href "" false].

(** The mobile sheet: the same items, then "Profile" and "Sign Out"; every
    one of its buttons closes the sheet. *)
Definition nav_mobile (location : string) : list NavButton :=
  map (nav_item_button location) navItems ++
  [mkNavButton "/profile" "Profile" false; mkNavButton logout_href "Sign Out" false].

(** ** At most one item is highlighted *)

Lemma prefix_cons c s l : String.prefix (String c s) l = true ->
  exists l', l = String c l' /\ String.prefix s l' = true.
Proof.
  destruct l as [|c' l']; simpl; [discriminate|].
  destruct (ascii_dec c c') as [->|]; [eauto|discriminate].
Qed.

(** C27: Whatever the location, the menu highlights at most one item, and the
    root item exactly on ["/"]. *)
Theorem nav_at_most_one_active location :
  (length (List.filter (fun it => isActive location (nav_path it)) navItems) <= 1)%nat /\
  (isActive location "/" = true <-> location = "/").
Proof.
  split; [|unfold isActive; simpl; apply String.eqb_eq].
  unfold navItems, isActive. simpl.
  destruct (String.eqb location "/") eqn:Ea, (String.prefix "/trips" location) eqn:Eb,
    (String.prefix "/compare" location) eqn:Ec; simpl; try lia;
    try (apply String.eqb_eq in Ea; subst; discriminate).
  apply prefix_cons in Eb as (l1 & -> & Eb). apply prefix_cons in Eb as (l2 & -> & _).
  apply prefix_cons in Ec as (l3 & [= <-] & Ec). by apply prefix_cons in Ec as (l4 & [=] & _).
Qed.

(** The user menu never shows an empty label, and shows the first name
    whenever the user has a non-empty one. *)
Lemma nav_display_name_spec user :
  nav_display_name user <> "" /\
  (forall u f, user = Some u -> Users.firstName u = Some f -> f <> "" -> nav_display_name user = f).
Proof.
  split; [by apply str_or_nonempty, str_or_nonempty|].
  intros u f -> Hf Hne. unfold nav_display_name. simpl. rewrite Hf. simpl.
  by destruct (String.eqb_spec f "").
Qed.

(** Both menus list the same items with the same highlight, and both
    end with a link to the profile and the sign-out link. *)
Lemma nav_menus_agree location user :
  take 3 (nav_desktop location user) = take 3 (nav_mobile location) /\
  drop 3 (map nb_href (nav_desktop location user)) = ["/profile"; logout_href] /\
  drop 3 (map nb_href (nav_mobile location)) = ["/profile"; logout_href].
Proof. done. Qed.

(** ** The sign-out link reaches no route *)

Section Logout.
Context `{Bcrypt} `{EmailCheck}.

(** C19: The menu's sign-out link does not sign out.  No method of the
    server serves its path (the sign-out route is
    [POST /api/auth/signout]), so following it runs only the session
    middleware: the database is unchanged, no cookie is set, and a session
    that was active for a user when the link was followed stays active for
    that user for [maxAge] (24 hours) more. *)
Theorem nav_logout_keeps_session s m ck b e fresh sid u t :
  ck = Some sid -> sid_status (store s) sid (now e) = Active u -> t < now e + maxAge ->
  route_of m (split_path logout_href) = NotFound /\
  let '(s', _, setCookie) := serve s m logout_href ck b e fresh in
  db s' = db s /\ setCookie = None /\ sid_status (store s') sid t = Active u.
Proof.
  intros Hck Hs Ht. assert (Hr : route_of m (split_path logout_href) = NotFound) by (by destruct m).
  split; [done|]. unfold serve, middleware_only. rewrite Hr.
  rewrite (session_begin_active ck fresh (now e) (store s) sid u) by done.
  destruct (session_end_touch (mkReqSess sid u false false false) (now e) (store s) t) as [H1 H2];
    [done..|]. destruct (session_end _ _ _) as [st2 sc]. simpl in *. by subst.
Qed.
End Logout.

(** ** Concrete runs *)

#[local] Existing Instance plain_bcrypt.
#[local] Existing Instance has_at_sign.

(** C19 at [alice], signed in by her sign-up, following the link at time
    20: her session is still active a moment before 24 hours later. *)
Lemma nav_logout_keeps_session_witness :
  let '(s', _, setCookie) := serve after_signup GET logout_href (Some "sid1") JNull (mkEnv 20 "salt") "sid2" in
  db s' = db after_signup /\ setCookie = None /\ sid_status (store s') "sid1" (20 + maxAge - 1) = Active (Some 1).
Proof.
  apply (nav_logout_keeps_session after_signup GET (Some "sid1") JNull (mkEnv 20 "salt") "sid2" "sid1" (Some 1)
           (20 + maxAge - 1)); [reflexivity|vm_compute; reflexivity|vm_compute; reflexivity].
Defined.
