(* ===== verification/Landing.v ===== *)
(** * Landing: the signed-out landing page

    Models the state and the one handler of
    src/client/src/pages/landing.tsx: four inputs kept in [useState]
    (destination, check-in, check-out and the travelers select, which
    starts at ["1"]), and [handleSearch], which only raises an alert.  The
    page's links go to the sign-in and sign-up pages. *)

From S2P Require Import Prelude.
Open Scope string_scope.

Record LandingForm := mkLanding {
  l_destination : string; l_checkin : string; l_checkout : string; l_travelers : string
}.

Definition landing_init : LandingForm := mkLanding "" "" "" "1".

(** The select's items. *)
Definition travelers_values : list string := ["1"; "2"; "3"; "4"].

Inductive LandingEvent :=
| SetDestination (v : string)
| SetCheckin (v : string)
| SetCheckout (v : string)
| SetTravelers (v : string)
| SearchClicked.

(** What the page does besides re-rendering: an [alert]. *)
Inductive LandingEffect := Alert (msg : string).

Definition landing_alert : string := "Please sign in to start searching for travel options!".

Definition landing_step (f : LandingForm) (e : LandingEvent) : LandingForm * list LandingEffect :=
  match e with
  | SetDestination v => (mkLanding v (l_checkin f) (l_checkout f) (l_travelers f), [])
  | SetCheckin v => (mkLanding (l_destination f) v (l_checkout f) (l_travelers f), [])
  | SetCheckout v => (mkLanding (l_destination f) (l_checkin f) v (l_travelers f), [])
  | SetTravelers v => (mkLanding (l_destination f) (l_checkin f) (l_checkout f) v, [])
  | SearchClicked => (f, [Alert landing_alert])
  end.

(** The links of the header and of the call to action. *)
Definition landing_links : list string := ["/signin"; "/signup"; "/signup"].

(** ** What typing and searching do *)

(** Whatever is typed, a run of the page raises one alert per click on
    the search button and nothing else: the values never leave the page. *)
Lemma landing_run_effects f es :
  (run_events landing_step f es).2 =
  repeat (Alert landing_alert) (length (List.filter (fun e => match e with SearchClicked => true | _ => false end) es)).
Proof.
  revert f. induction es as [|e es IH]; intros f; [done|]. simpl.
  destruct (landing_step f e) as [f1 out1] eqn:E.
  destruct (run_events landing_step f1 es) as [f2 out2] eqn:E2. simpl.
  specialize (IH f1). rewrite E2 in IH. simpl in IH. subst out2.
  destruct e; simpl in E; injection E as <- <-; done.
Qed.
